(** * ratox: the filesystem-as-UI event engine, embedded from [ratox.c]

    The C functions are embedded as Rocq functions of the same name.
    Bytes ([uint8_t]) and C integers are [Z]; C strings are [string];
    [enum]s are inductive types; the two [TAILQ]s are lists in queue order.
    Calls that leave the program (system calls, the Tox transport) take
    their results from an environment record and are recorded, in program
    order, in a trace kept in the program state. *)

From Stdlib Require Import ZArith List String Ascii Bool Lia DecimalString.
Import ListNotations.
Open Scope string_scope.
Open Scope Z_scope.

(** ** Constants of [tox.h] used by the program *)

(** Modelled from the spec: [tox.h] is not part of the sources; the spec gives
    a 32-byte public key and a 38-byte address. *)
Definition TOX_PUBLIC_KEY_SIZE : nat := 32.
(** Modelled from the spec: see [TOX_PUBLIC_KEY_SIZE]. *)
Definition TOX_ADDRESS_SIZE : nat := 38.
Definition TOX_CLIENT_ID_SIZE : nat := TOX_PUBLIC_KEY_SIZE.
Definition TOX_FRIEND_ADDRESS_SIZE : nat := TOX_ADDRESS_SIZE.

(** ** Hex codec: [id2str] and [str2id] *)

Module Hex.

(** [char hex[] = "0123456789ABCDEF"] *)
Definition hex : string := "0123456789ABCDEF".

(** [hex[k]]; the callers index with a value masked by [0xf]. *)
Definition hex_at (k : Z) : ascii :=
  match String.get (Z.to_nat k) hex with
  | Some c => c
  | None => "000"%char
  end.

(** [id[i]] for a byte array. *)
Definition byte_at (id : list Z) (i : nat) : Z := nth i id 0.

(** The body of the [for] loop of [id2str], from index [i] for [cnt] rounds;
    the final [*idstr = '\0'] is the end of the Rocq string. *)
Fixpoint id2str_from (id : list Z) (i cnt : nat) : string :=
  match cnt with
  | O => EmptyString
  | S c =>
      String (hex_at (Z.land (Z.shiftr (byte_at id i) 4) 15))
        (String (hex_at (Z.land (byte_at id i) 15))
           (id2str_from id (S i) c))
  end.

Definition id2str (id : list Z) : string :=
  id2str_from id 0 TOX_CLIENT_ID_SIZE.

(** Value of one hexadecimal digit, as [sscanf]'s [%x] reads it: both cases. *)
Definition hexval (c : ascii) : option Z :=
  let n := Z.of_nat (nat_of_ascii c) in
  if (48 <=? n) && (n <=? 57) then Some (n - 48)
  else if (65 <=? n) && (n <=? 70) then Some (n - 55)
  else if (97 <=? n) && (n <=? 102) then Some (n - 87)
  else None.

(** [isspace] in the C locale. *)
Definition isspace (c : ascii) : bool :=
  let n := Z.of_nat (nat_of_ascii c) in
  (n =? 32) || ((9 <=? n) && (n <=? 13)).

(** Result of [sscanf(p, "%2hhx", &b)]. *)
Inductive scan : Type :=
| Assigned (v : Z)     (* a value converted and stored, as an [unsigned char] *)
| NoMatch.             (* matching failure or end of input: nothing stored *)

(** The white space a conversion skips before its field; it does not count
    for the width. *)
Fixpoint skip_space (p : string) : string :=
  match p with
  | EmptyString => EmptyString
  | String c rest => if isspace c then skip_space rest else p
  end.

(** [sscanf(p, "%2hhx", &b)]: leading white space is skipped; the field is
    at most two characters, a sign counting as one of them, followed by
    hexadecimal digits of either case; the value is stored modulo 256.  A
    field without a digit stores nothing.  The characters [0x] fill the
    field and convert as the digit 0, which is also what the second branch
    gives for them. *)
Definition sscanf_2hhx (p : string) : scan :=
  match skip_space p with
  | EmptyString => NoMatch
  | String c1 rest =>
      if (Ascii.eqb c1 "+" || Ascii.eqb c1 "-")%char then
        match rest with
        | EmptyString => NoMatch
        | String c2 _ =>
            match hexval c2 with
            | Some h => Assigned ((if Ascii.eqb c1 "-" then - h else h) mod 256)
            | None => NoMatch
            end
        end
      else
        match hexval c1 with
        | None => NoMatch
        | Some h =>
            match rest with
            | EmptyString => Assigned h
            | String c2 _ =>
                match hexval c2 with
                | Some l => Assigned (16 * h + l)
                | None => Assigned h
                end
            end
        end
  end.

(** [p += 2] *)
Definition advance2 (p : string) : string :=
  match p with
  | String _ (String _ rest) => rest
  | _ => EmptyString
  end.

(** [id[i] = v] on an array, for an index inside it. *)
Fixpoint store (i : nat) (v : Z) (id : list Z) : list Z :=
  match id, i with
  | [], _ => []
  | _ :: t, O => v :: t
  | h :: t, S j => h :: store j v t
  end.

(** The [for] loop of [str2id]: [cnt] rounds left, index [i], cursor [p].
    [None] is a store past the end of the caller's array ("caller has to
    ensure that id is big enough"). *)
Fixpoint str2id_loop (cnt i : nat) (p : string) (id : list Z) : option (list Z) :=
  match cnt with
  | O => Some id
  | S c =>
      match sscanf_2hhx p with
      | NoMatch => str2id_loop c (S i) (advance2 p) id
      | Assigned v =>
          if Nat.ltb i (List.length id)
          then str2id_loop c (S i) (advance2 p) (store i v id)
          else None
      end
  end.

(** [str2id(idstr, id)]: the contents of [id] afterwards, [None] when a
    byte is stored past the end of [id]. *)
Definition str2id (idstr : string) (id : list Z) : option (list Z) :=
  str2id_loop (Nat.div (String.length idstr) 2) 0 idstr id.

(** [tolower] applied to every character (the all-lowercase form). *)
Definition tolower (c : ascii) : ascii :=
  let n := nat_of_ascii c in
  if (Nat.leb 65 n && Nat.leb n 90)%bool then ascii_of_nat (n + 32) else c.

(** A string with [g] applied to every character. *)
Fixpoint smap (g : ascii -> ascii) (s : string) : string :=
  match s with
  | EmptyString => EmptyString
  | String c r => String (g c) (smap g r)
  end.

Fixpoint lowercase (s : string) : string :=
  match s with
  | EmptyString => EmptyString
  | String c r => String (tolower c) (lowercase r)
  end.

Definition is_byte (b : Z) : Prop := 0 <= b < 256.

End Hex.

(** ** The encoder of the older program, [src/ratatox.c] *)

Module Ratatox.

(** [uint8_t hex[] = "0123456789abcdef"] *)
Definition hex : string := "0123456789abcdef".

Definition hex_at (k : Z) : ascii :=
  match String.get (Z.to_nat k) hex with
  | Some c => c
  | None => "000"%char
  end.

(** The [for] loop of its [id2str], from index [i] for [cnt] rounds. *)
Fixpoint id2str_from (id : list Z) (i cnt : nat) : string :=
  match cnt with
  | O => EmptyString
  | S c =>
      String (hex_at (Z.land (Z.shiftr (Hex.byte_at id i) 4) 15))
        (String (hex_at (Z.land (Hex.byte_at id i) 15))
           (id2str_from id (S i) c))
  end.

Definition id2str (id : list Z) : string :=
  id2str_from id 0 TOX_CLIENT_ID_SIZE.

End Ratatox.


(** ** Operating-system interface *)

Inductive errno : Type :=
| EINTR | EWOULDBLOCK | ENOENT | EEXIST | ENXIO | EPIPE
| EOTHER.   (* any other error number *)

Definition errno_eqb (a b : errno) : bool :=
  match a, b with
  | EINTR, EINTR | EWOULDBLOCK, EWOULDBLOCK | ENOENT, ENOENT
  | EEXIST, EEXIST | ENXIO, ENXIO | EPIPE, EPIPE | EOTHER, EOTHER => true
  | _, _ => false
  end.

(** Result of a system call: [Ok v] is the non-negative return value,
    [Err e] is the return value [-1] with [errno = e]. *)
Inductive sysret : Type :=
| Ok (v : Z)
| Err (e : errno).

(** What one [read] on a FIFO finds: the bytes in the pipe (none when every
    writer has closed), or an error. *)
Inductive readres : Type :=
| RdBytes (bs : list Z)
| RdErr (e : errno).

Inductive oflag : Type :=
| O_RDONLY | O_WRONLY | O_NONBLOCK | O_TRUNC | O_CREAT | O_APPEND.

(** [enum { NONE, FIFO, STATIC, FOLDER }] *)
Inductive ftype : Type := NONE | FIFO | STATIC | FOLDER.

(** [struct file] *)
Record file : Type := mkfile {
  f_type  : ftype;
  f_name  : string;
  f_flags : list oflag
}.

(** [enum { IN, OUT, ERR }] and [gfiles] *)
Inductive gfile_ix : Type := IN | OUT | ERR.

Definition gfiles (m : gfile_ix) : file :=
  match m with
  | IN  => mkfile FIFO   "in"  [O_RDONLY; O_NONBLOCK]
  | OUT => mkfile NONE   "out" [O_WRONLY; O_TRUNC; O_CREAT]
  | ERR => mkfile STATIC "err" [O_WRONLY; O_TRUNC; O_CREAT]
  end.

Definition gfile_pos (m : gfile_ix) : nat :=
  match m with IN => 0 | OUT => 1 | ERR => 2 end%nat.

(** [enum { NAME, STATUS, STATE, REQUEST, NOSPAM }] *)
Inductive slot_ix : Type := NAME | STATUS | STATE | REQUEST | NOSPAM.

Definition slot_pos (i : slot_ix) : nat :=
  match i with NAME => 0 | STATUS => 1 | STATE => 2 | REQUEST => 3 | NOSPAM => 4 end%nat.

(** [struct slot]; the callback is the handler of the same slot below. *)
Record slot : Type := mkslot {
  sl_name        : string;
  sl_outisfolder : bool;
  sl_dirfd       : Z;
  sl_fd          : list Z
}.

(** The per-friend files, in the order of the [enum]. *)
Inductive ffile_ix : Type :=
| FTEXT_IN | FFILE_IN | FCALL_IN | FTEXT_OUT | FFILE_OUT | FREMOVE
| FONLINE | FNAME | FSTATUS | FSTATE | FFILE_STATE.

Definition ffiles (k : ffile_ix) : file :=
  match k with
  | FTEXT_IN    => mkfile FIFO   "text_in"      [O_RDONLY; O_NONBLOCK]
  | FFILE_IN    => mkfile FIFO   "file_in"      [O_RDONLY; O_NONBLOCK]
  | FCALL_IN    => mkfile FIFO   "call_in"      [O_RDONLY; O_NONBLOCK]
  | FTEXT_OUT   => mkfile STATIC "text_out"     [O_WRONLY; O_APPEND; O_CREAT]
  | FFILE_OUT   => mkfile FIFO   "file_out"     [O_WRONLY; O_NONBLOCK]
  | FREMOVE     => mkfile FIFO   "remove"       [O_RDONLY; O_NONBLOCK]
  | FONLINE     => mkfile STATIC "online"       [O_WRONLY; O_TRUNC; O_CREAT]
  | FNAME       => mkfile STATIC "name"         [O_WRONLY; O_TRUNC; O_CREAT]
  | FSTATUS     => mkfile STATIC "status"       [O_WRONLY; O_TRUNC; O_CREAT]
  | FSTATE      => mkfile STATIC "state"        [O_WRONLY; O_TRUNC; O_CREAT]
  | FFILE_STATE => mkfile STATIC "file_pending" [O_WRONLY; O_TRUNC; O_CREAT]
  end.

Definition ffile_pos (k : ffile_ix) : nat :=
  match k with
  | FTEXT_IN => 0 | FFILE_IN => 1 | FCALL_IN => 2 | FTEXT_OUT => 3
  | FFILE_OUT => 4 | FREMOVE => 5 | FONLINE => 6 | FNAME => 7
  | FSTATUS => 8 | FSTATE => 9 | FFILE_STATE => 10
  end%nat.

Definition all_ffiles : list ffile_ix :=
  [FTEXT_IN; FFILE_IN; FCALL_IN; FTEXT_OUT; FFILE_OUT; FREMOVE;
   FONLINE; FNAME; FSTATUS; FSTATE; FFILE_STATE].

(** Descriptor arrays: [fd[k]] and [fd[k] = v]. *)
Definition fd_get (fds : list Z) (k : nat) : Z := nth k fds (-1).
Definition fd_set (fds : list Z) (k : nat) (v : Z) : list Z := Hex.store k v fds.

(** ** Transfers, friends, requests *)

Record timespec : Type := mktime { tv_sec : Z; tv_nsec : Z }.

(** [enum { TRANSFER_NONE, ... }] *)
Inductive tstate : Type :=
| TRANSFER_NONE | TRANSFER_INITIATED | TRANSFER_PENDING
| TRANSFER_INPROGRESS | TRANSFER_PAUSED.

Definition tstate_eqb (a b : tstate) : bool :=
  match a, b with
  | TRANSFER_NONE, TRANSFER_NONE | TRANSFER_INITIATED, TRANSFER_INITIATED
  | TRANSFER_PENDING, TRANSFER_PENDING | TRANSFER_INPROGRESS, TRANSFER_INPROGRESS
  | TRANSFER_PAUSED, TRANSFER_PAUSED => true
  | _, _ => false
  end.

(** [struct transfer].  [buf] is [None] for [NULL] and [Some sz] for a block
    of [sz] bytes from [malloc]; the two [int] flags only ever hold 0 or 1. *)
Record transfer : Type := mktransfer {
  tx_fnum       : Z;
  tx_buf        : option Z;
  tx_chunksz    : Z;
  tx_n          : Z;
  tx_pendingbuf : bool;
  tx_state      : tstate;
  tx_lastblock  : timespec;
  tx_cooldown   : bool
}.

(** [struct friend] *)
Record friend : Type := mkfriend {
  fr_name    : string;
  fr_num     : Z;
  fr_id      : list Z;
  fr_idstr   : string;
  fr_dirfd   : Z;
  fr_fd      : list Z;
  fr_tx      : transfer;
  fr_rxstate : tstate
}.

(** [struct request]; [msg] is [None] for the [NULL] left by [calloc]. *)
Record request : Type := mkrequest {
  rq_id    : list Z;
  rq_idstr : string;
  rq_msg   : option string;
  rq_fd    : Z
}.

(** [enum TOX_CONNECTION], printed with [%d] as 0, 1, 2. *)
Inductive TOX_CONNECTION : Type :=
| TOX_CONNECTION_NONE | TOX_CONNECTION_TCP | TOX_CONNECTION_UDP.

Definition connection_num (s : TOX_CONNECTION) : Z :=
  match s with
  | TOX_CONNECTION_NONE => 0 | TOX_CONNECTION_TCP => 1 | TOX_CONNECTION_UDP => 2
  end.

(** [enum TOX_FILE_CONTROL]; [TOX_FILE_CONTROL_OTHER] stands for a value
    outside the three named ones. *)
Inductive TOX_FILE_CONTROL : Type :=
| TOX_FILE_CONTROL_RESUME | TOX_FILE_CONTROL_PAUSE | TOX_FILE_CONTROL_CANCEL
| TOX_FILE_CONTROL_OTHER (v : Z).

(** ** Trace of the calls that leave the program *)

Inductive toxcall : Type :=
| ToxFriendDelete (frnum : Z)
| ToxFriendAddNorequest (key : list Z)
| ToxFriendAdd (address : list Z) (msg : string)
| ToxFileControl (frnum fnum : Z) (ctrl : TOX_FILE_CONTROL)
| ToxFileSend (frnum : Z) (buf : option Z) (n : Z)
| ToxSelfSetNospam (v : Z)
| ToxSelfSetStatus (i : Z)
| ToxGetSavedata.

Inductive event : Type :=
| EvUnlinkat (dirfd : Z) (name : string)
| EvClose (fd : Z)
| EvMkfifoat (dirfd : Z) (name : string)
| EvOpenat (dirfd : Z) (name : string) (flags : list oflag)
| EvRead (fd : Z) (sz : Z)
| EvFtruncate (fd : Z)
| EvLseek (fd : Z)
| EvDprintf (fd : Z) (text : string)
| EvMkdir (name : string)
| EvOpendir (name : string)
| EvOpenSave
| EvWriteSave (fd sz : Z)
| EvFsync (fd : Z)
| EvLog (text : string)       (* logmsg, after its time stamp *)
| EvWarn (text : string)      (* weprintf *)
| EvTox (c : toxcall).

(** ** Program state *)

Record world : Type := mkworld {
  friendhead : list friend;
  reqhead    : list request;
  gslots     : list slot;
  idfd       : Z;
  trace      : list event
}.

(** How a call ends: it returns; [eprintf] ends the process; the program
    reads through a null pointer or writes outside an array; or the model
    has no answer (the script of read results is used up). *)
Inductive outcome (A : Type) : Type :=
| Done (a : A) (w : world)
| Fatal (msg : string) (w : world)
| Fault (w : world)
| Stuck (w : world).
Arguments Done {A} a w.
Arguments Fatal {A} msg w.
Arguments Fault {A} w.
Arguments Stuck {A} w.

Definition M (A : Type) : Type := world -> outcome A.

Definition ret {A} (a : A) : M A := fun w => Done a w.

Definition bind {A B} (m : M A) (k : A -> M B) : M B :=
  fun w =>
    match m w with
    | Done a w' => k a w'
    | Fatal msg w' => Fatal msg w'
    | Fault w' => Fault w'
    | Stuck w' => Stuck w'
    end.

Notation "x <- m ;; k" := (bind m (fun x => k))
  (at level 61, m at next level, right associativity).
Notation "m ;; k" := (bind m (fun _ => k))
  (at level 61, right associativity).

(** The state after the calls [es] have been made and recorded. *)
Definition add_trace (w : world) (es : list event) : world :=
  mkworld (friendhead w) (reqhead w) (gslots w) (idfd w) (trace w ++ es).

Definition emit (e : event) : M unit := fun w => Done tt (add_trace w [e]).

(** [eprintf]: print the message and leave the process. *)
Definition eprintf {A} (msg : string) : M A := fun w => Fatal msg w.
Definition fault {A} : M A := fun w => Fault w.
Definition stuck {A} : M A := fun w => Stuck w.

Definition weprintf (msg : string) : M unit := emit (EvWarn msg).
Definition logmsg (msg : string) : M unit := emit (EvLog msg).

Definition when (b : bool) (m : M unit) : M unit := if b then m else ret tt.

Fixpoint emits (es : list event) : M unit :=
  match es with
  | [] => ret tt
  | e :: rest => emit e ;; emits rest
  end.

Definition get_friends : M (list friend) := fun w => Done (friendhead w) w.
Definition get_reqs : M (list request) := fun w => Done (reqhead w) w.
Definition get_slot (i : slot_ix) : M slot :=
  fun w => Done (nth (slot_pos i) (gslots w) (mkslot "" false (-1) [])) w.
Definition get_idfd : M Z := fun w => Done (idfd w) w.

Definition set_friends (fs : list friend) : M unit :=
  fun w => Done tt (mkworld fs (reqhead w) (gslots w) (idfd w) (trace w)).
Definition set_reqs (rs : list request) : M unit :=
  fun w => Done tt (mkworld (friendhead w) rs (gslots w) (idfd w) (trace w)).

Fixpoint replace_nth {A} (i : nat) (a : A) (l : list A) : list A :=
  match l, i with
  | [], _ => []
  | _ :: t, O => a :: t
  | h :: t, S j => h :: replace_nth j a t
  end.

(** [gslots[i].fd[m] = v] *)
Definition set_slot_fd (i : slot_ix) (m : gfile_ix) (v : Z) : M unit :=
  fun w =>
    let s := nth (slot_pos i) (gslots w) (mkslot "" false (-1) []) in
    let s' := mkslot (sl_name s) (sl_outisfolder s) (sl_dirfd s)
                     (fd_set (sl_fd s) (gfile_pos m) v) in
    Done tt (mkworld (friendhead w) (reqhead w)
                     (replace_nth (slot_pos i) s' (gslots w)) (idfd w) (trace w)).

(** ** Environment: what the system and the transport answer

    One record holds the answers the program receives during one handler
    call, as functions of the call's arguments, and the constants of headers
    that are not part of the sources.  Transport functions return the value
    the C code stores in the variable it assigns the call to. *)

Record Env : Type := mkEnv {
  PIPE_BUF                           : Z;
  TOX_MAX_NAME_LENGTH                : Z;
  TOX_MAX_STATUS_MESSAGE_LENGTH      : Z;
  TOX_PASS_ENCRYPTION_EXTRA_LENGTH   : Z;
  encryptsavefile                    : bool;
  sys_unlinkat                       : Z -> string -> sysret;
  sys_mkfifoat                       : Z -> string -> sysret;
  sys_openat                         : Z -> string -> list oflag -> sysret;
  sys_mkdir                          : string -> sysret;
  (* opendir then dirfd: None when opendir returns NULL, else what dirfd returns *)
  sys_opendir                        : string -> option Z;
  sys_open_save                      : sysret;
  sys_write_save                     : Z -> Z -> Z;
  sys_malloc                         : Z -> bool;
  (* calloc(nmemb, size), and the sizes of the two structures it is asked for *)
  sys_calloc                         : Z -> Z -> bool;
  sizeof_friend                      : Z;
  sizeof_request                     : Z;
  (* the global [savefile] *)
  savefile                           : string;
  (* contents of an uninitialised char array read as a C string *)
  uninit_name                        : Z -> string;
  uninit_bytes                       : nat -> list Z;
  tox_friend_get_name_size           : Z -> Z;
  tox_friend_get_public_key          : Z -> list Z;
  tox_friend_get_status              : Z -> Z;
  tox_friend_get_status_message_size : Z -> Z;
  tox_friend_get_status_message      : Z -> list Z;
  tox_friend_add                     : list Z -> string -> Z;
  tox_friend_add_norequest           : list Z -> Z;
  tox_file_control                   : Z -> Z -> TOX_FILE_CONTROL -> Z;
  tox_iteration_interval             : Z;
  tox_get_savedata_size              : Z;
  tox_pass_encrypt_ok                : bool;
  (* the address the transport reports once the nospam is the argument *)
  tox_self_get_address               : Z -> list Z
}.

(** The value a system call returns, and the test [errno == e] after it. *)
Definition ret_val (s : sysret) : Z :=
  match s with Ok v => v | Err _ => -1 end.
Definition errno_is (s : sysret) (e : errno) : bool :=
  match s with Ok _ => false | Err e' => errno_eqb e' e end.

(** Conversions of C: a value stored in a [size_t] (64 bits), in an [int]
    and in a [uint32_t]. *)
Definition to_size_t (v : Z) : Z := v mod 2 ^ 64.
Definition to_int (v : Z) : Z :=
  let m := v mod 2 ^ 32 in if m <? 2 ^ 31 then m else m - 2 ^ 32.
Definition to_uint32 (v : Z) : Z := v mod 2 ^ 32.

(** A [long] converted to [double], and the result of an operation in
    [double], for whole numbers: up to 2^53 in magnitude the value itself,
    beyond that the nearest multiple of the spacing of the doubles there,
    a tie going to the even one. *)
Definition round_double (v : Z) : Z :=
  let a := Z.abs v in
  if a <=? 2 ^ 53 then v
  else
    let ulp := 2 ^ (Z.log2 a - 52) in
    let q := a / ulp in
    let rest := a mod ulp in
    let q' := if 2 * rest <? ulp then q
              else if ulp <? 2 * rest then q + 1
              else if Z.even q then q else q + 1 in
    Z.sgn v * (q' * ulp).

(** [%d], [%ld] *)
Definition fmt_d (v : Z) : string := NilZero.string_of_int (Z.to_int v).

(** One digit of [printf]'s [X] conversion: 0-9, then A-F in upper case. *)
Definition digit_X (d : Z) : ascii :=
  ascii_of_nat (Z.to_nat (if d <? 10 then 48 + d else 55 + d)).

(** [%02X] of a byte (two digits, the first a 0 for values below 16) and
    [%08X] of a 32-bit value. *)
Definition fmt_02X (b : Z) : string :=
  String (digit_X (Z.land (Z.shiftr b 4) 15))
    (String (digit_X (Z.land b 15)) EmptyString).

Definition fmt_08X (v : Z) : string :=
  fmt_02X (Z.land (Z.shiftr v 24) 255) ++ fmt_02X (Z.land (Z.shiftr v 16) 255)
  ++ fmt_02X (Z.land (Z.shiftr v 8) 255) ++ fmt_02X (Z.land v 255).

(** A byte buffer read as a C string: the characters before the first NUL. *)
Fixpoint cstr (bs : list Z) : string :=
  match bs with
  | [] => EmptyString
  | b :: rest =>
      if b =? 0 then EmptyString
      else String (ascii_of_nat (Z.to_nat b)) (cstr rest)
  end.

Definition NL : string := String (ascii_of_nat 10) EmptyString.

Fixpoint bytes_eqb (a b : list Z) : bool :=
  match a, b with
  | [], [] => true
  | x :: a', y :: b' => (x =? y) && bytes_eqb a' b'
  | _, _ => false
  end.

(** [memcmp(a, b, TOX_CLIENT_ID_SIZE) == 0] on two key arrays. *)
Definition memcmp_id_eq (a b : list Z) : bool :=
  bytes_eqb (firstn TOX_CLIENT_ID_SIZE a) (firstn TOX_CLIENT_ID_SIZE b).

(** [FD_ISSET(fd, &rfds)] *)
Definition fd_isset (fd : Z) (rfds : list Z) : bool := existsb (Z.eqb fd) rfds.

Definition tx0 : transfer :=
  mktransfer 0 None 0 0 false TRANSFER_NONE (mktime 0 0) false.

Definition set_tx (f : friend) (t : transfer) : friend :=
  mkfriend (fr_name f) (fr_num f) (fr_id f) (fr_idstr f) (fr_dirfd f)
           (fr_fd f) t (fr_rxstate f).
Definition set_rxstate (f : friend) (s : tstate) : friend :=
  mkfriend (fr_name f) (fr_num f) (fr_id f) (fr_idstr f) (fr_dirfd f)
           (fr_fd f) (fr_tx f) s.
Definition set_fr_fd (f : friend) (k : ffile_ix) (v : Z) : friend :=
  mkfriend (fr_name f) (fr_num f) (fr_id f) (fr_idstr f) (fr_dirfd f)
           (fd_set (fr_fd f) (ffile_pos k) v) (fr_tx f) (fr_rxstate f).
Definition ffd (f : friend) (k : ffile_ix) : Z := fd_get (fr_fd f) (ffile_pos k).

Definition set_rq_fd (r : request) (v : Z) : request :=
  mkrequest (rq_id r) (rq_idstr r) (rq_msg r) v.

(** [static char *ustate[]], with the values 0, 1, 2 that [tox.h] gives
    [TOX_USER_STATUS_NONE], [_AWAY] and [_BUSY]. *)
Definition ustate : list string := ["none"; "away"; "busy"].
Definition TOX_USER_STATUS_INVALID : nat := 0.

Section Daemon.

Variable E : Env.

(** *** FIFO primitive *)

Definition fifoopen (dirfd : Z) (f : file) : M Z :=
  emit (EvOpenat dirfd (f_name f) (f_flags f)) ;;
  match sys_openat E dirfd (f_name f) (f_flags f) with
  | Ok fd => ret fd
  | Err e =>
      if errno_eqb e ENXIO then ret (-1)
      else eprintf ("openat " ++ f_name f ++ ":")
  end.

(** [fiforeset(dirfd, &fd, f)]: the result is the new value of [*fd]. *)
Definition fiforeset (dirfd : Z) (fd : Z) (f : file) : M Z :=
  emit (EvUnlinkat dirfd (f_name f)) ;;
  match sys_unlinkat E dirfd (f_name f) with
  | Err e => if errno_eqb e ENOENT then ret tt
             else eprintf ("unlinkat " ++ f_name f ++ ":")
  | Ok _ => ret tt
  end ;;
  when (negb (fd =? -1)) (emit (EvClose fd)) ;;
  emit (EvMkfifoat dirfd (f_name f)) ;;
  match sys_mkfifoat E dirfd (f_name f) with
  | Err e => if errno_eqb e EEXIST then ret tt
             else eprintf ("mkfifoat " ++ f_name f ++ ":")
  | Ok _ => ret tt
  end ;;
  fifoopen dirfd f.

(** [fiforead(dirfd, &fd, f, buf, sz)] against the results [rs] of the
    successive [read] calls: the value returned, the bytes now in [buf]
    and the new value of [*fd]. *)
Fixpoint fiforead (dirfd fd : Z) (f : file) (sz : Z) (rs : list readres)
  : M (Z * list Z * Z) :=
  match rs with
  | [] => stuck
  | r :: rest =>
      emit (EvRead fd sz) ;;
      match r with
      | RdBytes bs =>
          let data := firstn (Z.to_nat sz) bs in
          let n := Z.of_nat (List.length data) in
          if n =? 0 then
            fd' <- fiforeset dirfd fd f ;;
            ret (0, [], fd')
          else ret (n, data, fd)
      | RdErr e =>
          if errno_eqb e EINTR then fiforead dirfd fd f sz rest
          else if errno_eqb e EWOULDBLOCK then ret (-1, [], fd)
          else eprintf ("read " ++ f_name f ++ ":")
      end
  end.

(** *** Persistent store *)

Definition tox_size : Z := tox_get_savedata_size E.
Definition tox_encrypted_size : Z := tox_size + TOX_PASS_ENCRYPTION_EXTRA_LENGTH E.

Definition datasave : M unit :=
  emit EvOpenSave ;;
  match sys_open_save E with
  | Err _ => eprintf ("open " ++ savefile E ++ ":")
  | Ok fd =>
      let sz := if encryptsavefile E then tox_encrypted_size else tox_size in
      if negb (sys_malloc E sz) then eprintf "malloc:"
      else
        (if encryptsavefile E
         then when (tox_pass_encrypt_ok E) (emit (EvTox ToxGetSavedata))
         else emit (EvTox ToxGetSavedata)) ;;
        emit (EvWriteSave fd sz) ;;
        if negb (sys_write_save E fd sz =? sz)
        then eprintf ("write " ++ savefile E ++ ":")
        else emit (EvFsync fd) ;; emit (EvClose fd)
  end.

(** *** Friends *)

(** The loop of [friendcreate] over [ffiles]. *)
Fixpoint friend_files (dfd : Z) (ks : list ffile_ix) (fds : list Z) : M (list Z) :=
  match ks with
  | [] => ret fds
  | k :: rest =>
      let fds1 := fd_set fds (ffile_pos k) (-1) in
      fds2 <-
        match f_type (ffiles k) with
        | FIFO =>
            fd <- fiforeset dfd (fd_get fds1 (ffile_pos k)) (ffiles k) ;;
            ret (fd_set fds1 (ffile_pos k) fd)
        | STATIC =>
            fd <- fifoopen dfd (ffiles k) ;;
            ret (fd_set fds1 (ffile_pos k) fd)
        | _ => ret fds1
        end ;;
      friend_files dfd rest fds2
  end.

(** [friendcreate(frnum)].  Its [r] is a [size_t], so none of its [r < 0]
    tests can hold: they are written as they stand, on the value converted
    to [size_t]; [f->dirfd = r] converts back to [int].  The record comes
    zeroed from [calloc], and the name itself is not fetched. *)
Definition friendcreate (frnum : Z) : M (option friend) :=
  (if negb (sys_calloc E 1 (sizeof_friend E)) then eprintf "calloc:" else ret tt) ;;
  let r := to_size_t (tox_friend_get_name_size E frnum) in
  if r <? 0 then
    weprintf (": " ++ fmt_d frnum ++ " : Name : Failed to get" ++ NL) ;;
    ret None
  else
    name <- (if r =? 0 then ret "Anonymous"
             else if r <=? TOX_MAX_NAME_LENGTH E then ret ""
             else fault) ;;
    let id := tox_friend_get_public_key E frnum in
    let idstr := Hex.id2str id in
    emit (EvMkdir idstr) ;;
    let r := to_size_t (ret_val (sys_mkdir E idstr)) in
    (if (r <? 0) && negb (errno_is (sys_mkdir E idstr) EEXIST)
     then eprintf ("mkdir " ++ idstr ++ ":") else ret tt) ;;
    emit (EvOpendir idstr) ;;
    match sys_opendir E idstr with
    | None => eprintf ("opendir " ++ idstr ++ ":")
    | Some d =>
        let r := to_size_t d in
        if r <? 0 then eprintf ("dirfd " ++ idstr ++ ":")
        else
        let dfd := to_int r in
        fds <- friend_files dfd all_ffiles (repeat 0 (List.length all_ffiles)) ;;
        let f := mkfriend name frnum id idstr dfd fds tx0 TRANSFER_NONE in
        (* Dump name *)
        emit (EvFtruncate (ffd f FNAME)) ;;
        emit (EvDprintf (ffd f FNAME) (name ++ NL)) ;;
        (* Dump online state *)
        emit (EvFtruncate (ffd f FONLINE)) ;;
        emit (EvDprintf (ffd f FONLINE) (fmt_d (tox_friend_get_status E frnum) ++ NL)) ;;
        (* Dump status *)
        let r := to_size_t (tox_friend_get_status_message_size E frnum) in
        r <- (if r <? 0 then
                weprintf (": " ++ name ++ " : Status : Failed to get" ++ NL) ;;
                ret 0
              else if r >? TOX_MAX_STATUS_MESSAGE_LENGTH E
                   then ret (TOX_MAX_STATUS_MESSAGE_LENGTH E)
                   else ret r) ;;
        let status := cstr (firstn (Z.to_nat r) (tox_friend_get_status_message E frnum)) in
        emit (EvFtruncate (ffd f FSTATUS)) ;;
        emit (EvDprintf (ffd f FSTATUS) (status ++ NL)) ;;
        (* Dump user state *)
        let r := to_size_t (tox_friend_get_status E frnum) in
        (if r <? 0 then
           weprintf (": " ++ name ++ " : State : Failed to get" ++ NL)
         else if r >=? Z.of_nat (List.length ustate) then
           weprintf (": " ++ name ++ " : State : " ++ fmt_d r ++ " > Invalid" ++ NL)
         else
           emit (EvFtruncate (ffd f FSTATE)) ;;
           emit (EvDprintf (ffd f FSTATE) (nth (Z.to_nat r) ustate "" ++ NL))) ;;
        (* Dump file pending state *)
        emit (EvFtruncate (ffd f FFILE_STATE)) ;;
        fs <- get_friends ;;
        set_friends (fs ++ [f]) ;;
        ret (Some f)
    end.

(** *** Request ledger *)

(** [cbfriendrequest(tox, id, data, len, udata)] *)
Definition cbfriendrequest (id : list Z) (data : list Z) : M unit :=
  (if negb (sys_calloc E 1 (sizeof_request E)) then eprintf "calloc:" else ret tt) ;;
  let rid := firstn TOX_CLIENT_ID_SIZE id in
  let idstr := Hex.id2str rid in
  let len := Z.of_nat (List.length data) in
  (if (len >? 0) && negb (sys_malloc E (len + 1)) then eprintf "malloc:" else ret tt) ;;
  let msg := match data with [] => None | _ => Some (cstr data) end in
  sl <- get_slot REQUEST ;;
  let reqfifo := mkfile NONE idstr [O_RDONLY; O_NONBLOCK] in
  fd <- fiforeset (fd_get (sl_fd sl) (gfile_pos OUT)) (-1) reqfifo ;;
  rs <- get_reqs ;;
  set_reqs (rs ++ [mkrequest rid idstr msg fd]) ;;
  logmsg ("Request : " ++ idstr ++ " > "
          ++ match msg with Some m => m | None => "(null)" end ++ NL).

(** One round of the request loop of [loop], for the request [req]:
    [None] when the request has been removed from the queue, else the
    request as the round leaves it.  [rfds] is the set [select] filled in,
    [reads fd] the results of the reads on descriptor [fd]. *)
Definition request_round (rfds : list Z) (reads : Z -> list readres)
           (req : request) : M (option request) :=
  if negb (fd_isset (rq_fd req) rfds) then ret (Some req)
  else
    sl <- get_slot REQUEST ;;
    let out := fd_get (sl_fd sl) (gfile_pos OUT) in
    let reqfifo := mkfile NONE (rq_idstr req) [O_RDONLY; O_NONBLOCK] in
    x <- fiforead out (rq_fd req) reqfifo 1 (reads (rq_fd req)) ;;
    let '(n, buf, fd1) := x in
    let req1 := set_rq_fd req fd1 in
    if negb (n =? 1) then ret (Some req1)
    else
      let c := nth 0 buf 0 in
      if negb (c =? 48) && negb (c =? 49) then ret (Some req1)
      else
        emit (EvTox (ToxFriendAddNorequest (rq_id req1))) ;;
        let r := tox_friend_add_norequest E (rq_id req1) in
        if r <? 0 then
          weprintf ("Failed to add friend " ++ rq_idstr req1 ++ NL) ;;
          fd2 <- fiforeset out (rq_fd req1) reqfifo ;;
          ret (Some (set_rq_fd req1 fd2))
        else
          (if c =? 49 then
             friendcreate r ;;
             logmsg ("Request : " ++ rq_idstr req1 ++ " > Accepted" ++ NL) ;;
             datasave
           else
             emit (EvTox (ToxFriendDelete r)) ;;
             logmsg ("Request : " ++ rq_idstr req1 ++ " > Rejected" ++ NL)) ;;
          emit (EvUnlinkat out (rq_idstr req1)) ;;
          emit (EvClose (rq_fd req1)) ;;
          ret None.

(** The request loop of [loop]: [kept] are the requests already visited
    and still queued, [todo] the ones from [req] on. *)
Fixpoint request_loop (rfds : list Z) (reads : Z -> list readres)
         (kept todo : list request) : M unit :=
  match todo with
  | [] => ret tt
  | req :: rest =>
      o <- request_round rfds reads req ;;
      let kept' := match o with Some req' => (kept ++ [req'])%list | None => kept end in
      set_reqs (kept' ++ rest) ;;
      request_loop rfds reads kept' rest
  end.

Definition loop_requests (rfds : list Z) (reads : Z -> list readres) : M unit :=
  rs <- get_reqs ;;
  request_loop rfds reads [] rs.

(** *** Transport callbacks *)

(** [TAILQ_FOREACH(f, &friendhead, entry) if (f->num == frnum) break;]:
    the position and the record of the first friend with that number, [None]
    when the loop ends with [f == NULL]. *)
Fixpoint find_friend (frnum : Z) (fs : list friend) : option (nat * friend) :=
  match fs with
  | [] => None
  | f :: rest =>
      if to_uint32 (fr_num f) =? to_uint32 frnum then Some (O, f)
      else match find_friend frnum rest with
           | Some (i, g) => Some (S i, g)
           | None => None
           end
  end.

(** Write the record behind the pointer [f] back into the queue. *)
Definition put_friend (i : nat) (f : friend) : M unit :=
  fs <- get_friends ;;
  set_friends (replace_nth i f fs).

(** The loop of [cbconnstatus] over the pending requests; [f] is the pointer
    the friend loop left behind. *)
Fixpoint connstatus_requests (out : Z) (f : option friend)
         (kept todo : list request) : M unit :=
  match todo with
  | [] => ret tt
  | req :: rest =>
      match f with
      | None => fault                      (* memcmp(f->id, ...) with f == NULL *)
      | Some fr =>
          if negb (memcmp_id_eq (fr_id fr) (rq_id req)) then
            connstatus_requests out f (kept ++ [req]) rest
          else
            emit (EvUnlinkat out (rq_idstr req)) ;;
            emit (EvClose (rq_fd req)) ;;
            set_reqs (kept ++ rest) ;;
            connstatus_requests out f kept rest
      end
  end.

(** [cbconnstatus(m, frnum, status, udata)].  The [switch] has no [break]. *)
Definition cbconnstatus (frnum : Z) (status : TOX_CONNECTION) : M unit :=
  let r := to_int (tox_friend_get_name_size E frnum) in
  if r <? 0 then
    weprintf ("Failed to get name for friend number "
              ++ fmt_d (to_uint32 frnum) ++ NL) ;;
    (* the [int r] is passed where [%ld] takes a [long]: the 32 bits of [r]
       are printed as the low half of a [long] whose high half is zero *)
    weprintf ("Failed to get name for friend number " ++ fmt_d (to_uint32 r) ++ NL)
  else
    name <- (if r =? 0 then ret "Anonymous"
             else if r <=? TOX_MAX_NAME_LENGTH E then ret (uninit_name E r)
             else fault) ;;
    let offline := logmsg (": " ++ name ++ " > " ++ "Offline" ++ NL) in
    let tcp := logmsg (": " ++ name ++ " > " ++ "Online using TCP" ++ NL) in
    let udp := logmsg (": " ++ name ++ " > " ++ "Online using UDP" ++ NL) in
    match status with
    | TOX_CONNECTION_NONE => offline ;; tcp ;; udp
    | TOX_CONNECTION_TCP => tcp ;; udp
    | TOX_CONNECTION_UDP => udp
    end ;;
    fs <- get_friends ;;
    let f := option_map snd (find_friend frnum fs) in
    match f with
    | Some fr =>
        emit (EvFtruncate (ffd fr FONLINE)) ;;
        emit (EvLseek (ffd fr FONLINE)) ;;
        emit (EvDprintf (ffd fr FONLINE) (fmt_d (connection_num status) ++ NL))
    | None => ret tt
    end ;;
    (* Remove the pending request-FIFO if it exists *)
    sl <- get_slot REQUEST ;;
    rs <- get_reqs ;;
    connstatus_requests (fd_get (sl_fd sl) (gfile_pos OUT)) f [] rs.

(** *** Transfer engine *)

Definition MAX_CRYPTO_PACKET_SIZE : Z := 1400.
Definition crypto_box_MACBYTES : Z := 16.
(** [1 + sizeof(uint16_t) + (sizeof(uint32_t) + sizeof(uint32_t)) + crypto_box_MACBYTES] *)
Definition CRYPTO_DATA_PACKET_MIN_SIZE : Z := 1 + 2 + (4 + 4) + crypto_box_MACBYTES.
Definition MAX_CRYPTO_DATA_SIZE : Z := MAX_CRYPTO_PACKET_SIZE - CRYPTO_DATA_PACKET_MIN_SIZE.

Definition tox_file_data_size (friendnumber : Z) : Z := MAX_CRYPTO_DATA_SIZE - 2.

Definition set_state (t : transfer) (s : tstate) : transfer :=
  mktransfer (tx_fnum t) (tx_buf t) (tx_chunksz t) (tx_n t) (tx_pendingbuf t) s
             (tx_lastblock t) (tx_cooldown t).
Definition set_pendingbuf (t : transfer) (b : bool) : transfer :=
  mktransfer (tx_fnum t) (tx_buf t) (tx_chunksz t) (tx_n t) b (tx_state t)
             (tx_lastblock t) (tx_cooldown t).
Definition set_n (t : transfer) (n : Z) : transfer :=
  mktransfer (tx_fnum t) (tx_buf t) (tx_chunksz t) n (tx_pendingbuf t) (tx_state t)
             (tx_lastblock t) (tx_cooldown t).
(** [lastblock = now; cooldown = 1] *)
Definition set_blocked (t : transfer) (now : timespec) : transfer :=
  mktransfer (tx_fnum t) (tx_buf t) (tx_chunksz t) (tx_n t) (tx_pendingbuf t) (tx_state t)
             now true.
(** [state = TRANSFER_NONE; free(buf); buf = NULL; lastblock = {0, 0}; cooldown = 0] *)
Definition tx_cancelled (t : transfer) : transfer :=
  mktransfer (tx_fnum t) None (tx_chunksz t) (tx_n t) (tx_pendingbuf t) TRANSFER_NONE
             (mktime 0 0) false.

Definition cancelrxtransfer (f : friend) : M friend :=
  if tstate_eqb (fr_rxstate f) TRANSFER_NONE then ret f
  else
    logmsg (": " ++ fr_name f ++ " : Rx > Cancelling" ++ NL) ;;
    emit (EvTox (ToxFileControl (fr_num f) 0 TOX_FILE_CONTROL_CANCEL)) ;;
    when (tox_file_control E (fr_num f) 0 TOX_FILE_CONTROL_CANCEL <? 0)
         (weprintf ("Failed to kill Rx transfer" ++ NL)) ;;
    f1 <- (if negb (ffd f FFILE_OUT =? -1) then
             emit (EvClose (ffd f FFILE_OUT)) ;;
             ret (set_fr_fd f FFILE_OUT (-1))
           else ret f) ;;
    emit (EvFtruncate (ffd f1 FFILE_STATE)) ;;
    emit (EvLseek (ffd f1 FFILE_STATE)) ;;
    ret (set_rxstate f1 TRANSFER_NONE).

Definition canceltxtransfer (f : friend) : M friend :=
  if tstate_eqb (tx_state (fr_tx f)) TRANSFER_NONE then ret f
  else
    logmsg (": " ++ fr_name f ++ " : Tx > Cancelling" ++ NL) ;;
    emit (EvTox (ToxFileControl (fr_num f) 0 TOX_FILE_CONTROL_CANCEL)) ;;
    when (tox_file_control E (fr_num f) 0 TOX_FILE_CONTROL_CANCEL <? 0)
         (weprintf ("Failed to kill Tx transfer" ++ NL)) ;;
    let f1 := set_tx f (tx_cancelled (fr_tx f)) in
    fd <- fiforeset (fr_dirfd f1) (ffd f1 FFILE_IN) (ffiles FFILE_IN) ;;
    ret (set_fr_fd f1 FFILE_IN fd).

(** The body of [cbfilecontrol] once the friend [f] is found. *)
Definition filecontrol_friend (fnum : Z) (ctrltype : TOX_FILE_CONTROL)
           (f : friend) : M friend :=
  let rec_sen :=
    (fnum =? 0) && match ctrltype with TOX_FILE_CONTROL_RESUME => true | _ => false end in
  match ctrltype with
  | TOX_FILE_CONTROL_RESUME =>
      if rec_sen then
        if tstate_eqb (tx_state (fr_tx f)) TRANSFER_PAUSED then
          logmsg (": " ++ fr_name f ++ " : Tx > Resumed" ++ NL) ;;
          ret (set_tx f (set_state (fr_tx f) TRANSFER_INPROGRESS))
        else
          let t := fr_tx f in
          let chunksz := tox_file_data_size fnum in
          if negb (sys_malloc E chunksz) then eprintf "malloc:"
          else
            let t' := mktransfer (fnum mod 256) (Some chunksz) chunksz 0 false
                                 TRANSFER_INPROGRESS (tx_lastblock t) (tx_cooldown t) in
            logmsg (": " ++ fr_name f ++ " : Tx > In Progress" ++ NL) ;;
            ret (set_tx f t')
      else ret f
  | TOX_FILE_CONTROL_PAUSE =>
      if rec_sen then
        if tstate_eqb (tx_state (fr_tx f)) TRANSFER_INPROGRESS then
          logmsg (": " ++ fr_name f ++ " : Tx > Paused" ++ NL) ;;
          ret (set_tx f (set_state (fr_tx f) TRANSFER_PAUSED))
        else ret f
      else ret f
  | TOX_FILE_CONTROL_CANCEL =>
      if rec_sen then
        logmsg (": " ++ fr_name f ++ " : Tx > Rejected" ++ NL) ;;
        let f1 := set_tx f (tx_cancelled (fr_tx f)) in
        fd <- fiforeset (fr_dirfd f1) (ffd f1 FFILE_IN) (ffiles FFILE_IN) ;;
        ret (set_fr_fd f1 FFILE_IN fd)
      else
        logmsg (": " ++ fr_name f ++ " : Rx > Cancelled by Sender" ++ NL) ;;
        cancelrxtransfer f
  | TOX_FILE_CONTROL_OTHER v =>
      weprintf ("Unhandled file control type: " ++ fmt_d v ++ NL) ;;
      ret f
  end.

(** [cbfilecontrol(m, frnum, fnum, ctrltype, udata)] *)
Definition cbfilecontrol (frnum fnum : Z) (ctrltype : TOX_FILE_CONTROL) : M unit :=
  fs <- get_friends ;;
  match find_friend frnum fs with
  | None => ret tt
  | Some (i, f) =>
      f' <- filecontrol_friend fnum ctrltype f ;;
      put_friend i f'
  end.

Definition timediff (t1 t2 : timespec) : timespec :=
  if tv_nsec t2 - tv_nsec t1 >? 0
  then mktime (tv_sec t2 - tv_sec t1) (tv_nsec t2 - tv_nsec t1)
  else mktime (tv_sec t2 - tv_sec t1 - 1)
              (* [1E9 - (t1.tv_nsec - t2.tv_nsec)], computed in [double] *)
              (round_double (1000000000 - round_double (tv_nsec t1 - tv_nsec t2))).

Definition interval : Z := tox_iteration_interval E.

(** What the surroundings answer during one round of the loop of
    [sendfriendfile]: the result of re-sending the pending buffer and the
    clock after its failure, the results of the reads on [file_in], the
    result of sending the new chunk and the clock read after it. *)
Record chunk_env : Type := mkchunk {
  ce_resend       : Z;
  ce_resend_clock : timespec;
  ce_reads        : list readres;
  ce_send         : Z;
  ce_clock        : timespec
}.

(** [diff.tv_sec == 0 && diff.tv_nsec < interval(tox) * 1E6]: the [long]
    is compared as a [double]; the product of a [uint32_t] and 10^6 is
    below 2^53, so it is exact. *)
Definition in_time (diff : timespec) : bool :=
  (tv_sec diff =? 0) && (round_double (tv_nsec diff) <? interval * 1000000).

(** One round of the [while] loop: the friend afterwards, and [Some diff]
    when the round reaches the end of the body, [None] when it leaves the
    loop by [break] or [return]. *)
Definition chunk_round (start : timespec) (ce : chunk_env) (f : friend)
  : M (friend * option timespec) :=
  (* Attempt to transmit the pending buffer *)
  x <- (if tx_pendingbuf (fr_tx f) then
          emit (EvTox (ToxFileSend (fr_num f) (tx_buf (fr_tx f)) (tx_n (fr_tx f)))) ;;
          if ce_resend ce <? 0
          then ret (set_tx f (set_blocked (fr_tx f) (ce_resend_clock ce)), false)
          else ret (set_tx f (set_pendingbuf (fr_tx f) false), true)
        else ret (f, true)) ;;
  let '(f1, go) := x in
  if negb go then ret (f1, None)
  else
    (* Grab another buffer from the FIFO *)
    y <- fiforead (fr_dirfd f1) (ffd f1 FFILE_IN) (ffiles FFILE_IN)
                  (tx_chunksz (fr_tx f1)) (ce_reads ce) ;;
    let '(n, _, fd) := y in
    let f2 := set_fr_fd f1 FFILE_IN fd in
    if n =? 0 then
      (* Signal transfer completion to other end *)
      emit (EvTox (ToxFileControl (fr_num f2) (tx_fnum (fr_tx f2)) TOX_FILE_CONTROL_CANCEL)) ;;
      when (tox_file_control E (fr_num f2) (tx_fnum (fr_tx f2)) TOX_FILE_CONTROL_CANCEL <? 0)
           (weprintf ("Failed to signal transfer completion to the receiver" ++ NL)) ;;
      ret (set_tx f2 (set_state (fr_tx f2) TRANSFER_NONE), None)
    else if n <? 0 then
      (* fiforead returns a negative value only with errno == EWOULDBLOCK *)
      ret (f2, None)
    else
      (* Store transfer size in case we can't send it right now *)
      let f3 := set_tx f2 (set_n (fr_tx f2) n) in
      emit (EvTox (ToxFileSend (fr_num f3) (tx_buf (fr_tx f3)) (tx_n (fr_tx f3)))) ;;
      if ce_send ce <? 0 then
        ret (set_tx f3 (set_pendingbuf (set_blocked (fr_tx f3) (ce_clock ce)) true), None)
      else ret (f3, Some (timediff start (ce_clock ce))).

Fixpoint sendfriendfile_loop (start diff : timespec) (script : list chunk_env)
         (f : friend) : M friend :=
  if in_time diff then
    match script with
    | [] => stuck
    | ce :: rest =>
        x <- chunk_round start ce f ;;
        match x with
        | (f', None) => ret f'
        | (f', Some diff') => sendfriendfile_loop start diff' rest f'
        end
    end
  else ret f.

(** [sendfriendfile(f)]; [start] is the first reading of the clock. *)
Definition sendfriendfile (start : timespec) (script : list chunk_env)
           (f : friend) : M friend :=
  sendfriendfile_loop start (mktime 0 0) script f.

(** *** Global slots *)

(** [if (buf[n - 1] == '\n') n--;] on the [n] bytes read. *)
Definition strip_newline (n : Z) (buf : list Z) : Z :=
  if nth (Z.to_nat (n - 1)) buf 0 =? 10 then n - 1 else n.

(** The [for] loop of [setuserstate]: the value of [i] when it ends. *)
Fixpoint ustate_search (buf : string) (i cnt : nat) : nat :=
  match cnt with
  | O => i
  | S c =>
      if negb (Nat.eqb i TOX_USER_STATUS_INVALID) && String.eqb buf (nth i ustate "")
      then i
      else ustate_search buf (S i) c
  end.

Definition setuserstate (rs : list readres) : M unit :=
  sl <- get_slot STATE ;;
  x <- fiforead (sl_dirfd sl) (fd_get (sl_fd sl) (gfile_pos IN)) (gfiles IN)
                (PIPE_BUF E - 1) rs ;;
  let '(n, data, fd) := x in
  set_slot_fd STATE IN fd ;;
  if n <=? 0 then ret tt
  else
    let n := strip_newline n data in
    let buf := cstr (firstn (Z.to_nat n) data) in
    let i := ustate_search buf 0 (List.length ustate) in
    when (Nat.ltb i (List.length ustate)) (emit (EvTox (ToxSelfSetStatus (Z.of_nat i)))) ;;
    if Nat.eqb i (List.length ustate) then
      emit (EvFtruncate (fd_get (sl_fd sl) (gfile_pos ERR))) ;;
      emit (EvLseek (fd_get (sl_fd sl) (gfile_pos ERR))) ;;
      emit (EvDprintf (fd_get (sl_fd sl) (gfile_pos ERR)) ("invalid" ++ NL)) ;;
      weprintf ("Invalid state: " ++ buf ++ NL)
    else
      emit (EvFtruncate (fd_get (sl_fd sl) (gfile_pos OUT))) ;;
      emit (EvLseek (fd_get (sl_fd sl) (gfile_pos OUT))) ;;
      emit (EvDprintf (fd_get (sl_fd sl) (gfile_pos OUT)) (buf ++ NL)) ;;
      datasave ;;
      logmsg (": State > " ++ buf ++ NL).

(** [reqerr], indexed by the values 0 to 8 that [tox.h] gives the
    [TOX_ERR_FRIEND_ADD_] codes. *)
Definition reqerr : list string :=
  [ "No errors, completed successfully";
    "Unexpected argument, NULL error";
    "Message is too long";
    "Please add a message to your request";
    "That appears to be your own ID";
    "Friend request already sent";
    "Bad checksum while verifying address";
    "Friend already added but invalid nospam";
    "Error increasing the friend list size" ].

(** The scan of [sendfriendreq] for the first white-space character of
    [buf]: the text before it, and the text from it on. *)
Fixpoint split_space (s : string) : string * string :=
  match s with
  | EmptyString => (EmptyString, EmptyString)
  | String c r =>
      if Hex.isspace c then (EmptyString, s)
      else let '(a, b) := split_space r in (String c a, b)
  end.

(** [if (msg[strlen(msg) - 1] == '\n') msg[strlen(msg) - 1] = '\0';] *)
Fixpoint chop_newline (s : string) : string :=
  match s with
  | EmptyString => EmptyString
  | String c EmptyString => if Ascii.eqb c (ascii_of_nat 10) then EmptyString else s
  | String c r => String c (chop_newline r)
  end.

Definition sendfriendreq (rs : list readres) : M unit :=
  sl <- get_slot REQUEST ;;
  x <- fiforead (sl_dirfd sl) (fd_get (sl_fd sl) (gfile_pos IN)) (gfiles IN)
                (PIPE_BUF E - 1) rs ;;
  let '(n, data, fd) := x in
  set_slot_fd REQUEST IN fd ;;
  if n <=? 0 then ret tt
  else
    let '(buf, rest) := split_space (cstr data) in
    let msg :=
      match rest with
      | EmptyString => "ratox is awesome!"            (* no msg *)
      | String _ EmptyString => "ratox is awesome!"   (* no msg *)
      | String _ m => chop_newline m
      end in
    let err := fd_get (sl_fd sl) (gfile_pos ERR) in
    if negb (Nat.eqb (String.length buf) (TOX_FRIEND_ADDRESS_SIZE * 2)) then
      emit (EvFtruncate err) ;;
      emit (EvLseek err) ;;
      emit (EvDprintf err ("Invalid friend ID" ++ NL))
    else
      match Hex.str2id buf (uninit_bytes E TOX_FRIEND_ADDRESS_SIZE) with
      | None => fault                      (* a store past the end of [id] *)
      | Some id =>
          emit (EvTox (ToxFriendAdd id msg)) ;;
          let r := tox_friend_add E id msg in
          emit (EvFtruncate err) ;;
          emit (EvLseek err) ;;
          if r <? 0 then
            emit (EvDprintf err (nth (Z.to_nat (- r)) reqerr "(null)" ++ NL))
          else
            friendcreate r ;;
            datasave ;;
            logmsg ("Request > Sent" ++ NL)
      end.

(** The test of the validation loop of [setnospam] on one byte. *)
Definition nospam_char_bad (c : Z) : bool :=
  (c <? 48) || ((c >? 57) && (c <? 65)) || (c >? 70).

(** [strtoul(s, NULL, 16)] on text that starts with a hexadecimal digit or
    is empty: the digits up to the first other character. *)
Fixpoint strtoul16_from (acc : Z) (s : string) : Z :=
  match s with
  | EmptyString => acc
  | String c r =>
      match Hex.hexval c with
      | Some d => strtoul16_from (16 * acc + d) r
      | None => acc
      end
  end.
Definition strtoul16 (s : string) : Z := strtoul16_from 0 s.

Definition setnospam (rs : list readres) : M unit :=
  sl <- get_slot NOSPAM ;;
  x <- fiforead (sl_dirfd sl) (fd_get (sl_fd sl) (gfile_pos IN)) (gfiles IN)
                (2 * 4 + 1 - 1) rs ;;
  let '(n, data, fd) := x in
  set_slot_fd NOSPAM IN fd ;;
  if n <=? 0 then ret tt
  else
    let n := strip_newline n data in
    let nospam := firstn (Z.to_nat n) data in
    (if existsb nospam_char_bad nospam then
       emit (EvDprintf (fd_get (sl_fd sl) (gfile_pos ERR))
                       ("Input contains invalid characters ![0-9, A-F]" ++ NL))
     else
       let nsval := strtoul16 (cstr nospam) mod 2 ^ 32 in
       emit (EvTox (ToxSelfSetNospam nsval)) ;;
       datasave ;;
       logmsg ("Nospam > " ++ fmt_08X nsval ++ NL) ;;
       emit (EvFtruncate (fd_get (sl_fd sl) (gfile_pos OUT))) ;;
       emit (EvLseek (fd_get (sl_fd sl) (gfile_pos OUT))) ;;
       emit (EvDprintf (fd_get (sl_fd sl) (gfile_pos OUT)) (fmt_08X nsval ++ NL)) ;;
       let address := tox_self_get_address E nsval in
       i <- get_idfd ;;
       emit (EvFtruncate i) ;;
       emit (EvLseek i) ;;
       emits (map (fun k => EvDprintf i (fmt_02X (Hex.byte_at address k)))
                  (seq 0 TOX_FRIEND_ADDRESS_SIZE)) ;;
       emit (EvDprintf i NL)) ;;
    (* end: *)
    fd' <- fiforeset (sl_dirfd sl) fd (gfiles IN) ;;
    set_slot_fd NOSPAM IN fd'.

End Daemon.


(** ** Calls that go well

    The conditions under which the FIFO primitive returns, and what it then
    returns and records. *)

Definition fifoopen_ok (E : Env) (dirfd : Z) (f : file) : bool :=
  match sys_openat E dirfd (f_name f) (f_flags f) with
  | Ok _ => true
  | Err e => errno_eqb e ENXIO
  end.

Definition open_fd (E : Env) (dirfd : Z) (f : file) : Z :=
  match sys_openat E dirfd (f_name f) (f_flags f) with
  | Ok fd => fd
  | Err _ => -1
  end.

Definition fiforeset_ok (E : Env) (dirfd : Z) (f : file) : bool :=
  match sys_unlinkat E dirfd (f_name f) with
  | Ok _ => true
  | Err e => errno_eqb e ENOENT
  end
  && match sys_mkfifoat E dirfd (f_name f) with
     | Ok _ => true
     | Err e => errno_eqb e EEXIST
     end
  && fifoopen_ok E dirfd f.

(** The calls of one FIFO reset: unlink, close the old descriptor if there
    is one, make the FIFO, open it. *)
Definition reset_events (dirfd fd : Z) (f : file) : list event :=
  (EvUnlinkat dirfd (f_name f)
   :: (if fd =? -1 then [] else [EvClose fd])
   ++ [EvMkfifoat dirfd (f_name f); EvOpenat dirfd (f_name f) (f_flags f)])%list.

(** ** Properties of the send-transfer substate *)

(** [pendingbuf] set implies [state == TRANSFER_INPROGRESS]. *)
Definition tx_inv (f : friend) : Prop :=
  tx_pendingbuf (fr_tx f) = true -> tx_state (fr_tx f) = TRANSFER_INPROGRESS.

(** The send substate that a file-control [RESUME] for transfer 0 leaves
    behind when the transfer was not paused. *)
Definition tx_resumed (t : transfer) : transfer :=
  mktransfer 0 (Some 1371) 1371 0 false TRANSFER_INPROGRESS
             (tx_lastblock t) (tx_cooldown t).

(** Enough for [fiforead] to return on the read results [rs]: an attempt
    that is not interrupted exists, it does not fail with an error other
    than [EWOULDBLOCK], and a FIFO reset, if it comes to one, goes well. *)
Fixpoint fiforead_ok (E : Env) (dirfd : Z) (f : file) (rs : list readres) : bool :=
  match rs with
  | [] => false
  | RdErr e :: rest =>
      if errno_eqb e EINTR then fiforead_ok E dirfd f rest
      else errno_eqb e EWOULDBLOCK
  | RdBytes _ :: _ => fiforeset_ok E dirfd f
  end.

(** Enough for [sendfriendfile] to return on a script: every round's reads
    satisfy [fiforead_ok], and some round's clock is past the deadline. *)
Definition script_ok (E : Env) (start : timespec) (dirfd : Z)
           (script : list chunk_env) : bool :=
  forallb (fun ce => fiforead_ok E dirfd (ffiles FFILE_IN) (ce_reads ce)) script
  && existsb (fun ce => negb (in_time E (timediff start (ce_clock ce)))) script.

(** A computation that, whenever it returns, has only added to the trace. *)
Definition traces_only {A} (m : M A) : Prop :=
  forall w a w', m w = Done a w' -> exists es, w' = add_trace w es.

(** Enough for [friendcreate] to return: the name size fits the [name]
    array, the directory opens, and every file of the friend is set up
    without a fatal error. *)
Definition friendcreate_ok (E : Env) (frnum : Z) : bool :=
  let r := to_size_t (tox_friend_get_name_size E frnum) in
  sys_calloc E 1 (sizeof_friend E)
  && ((r =? 0) || (r <=? TOX_MAX_NAME_LENGTH E))
  && match sys_opendir E (Hex.id2str (tox_friend_get_public_key E frnum)) with
     | None => false
     | Some d =>
         let dfd := to_int (to_size_t d) in
         forallb (fun k => match f_type (ffiles k) with
                           | FIFO => fiforeset_ok E dfd (ffiles k)
                           | STATIC => fifoopen_ok E dfd (ffiles k)
                           | _ => true
                           end) all_ffiles
     end.

(** Enough for [datasave] to return. *)
Definition datasave_ok (E : Env) : bool :=
  match sys_open_save E with
  | Err _ => false
  | Ok fd =>
      let sz := if encryptsavefile E then tox_encrypted_size E else tox_size E in
      sys_malloc E sz && (sys_write_save E fd sz =? sz)
  end.

(** Every character is one of [0-9A-F]. *)
Fixpoint upper_hex (s : string) : bool :=
  match s with
  | EmptyString => true
  | String c r =>
      (let n := Z.of_nat (nat_of_ascii c) in
       ((48 <=? n) && (n <=? 57)) || ((65 <=? n) && (n <=? 70)))
      && upper_hex r
  end.

(** ** Reading the state: slots and what a handler reads *)

Definition slot_of (w : world) (i : slot_ix) : slot :=
  nth (slot_pos i) (gslots w) (mkslot "" false (-1) []).
Definition slot_fd (w : world) (i : slot_ix) (m : gfile_ix) : Z :=
  fd_get (sl_fd (slot_of w i)) (gfile_pos m).

(** The bytes a [read] of at most [sz] bytes takes out of [bs]. *)
Definition read_data (sz : Z) (bs : list Z) : list Z := firstn (Z.to_nat sz) bs.

(** The bytes read, without the newline that may end them. *)
Definition chomp (data : list Z) : list Z :=
  firstn (Z.to_nat (strip_newline (Z.of_nat (List.length data)) data)) data.

(** ** Reading the trace: what is written to a file *)

(** The text that the [dprintf] calls recorded in [es] write to the
    descriptor [fd], in the order of the calls. *)
Fixpoint written_to (fd : Z) (es : list event) : string :=
  match es with
  | [] => EmptyString
  | EvDprintf fd' text :: rest =>
      if fd' =? fd then text ++ written_to fd rest else written_to fd rest
  | _ :: rest => written_to fd rest
  end.

(** The address holds the 32-bit value [v], most significant byte first,
    in its bytes [k] to [k + 3]. *)
Definition carries_nospam (address : list Z) (k : nat) (v : Z) : Prop :=
  Hex.byte_at address k = Z.land (Z.shiftr v 24) 255 /\
  Hex.byte_at address (k + 1) = Z.land (Z.shiftr v 16) 255 /\
  Hex.byte_at address (k + 2) = Z.land (Z.shiftr v 8) 255 /\
  Hex.byte_at address (k + 3) = Z.land v 255.

(** ** Reading the request queue *)

(** The [reqfifo] that [loop] builds for a request. *)
Definition reqfifo_of (req : request) : file :=
  mkfile NONE (rq_idstr req) [O_RDONLY; O_NONBLOCK].

(** What the [read] calls on a FIFO bring to a [fiforead] of one byte:
    after [k] interrupted reads, the byte [c], nothing yet, or the end of
    the data; or a read that ends the process (or a script used up). *)
Inductive read1 : Type :=
| GotByte (k : nat) (c : Z)
| WouldBlock (k : nat)
| EndOfFile (k : nat)
| ReadStops.

Fixpoint read_one (rs : list readres) : read1 :=
  match rs with
  | [] => ReadStops
  | RdBytes [] :: _ => EndOfFile 0
  | RdBytes (c :: _) :: _ => GotByte 0 c
  | RdErr e :: rest =>
      if errno_eqb e EINTR then
        match read_one rest with
        | GotByte k c => GotByte (S k) c
        | WouldBlock k => WouldBlock (S k)
        | EndOfFile k => EndOfFile (S k)
        | ReadStops => ReadStops
        end
      else if errno_eqb e EWOULDBLOCK then WouldBlock 0
      else ReadStops
  end.

(** What one round of the request loop leaves behind: the request as it
    stays queued ([None] once it is removed), the friends appended to the
    friend queue and the calls made. *)
Record round_result : Type := mkround {
  rr_req   : option request;
  rr_new   : list friend;
  rr_calls : list event
}.

Definition rr_queued (s : round_result) : list request :=
  match rr_req s with Some r => [r] | None => [] end.

(** The rounds of the request loop that return, case by case; [out] is
    [gslots[REQUEST].fd[OUT]], the directory of the request FIFOs. *)
Inductive round_effect (E : Env) (rfds : list Z) (reads : Z -> list readres)
          (out : Z) (req : request) : round_result -> Prop :=
| eff_idle :
    (* the descriptor is not in the set [select] filled in *)
    fd_isset (rq_fd req) rfds = false ->
    round_effect E rfds reads out req (mkround (Some req) [] [])
| eff_would_block k :
    fd_isset (rq_fd req) rfds = true ->
    read_one (reads (rq_fd req)) = WouldBlock k ->
    round_effect E rfds reads out req
      (mkround (Some req) [] (repeat (EvRead (rq_fd req) 1) (S k)))
| eff_end_of_file k :
    fd_isset (rq_fd req) rfds = true ->
    read_one (reads (rq_fd req)) = EndOfFile k ->
    round_effect E rfds reads out req
      (mkround (Some (set_rq_fd req (open_fd E out (reqfifo_of req)))) []
               (repeat (EvRead (rq_fd req) 1) (S k)
                ++ reset_events out (rq_fd req) (reqfifo_of req)))
| eff_ignored k c :
    (* a byte other than '0' and '1' *)
    fd_isset (rq_fd req) rfds = true ->
    read_one (reads (rq_fd req)) = GotByte k c ->
    c <> 48 -> c <> 49 ->
    round_effect E rfds reads out req
      (mkround (Some req) [] (repeat (EvRead (rq_fd req) 1) (S k)))
| eff_refused k c :
    (* '0' or '1', and add-without-request fails *)
    fd_isset (rq_fd req) rfds = true ->
    read_one (reads (rq_fd req)) = GotByte k c ->
    c = 48 \/ c = 49 ->
    tox_friend_add_norequest E (rq_id req) < 0 ->
    round_effect E rfds reads out req
      (mkround (Some (set_rq_fd req (open_fd E out (reqfifo_of req)))) []
               (repeat (EvRead (rq_fd req) 1) (S k)
                ++ [ EvTox (ToxFriendAddNorequest (rq_id req));
                     EvWarn ("Failed to add friend " ++ rq_idstr req ++ NL) ]
                ++ reset_events out (rq_fd req) (reqfifo_of req)))
| eff_rejected k :
    (* '0', and add-without-request gives the friend number [r] *)
    fd_isset (rq_fd req) rfds = true ->
    read_one (reads (rq_fd req)) = GotByte k 48 ->
    0 <= tox_friend_add_norequest E (rq_id req) ->
    round_effect E rfds reads out req
      (mkround None []
               (repeat (EvRead (rq_fd req) 1) (S k)
                ++ [ EvTox (ToxFriendAddNorequest (rq_id req));
                     EvTox (ToxFriendDelete (tox_friend_add_norequest E (rq_id req)));
                     EvLog ("Request : " ++ rq_idstr req ++ " > Rejected" ++ NL);
                     EvUnlinkat out (rq_idstr req);
                     EvClose (rq_fd req) ]))
| eff_accepted k f es1 es2 :
    (* '1', and add-without-request gives the friend number [r] *)
    fd_isset (rq_fd req) rfds = true ->
    read_one (reads (rq_fd req)) = GotByte k 49 ->
    0 <= tox_friend_add_norequest E (rq_id req) ->
    fr_num f = tox_friend_add_norequest E (rq_id req) ->
    fr_idstr f
    = Hex.id2str (tox_friend_get_public_key E (tox_friend_add_norequest E (rq_id req))) ->
    In EvOpenSave es2 ->
    (exists fd sz, In (EvWriteSave fd sz) es2 /\ In (EvFsync fd) es2) ->
    round_effect E rfds reads out req
      (mkround None [f]
               (repeat (EvRead (rq_fd req) 1) (S k)
                ++ [ EvTox (ToxFriendAddNorequest (rq_id req)) ]
                ++ EvMkdir (fr_idstr f) :: EvOpendir (fr_idstr f) :: es1
                ++ [ EvLog ("Request : " ++ rq_idstr req ++ " > Accepted" ++ NL) ]
                ++ es2
                ++ [ EvUnlinkat out (rq_idstr req); EvClose (rq_fd req) ])).

(** Enough for the round on [req] to return. *)
Definition round_ok (E : Env) (rfds : list Z) (reads : Z -> list readres)
           (out : Z) (req : request) : bool :=
  if negb (fd_isset (rq_fd req) rfds) then true
  else
    match read_one (reads (rq_fd req)) with
    | ReadStops => false
    | WouldBlock _ => true
    | EndOfFile _ => fiforeset_ok E out (reqfifo_of req)
    | GotByte _ c =>
        if negb (c =? 48) && negb (c =? 49) then true
        else
          let r := tox_friend_add_norequest E (rq_id req) in
          if r <? 0 then fiforeset_ok E out (reqfifo_of req)
          else if c =? 49 then friendcreate_ok E r && datasave_ok E
          else true
    end.

(** ** The receive side, the sweeps of [loop] and the friend list *)

(** [FD_APPEND(fd)]: the read set in the order of the [FD_SET] calls, and
    [fdmax]. *)
Definition fd_append (fd : Z) (s : list Z * Z) : list Z * Z :=
  ((fst s ++ [fd])%list, if fd >? snd s then fd else snd s).

(** [FD_CLR(fd, &rfds)] *)
Definition fd_clr (fd : Z) (rfds : list Z) : list Z :=
  filter (fun x => negb (x =? fd)) rfds.

(** [lastblock = {0, 0}; cooldown = 0] *)
Definition tx_cooled (t : transfer) : transfer :=
  mktransfer (tx_fnum t) (tx_buf t) (tx_chunksz t) (tx_n t) (tx_pendingbuf t)
             (tx_state t) (mktime 0 0) false.

(** A [TAILQ_FOREACH] over the friends whose body changes the friend it
    visits and a value [s] carried along: [i] is the position of the friend
    visited, [todo] the friends from it on. *)
Fixpoint friends_fold {St : Type} (body : St -> friend -> M (friend * St))
         (i : nat) (todo : list friend) (s : St) : M St :=
  match todo with
  | [] => ret s
  | f :: rest =>
      x <- body s f ;;
      put_friend i (fst x) ;;
      friends_fold body (S i) rest (snd x)
  end.

Definition for_friends {St : Type} (body : St -> friend -> M (friend * St))
           (s : St) : M St :=
  fs <- get_friends ;;
  friends_fold body 0 fs s.

Section Engine.

Variable E : Env.

(** [cbfilesendreq(m, frnum, fnum, fsz, flen, udata)].  The [memcpy] of the
    file name is commented out in the source: [filename] holds what the
    stack held, ended by the NUL stored at [flen]. *)
Definition cbfilesendreq (frnum fnum flen : Z) : M unit :=
  fs <- get_friends ;;
  match find_friend frnum fs with
  | None => ret tt
  | Some (i, f) =>
      let filename := uninit_name E flen in
      (* We only support a single transfer at a time *)
      if tstate_eqb (fr_rxstate f) TRANSFER_INPROGRESS then
        logmsg (": " ++ fr_name f ++ " : Rx > Rejected " ++ filename
                ++ ", already one in progress" ++ NL) ;;
        emit (EvTox (ToxFileControl (fr_num f) fnum TOX_FILE_CONTROL_CANCEL)) ;;
        when (tox_file_control E (fr_num f) fnum TOX_FILE_CONTROL_CANCEL <? 0)
             (weprintf ("Failed to kill new Rx transfer" ++ NL))
      else
        emit (EvFtruncate (ffd f FFILE_STATE)) ;;
        emit (EvLseek (ffd f FFILE_STATE)) ;;
        emit (EvDprintf (ffd f FFILE_STATE) (filename ++ NL)) ;;
        put_friend i (set_rxstate f TRANSFER_PENDING) ;;
        logmsg (": " ++ fr_name f ++ " : Rx > Pending " ++ filename ++ NL)
  end.

(** The cooldown test of [loop] for one friend; [curtime] is the clock it
    reads when the flag is set.  [interval(tox) * 3] is a product of
    [uint32_t]. *)
Definition cooldown_step (curtime : timespec) (f : friend) : friend :=
  if tx_cooldown (fr_tx f) then
    let diff := timediff (tx_lastblock (fr_tx f)) curtime in
    if (tv_sec diff >? 0)
       || (round_double (tv_nsec diff) >? ((interval E * 3) mod 2 ^ 32) * 1000000)
    then set_tx f (tx_cooled (fr_tx f))
    else f
  else f.

(** The body of the loop of [loop] that puts the friends' descriptors into
    the read set; [connection] is what [tox_friend_get_connection_status]
    answers for a friend number. *)
Definition fdset_round (connection : Z -> Z) (curtime : Z -> timespec)
           (s : list Z * Z) (f : friend) : M (friend * (list Z * Z)) :=
  (* File transfer cooldown *)
  let f1 := cooldown_step (curtime (fr_num f)) f in
  (* Only monitor friends that are online *)
  let s1 :=
    if connection (fr_num f1) =? 1 then
      let s' := fd_append (ffd f1 FTEXT_IN) s in
      if tstate_eqb (tx_state (fr_tx f1)) TRANSFER_NONE
         || (tstate_eqb (tx_state (fr_tx f1)) TRANSFER_INPROGRESS
             && negb (tx_cooldown (fr_tx f1)))
      then fd_append (ffd f1 FFILE_IN) s'
      else s'
    else s in
  ret (f1, fd_append (ffd f1 FREMOVE) s1).

Definition all_slots : list slot_ix := [NAME; STATUS; STATE; REQUEST; NOSPAM].

(** [for (i = 0; i < LEN(gslots); i++) FD_APPEND(gslots[i].fd[IN]);] *)
Fixpoint slots_fdset (ixs : list slot_ix) (s : list Z * Z) : M (list Z * Z) :=
  match ixs with
  | [] => ret s
  | i :: rest =>
      sl <- get_slot i ;;
      slots_fdset rest (fd_append (fd_get (sl_fd sl) (gfile_pos IN)) s)
  end.

(** "Prepare select-fd-set": the read set and [fdmax] that [select] gets. *)
Definition loop_fdset (connection : Z -> Z) (curtime : Z -> timespec)
  : M (list Z * Z) :=
  s1 <- slots_fdset all_slots ([], -1) ;;
  rs <- get_reqs ;;
  let s2 := fold_left (fun s req => fd_append (rq_fd req) s) rs s1 in
  for_friends (fdset_round connection curtime) s2.

(** "Check for broken transfers (friend went offline, file_out was
    closed)": the body for one friend. *)
Definition broken_round (connection : Z -> Z) (_ : unit) (f : friend)
  : M (friend * unit) :=
  f1 <- (if connection (fr_num f) =? 0 then
           f' <- canceltxtransfer E f ;;
           cancelrxtransfer E f'
         else ret f) ;;
  if negb (tstate_eqb (fr_rxstate f1) TRANSFER_INPROGRESS) then ret (f1, tt)
  else
    fd <- fifoopen E (fr_dirfd f1) (ffiles FFILE_OUT) ;;
    if fd <? 0 then
      f2 <- cancelrxtransfer E f1 ;;
      ret (f2, tt)
    else
      emit (EvClose fd) ;;
      ret (f1, tt).

Definition loop_broken (connection : Z -> Z) : M unit :=
  for_friends (broken_round connection) tt.

(** The sweep that re-sends pending buffers: the body for one friend.
    [start] and [scripts] give, for a friend number, the clock and the
    answers its call of [sendfriendfile] meets; the value carried along is
    the read set [select] filled in. *)
Definition pending_round (connection : Z -> Z) (start : Z -> timespec)
           (scripts : Z -> list chunk_env) (rfds : list Z) (f : friend)
  : M (friend * list Z) :=
  if connection (fr_num f) =? 0 then ret (f, rfds)
  else if negb (tstate_eqb (tx_state (fr_tx f)) TRANSFER_INPROGRESS) then ret (f, rfds)
  else
    f1 <- (if tx_pendingbuf (fr_tx f)
           then sendfriendfile E (start (fr_num f)) (scripts (fr_num f)) f
           else ret f) ;;
    if tstate_eqb (tx_state (fr_tx f1)) TRANSFER_NONE
    then ret (f1, fd_clr (ffd f1 FFILE_IN) rfds)
    else ret (f1, rfds).

Definition loop_pending (connection : Z -> Z) (start : Z -> timespec)
           (scripts : Z -> list chunk_env) (rfds : list Z) : M (list Z) :=
  for_friends (pending_round connection start scripts) rfds.

(** "Accept pending transfers if any": the body for one friend. *)
Definition accept_round (connection : Z -> Z) (_ : unit) (f : friend)
  : M (friend * unit) :=
  if connection (fr_num f) =? 0 then ret (f, tt)
  else if tstate_eqb (fr_rxstate f) TRANSFER_NONE then ret (f, tt)
  else if ffd f FFILE_OUT >=? 0 then ret (f, tt)
  else
    r <- fifoopen E (fr_dirfd f) (ffiles FFILE_OUT) ;;
    if r <? 0 then ret (f, tt)
    else
      let f1 := set_fr_fd f FFILE_OUT r in
      emit (EvTox (ToxFileControl (fr_num f1) 0 TOX_FILE_CONTROL_RESUME)) ;;
      if tox_file_control E (fr_num f1) 0 TOX_FILE_CONTROL_RESUME <? 0 then
        weprintf ("Failed to accept transfer from receiver" ++ NL) ;;
        f2 <- cancelrxtransfer E f1 ;;
        ret (f2, tt)
      else
        logmsg (": " ++ fr_name f1 ++ " : Rx > Accepted" ++ NL) ;;
        ret (set_rxstate f1 TRANSFER_INPROGRESS, tt).

Definition loop_accept (connection : Z -> Z) : M unit :=
  for_friends (accept_round connection) tt.

(** The [switch (f->tx.state)] that [loop] runs for a friend whose
    [file_in] is readable; [sent] is what [tox_file_send] answers when a
    new transfer is announced. *)
Definition file_in_round (sent : Z) (start : timespec) (script : list chunk_env)
           (f : friend) : M friend :=
  match tx_state (fr_tx f) with
  | TRANSFER_NONE =>
      (* Prepare a new transfer *)
      emit (EvTox (ToxFileSend (fr_num f) (tx_buf (fr_tx f)) (tx_n (fr_tx f)))) ;;
      if sent <? 0 then
        weprintf ("Failed to initiate new transfer" ++ NL) ;;
        fd <- fiforeset E (fr_dirfd f) (ffd f FFILE_IN) (ffiles FFILE_IN) ;;
        ret (set_fr_fd f FFILE_IN fd)
      else
        logmsg (": " ++ fr_name f ++ " : Tx > Initiated" ++ NL) ;;
        ret (set_tx f (set_state (fr_tx f) TRANSFER_INITIATED))
  | TRANSFER_INPROGRESS => sendfriendfile E start script f
  | _ => ret f
  end.

(** The loop of [friendload] over the friend numbers; they are
    [uint32_t], and [friendcreate] takes an [int32_t]. *)
Fixpoint friendload_loop (frnums : list Z) : M unit :=
  match frnums with
  | [] => ret tt
  | n :: rest => friendcreate E (to_int n) ;; friendload_loop rest
  end.

(** [friendload()]; [frnums] is the friend list of the transport. *)
Definition friendload (frnums : list Z) : M unit :=
  let sz := Z.of_nat (List.length frnums) mod 2 ^ 32 in
  if negb (sys_malloc E (sz * 4)) then eprintf "malloc:"
  else friendload_loop (firstn (Z.to_nat sz) frnums).

End Engine.

(** ** Characters that [sscanf] does not convert *)

(** A character at which [%2hhx] fails to match: no digit, no white space,
    no sign. *)
Definition unmatched (c : ascii) : bool :=
  match Hex.hexval c with Some _ => false | None => true end
  && negb (Hex.isspace c)
  && negb (Ascii.eqb c "+" || Ascii.eqb c "-")%char.

Fixpoint all_chars (p : ascii -> bool) (s : string) : bool :=
  match s with
  | EmptyString => true
  | String c r => p c && all_chars p r
  end.

(** ** The two sides of a friend record *)

(** [f'] is [f] but for its send side: [tx] and [fd[FFILE_IN]]. *)
Definition send_side (f f' : friend) : Prop :=
  fr_name f' = fr_name f /\ fr_num f' = fr_num f /\ fr_id f' = fr_id f /\
  fr_idstr f' = fr_idstr f /\ fr_dirfd f' = fr_dirfd f /\
  fr_rxstate f' = fr_rxstate f /\
  List.length (fr_fd f') = List.length (fr_fd f) /\
  forall k, k <> FFILE_IN -> ffd f' k = ffd f k.

(** [f'] is [f] but for its receive side: [rxstate] and [fd[FFILE_OUT]]. *)
Definition recv_side (f f' : friend) : Prop :=
  fr_name f' = fr_name f /\ fr_num f' = fr_num f /\ fr_id f' = fr_id f /\
  fr_idstr f' = fr_idstr f /\ fr_dirfd f' = fr_dirfd f /\
  fr_tx f' = fr_tx f /\
  List.length (fr_fd f') = List.length (fr_fd f) /\
  forall k, k <> FFILE_OUT -> ffd f' k = ffd f k.

(** [f'] is the friend [f], whatever happened to its transfers. *)
Definition same_friend (f f' : friend) : Prop :=
  fr_name f' = fr_name f /\ fr_num f' = fr_num f /\ fr_id f' = fr_id f /\
  fr_idstr f' = fr_idstr f /\ fr_dirfd f' = fr_dirfd f /\
  List.length (fr_fd f') = List.length (fr_fd f) /\
  forall k, k <> FFILE_IN -> k <> FFILE_OUT -> ffd f' k = ffd f k.

(** The descriptor array has room for [fd[FFILE_OUT]], and a receive
    transfer in progress has [file_out] open. *)
Definition rx_inv (f : friend) : Prop :=
  (ffile_pos FFILE_OUT < List.length (fr_fd f))%nat /\
  (fr_rxstate f = TRANSFER_INPROGRESS -> 0 <= ffd f FFILE_OUT).

(** The send states that the program enters. *)
Definition tx_used (f : friend) : Prop :=
  tx_state (fr_tx f) = TRANSFER_NONE \/
  tx_state (fr_tx f) = TRANSFER_INITIATED \/
  tx_state (fr_tx f) = TRANSFER_INPROGRESS.

(** Neither transfer of the friend is under way. *)
Definition transfers_idle (f : friend) : Prop :=
  tx_state (fr_tx f) = TRANSFER_NONE /\ fr_rxstate f = TRANSFER_NONE.

(** What the sweep for broken transfers leaves of one friend: the friend
    is the same; reported offline, it is idle; its receive transfer is in
    progress only if it was and [file_out] could be opened; and each
    transfer state is as before or idle. *)
Definition broken_rel (E : Env) (connection : Z -> Z) (f f' : friend) : Prop :=
  same_friend f f' /\
  (connection (fr_num f) = 0 -> transfers_idle f') /\
  (fr_rxstate f' = TRANSFER_INPROGRESS ->
   fr_rxstate f = TRANSFER_INPROGRESS /\
   0 <= open_fd E (fr_dirfd f) (ffiles FFILE_OUT)) /\
  (fr_rxstate f' = fr_rxstate f \/ fr_rxstate f' = TRANSFER_NONE) /\
  (tx_state (fr_tx f') = tx_state (fr_tx f) \/ tx_state (fr_tx f') = TRANSFER_NONE) /\
  (rx_inv f -> rx_inv f').

(** Enough for the sweep to return on a friend: a reset of [file_in] and
    an open of [file_out] in its directory go well. *)
Definition broken_ok (E : Env) (f : friend) : bool :=
  fiforeset_ok E (fr_dirfd f) (ffiles FFILE_IN)
  && fifoopen_ok E (fr_dirfd f) (ffiles FFILE_OUT).

(** An offer that the accept sweep takes up: the friend is online, an
    offer is pending, [file_out] is not open, it can be opened for
    writing, and the transport takes the RESUME. *)
Definition accept_ready (E : Env) (connection : Z -> Z) (f : friend) : Prop :=
  connection (fr_num f) <> 0 /\
  fr_rxstate f <> TRANSFER_NONE /\
  ffd f FFILE_OUT < 0 /\
  0 <= open_fd E (fr_dirfd f) (ffiles FFILE_OUT) /\
  0 <= tox_file_control E (fr_num f) 0 TOX_FILE_CONTROL_RESUME.

(** What the accept sweep leaves of one friend. *)
Definition accept_rel (E : Env) (connection : Z -> Z) (f f' : friend) : Prop :=
  recv_side f f' /\
  (rx_inv f -> rx_inv f') /\
  (fr_rxstate f' = TRANSFER_INPROGRESS ->
   fr_rxstate f = TRANSFER_INPROGRESS \/ accept_ready E connection f) /\
  (accept_ready E connection f ->
   (ffile_pos FFILE_OUT < List.length (fr_fd f))%nat ->
   fr_rxstate f' = TRANSFER_INPROGRESS /\
   ffd f' FFILE_OUT = open_fd E (fr_dirfd f) (ffiles FFILE_OUT)) /\
  (connection (fr_num f) = 0 \/ fr_rxstate f = TRANSFER_NONE \/ 0 <= ffd f FFILE_OUT ->
   f' = f).

(** What the sweep for pending buffers leaves of one friend. *)
Definition pending_rel (connection : Z -> Z) (f f' : friend) : Prop :=
  send_side f f' /\
  (tx_inv f -> tx_inv f') /\
  (tx_state (fr_tx f') = tx_state (fr_tx f) \/ tx_state (fr_tx f') = TRANSFER_NONE) /\
  (connection (fr_num f) = 0 \/ tx_state (fr_tx f) <> TRANSFER_INPROGRESS
   \/ tx_pendingbuf (fr_tx f) = false -> f' = f).

(** Enough for the sweep for pending buffers to return on a friend. *)
Definition pending_ok (E : Env) (start : Z -> timespec) (scripts : Z -> list chunk_env)
           (f : friend) : bool :=
  script_ok E (start (fr_num f)) (fr_dirfd f) (scripts (fr_num f)).

(** ** The states the transfer engine reaches *)

(** What every friend record satisfies, see below. *)
Definition engine_inv (f : friend) : Prop := rx_inv f /\ tx_used f.

(** What a step of the engine keeps of a friend. *)
Definition step_kept (f f' : friend) : Prop :=
  same_friend f f' /\ (rx_inv f -> rx_inv f') /\ (tx_used f -> tx_used f').

(** [TAILQ_FOREACH(f, &friendhead, entry) { canceltxtransfer(f);
    cancelrxtransfer(f); }], which [loop] runs when the transport
    connects. *)
Definition cancel_round (E : Env) (_ : unit) (f : friend) : M (friend * unit) :=
  f1 <- canceltxtransfer E f ;;
  f2 <- cancelrxtransfer E f1 ;;
  ret (f2, tt).

Definition loop_connected (E : Env) : M unit := for_friends (cancel_round E) tt.

(** One step of the engine on the friends: a friend is created, the
    callback for a file offer or for a file control runs, [loop] runs one
    of its sweeps, or it handles a readable [file_in] of the friend at
    position [i]. *)
Inductive engine_step (E : Env) (w w' : world) : Prop :=
| step_friendcreate (frnum : Z) (o : option friend) :
    friendcreate E frnum w = Done o w' -> engine_step E w w'
| step_filesendreq (frnum fnum flen : Z) :
    cbfilesendreq E frnum fnum flen w = Done tt w' -> engine_step E w w'
| step_filecontrol (frnum fnum : Z) (ctrl : TOX_FILE_CONTROL) :
    cbfilecontrol E frnum fnum ctrl w = Done tt w' -> engine_step E w w'
| step_connected :
    loop_connected E w = Done tt w' -> engine_step E w w'
| step_broken (connection : Z -> Z) :
    loop_broken E connection w = Done tt w' -> engine_step E w w'
| step_pending (connection : Z -> Z) (start : Z -> timespec)
               (scripts : Z -> list chunk_env) (rfds rfds' : list Z) :
    loop_pending E connection start scripts rfds w = Done rfds' w' ->
    engine_step E w w'
| step_accept (connection : Z -> Z) :
    loop_accept E connection w = Done tt w' -> engine_step E w w'
| step_file_in (i : nat) (f f' : friend) (sent : Z) (start : timespec)
               (script : list chunk_env) (w1 : world) :
    nth_error (friendhead w) i = Some f ->
    file_in_round E sent start script f w = Done f' w1 ->
    put_friend i f' w1 = Done tt w' ->
    engine_step E w w'.

(** Any number of steps. *)
Inductive engine_steps (E : Env) (w : world) : world -> Prop :=
| steps_none : engine_steps E w w
| steps_more (w1 w2 : world) :
    engine_steps E w w1 -> engine_step E w1 w2 -> engine_steps E w w2.

(** ** The read set in closed form *)

(** The descriptors of a friend that [loop] puts into the read set, in the
    order of its [FD_APPEND] calls. *)
Definition watched (connection : Z -> Z) (f : friend) : list Z :=
  ((if connection (fr_num f) =? 1 then
      ffd f FTEXT_IN
      :: (if tstate_eqb (tx_state (fr_tx f)) TRANSFER_NONE
             || (tstate_eqb (tx_state (fr_tx f)) TRANSFER_INPROGRESS
                 && negb (tx_cooldown (fr_tx f)))
          then [ffd f FFILE_IN] else [])
    else [])
   ++ [ffd f FREMOVE])%list.

(** [FD_APPEND] for each descriptor of a list. *)
Definition fd_appends (fds : list Z) (s : list Z * Z) : list Z * Z :=
  fold_left (fun s fd => fd_append fd s) fds s.

(** ** What a request for friendship brings about *)

(** The outcome [run] of [sendfriendreq] in the state [w] when the
    transport is asked to add the address [id] with the message [msg]:
    a refusal is reported on [err] and leaves the friends as they are; an
    acceptance creates the friend, saves the state and logs the request. *)
Definition add_outcome (E : Env) (w : world) (run : outcome unit)
           (id : list Z) (msg : string) : Prop :=
  let r := tox_friend_add E id msg in
  let err := slot_fd w REQUEST ERR in
  let head := [ EvRead (slot_fd w REQUEST IN) (PIPE_BUF E - 1);
                EvTox (ToxFriendAdd id msg); EvFtruncate err; EvLseek err ] in
  (r < 0 ->
   exists w',
     run = Done tt w' /\
     friendhead w' = friendhead w /\
     trace w'
     = (trace w ++ head
        ++ [ EvDprintf err (nth (Z.to_nat (- r)) reqerr "(null)" ++ NL) ])%list) /\
  (0 <= r -> friendcreate_ok E r = true -> datasave_ok E = true ->
   exists w' f es,
     run = Done tt w' /\
     friendhead w' = (friendhead w ++ [f])%list /\
     fr_num f = r /\
     In EvOpenSave es /\
     trace w'
     = (trace w ++ head ++ EvMkdir (fr_idstr f) :: es
        ++ [ EvLog ("Request > Sent" ++ NL) ])%list).

(** ** Sample inputs *)

Definition sample_key : list Z :=
  [171; 205; 239; 1; 35; 69; 103; 137; 0; 255; 16; 32; 48; 64; 80; 96;
   112; 128; 144; 160; 176; 192; 208; 224; 240; 10; 11; 12; 13; 14; 15; 250].

(** An environment in which every system call succeeds and the transport
    knows one friend, with key [sample_key] and an empty name; its answer to
    add-without-request is the parameter. *)
Definition sample_env (norequest : Z) : Env :=
  mkEnv 4096 128 1007 80 false
        (fun _ _ => Ok 0) (fun _ _ => Ok 0) (fun _ _ _ => Ok 5)
        (fun _ => Ok 0) (fun _ => Some 4) (Ok 6) (fun _ sz => sz) (fun _ => true)
        (fun _ _ => true) 1456 112 ".ratox.tox"
        (fun _ => "") (fun n => repeat 0 n)
        (fun _ => 0) (fun _ => sample_key) (fun _ => 0) (fun _ => 0) (fun _ => [])
        (fun _ _ => 1) (fun _ => norequest) (fun _ _ _ => 0)
        50 1024 true
        (fun ns => sample_key
                   ++ [Z.land (Z.shiftr ns 24) 255; Z.land (Z.shiftr ns 16) 255;
                       Z.land (Z.shiftr ns 8) 255; Z.land ns 255]
                   ++ [0; 0])%list.

Definition env0 : Env := sample_env 1.

Definition sample_slots : list slot :=
  [ mkslot "name" false 10 [20; 21; 22];
    mkslot "status" false 11 [23; 24; 25];
    mkslot "state" false 12 [26; 27; 28];
    mkslot "request" true 13 [29; 30; 31];
    mkslot "nospam" false 14 [32; 33; 34] ].

Definition sample_request : request :=
  mkrequest sample_key (Hex.id2str sample_key) (Some "hi") 40.

Definition sample_friend (t : transfer) : friend :=
  mkfriend "Anonymous" 1 sample_key (Hex.id2str sample_key) 4
           [5; 5; 5; 5; -1; 5; 5; 5; 5; 5; 5] t TRANSFER_NONE.

(** A state with no friend and one pending request. *)
Definition world_request : world :=
  mkworld [] [sample_request] sample_slots 3 [].

(** A state with no friend and two pending requests, the second from the
    key [sample_key] with its first byte changed. *)
Definition world_requests : world :=
  mkworld [] [sample_request;
              mkrequest (0 :: tl sample_key) (Hex.id2str (0 :: tl sample_key)) None 41]
          sample_slots 3 [].

(** A state with one friend, whose send transfer is [t], and no request. *)
Definition world_friend (t : transfer) : world :=
  mkworld [sample_friend t] [] sample_slots 3 [].

(** Read results: the bytes of a text. *)
Fixpoint bytes_of (s : string) : list Z :=
  match s with
  | EmptyString => []
  | String c r => Z.of_nat (nat_of_ascii c) :: bytes_of r
  end.

(** A send substate between [file_send] and the peer's answer, with a
    cooldown left over from the previous transfer. *)
Definition tx_initiated_cooling : transfer :=
  mktransfer 0 None 0 0 false TRANSFER_INITIATED (mktime 5 0) true.

(** A send substate in progress, nothing pending. *)
Definition tx_running : transfer :=
  mktransfer 0 (Some 1371) 1371 0 false TRANSFER_INPROGRESS (mktime 0 0) false.

(** A round in which 3 bytes are read and the transport refuses the chunk. *)
Definition round_refused : chunk_env :=
  mkchunk 0 (mktime 0 0) [RdBytes [1; 2; 3]] (-1) (mktime 7 0).

(** A round in which 3 bytes are read and sent, one second after the start. *)
Definition round_sent_late : chunk_env :=
  mkchunk 0 (mktime 0 0) [RdBytes [1; 2; 3]] 0 (mktime 8 500).

(** A send substate in progress with a buffer that could not be sent. *)
Definition tx_blocked : transfer :=
  mktransfer 0 (Some 1371) 1371 3 true TRANSFER_INPROGRESS (mktime 6 0) true.

(** A state with one friend who has offered a file. *)
Definition world_offer : world :=
  mkworld [set_rxstate (sample_friend tx0) TRANSFER_PENDING] [] sample_slots 3 [].

(** A state with one friend and a pending request from the same key. *)
Definition world_both : world :=
  mkworld [sample_friend tx0] [sample_request] sample_slots 3 [].

(** A state with a pending request and one friend whose number, kept in an
    [int32_t], is -1: the friend the transport numbers 4294967295. *)
Definition world_wrapped : world :=
  mkworld [mkfriend "Anonymous" (-1) sample_key (Hex.id2str sample_key) 4
                    [5; 5; 5; 5; -1; 5; 5; 5; 5; 5; 5] tx0 TRANSFER_NONE]
          [sample_request] sample_slots 3 [].

(** An address, and the line that asks for its owner's friendship. *)
Definition sample_address : list Z := (sample_key ++ [18; 52; 86; 120; 154; 188])%list.

Definition sample_request_line : list Z :=
  bytes_of (Hex.id2str_from sample_address 0 TOX_FRIEND_ADDRESS_SIZE
            ++ String " " ("hi" ++ NL)).

(** A line of the same shape whose address has no hexadecimal digit. *)
Fixpoint repeat_char (c : ascii) (n : nat) : string :=
  match n with
  | O => EmptyString
  | S k => String c (repeat_char c k)
  end.

Definition sample_bad_line : list Z :=
  bytes_of (repeat_char "G" (TOX_FRIEND_ADDRESS_SIZE * 2) ++ String " " ("hi" ++ NL)).

(** * Theorems *)

Example id2str_sample :
  Hex.id2str_from [171; 5] 0 2 = "AB05".
Proof. reflexivity. Qed.

Example str2id_sample :
  Hex.str2id "ab05Ff" [0; 0; 0] = Some [171; 5; 255].
Proof. reflexivity. Qed.

(** ** Hex codec *)

Module HexFacts.
Import Hex.

Lemma nibble_cases (k : Z) :
  0 <= k < 16 ->
  k = 0 \/ k = 1 \/ k = 2 \/ k = 3 \/ k = 4 \/ k = 5 \/ k = 6 \/ k = 7 \/
  k = 8 \/ k = 9 \/ k = 10 \/ k = 11 \/ k = 12 \/ k = 13 \/ k = 14 \/ k = 15.
Proof. lia. Qed.

Ltac each_nibble H :=
  repeat (destruct H as [H | H]; [subst | ]); subst.

(** Two encoded digits are read back by [sscanf] as the byte they encode. *)
Lemma sscanf_upper (h l : Z) (rest : string) :
  0 <= h < 16 -> 0 <= l < 16 ->
  sscanf_2hhx (String (hex_at h) (String (hex_at l) rest)) = Assigned (16 * h + l).
Proof.
  intros Hh Hl.
  apply nibble_cases in Hh. apply nibble_cases in Hl.
  each_nibble Hh; each_nibble Hl; reflexivity.
Qed.

Lemma sscanf_lower (h l : Z) (rest : string) :
  0 <= h < 16 -> 0 <= l < 16 ->
  sscanf_2hhx (String (tolower (hex_at h)) (String (tolower (hex_at l)) rest))
  = Assigned (16 * h + l).
Proof.
  intros Hh Hl.
  apply nibble_cases in Hh. apply nibble_cases in Hl.
  each_nibble Hh; each_nibble Hl; reflexivity.
Qed.

Lemma high_nibble (b : Z) : is_byte b -> 0 <= Z.land (Z.shiftr b 4) 15 < 16.
Proof.
  intros _. change 15 with (Z.ones 4). rewrite Z.land_ones by lia.
  apply Z.mod_pos_bound. reflexivity.
Qed.

Lemma low_nibble (b : Z) : is_byte b -> 0 <= Z.land b 15 < 16.
Proof.
  intros _. change 15 with (Z.ones 4). rewrite Z.land_ones by lia.
  apply Z.mod_pos_bound. reflexivity.
Qed.

Lemma nibbles_join (b : Z) :
  is_byte b -> 16 * Z.land (Z.shiftr b 4) 15 + Z.land b 15 = b.
Proof.
  unfold is_byte. intros Hb.
  change 15 with (Z.ones 4). rewrite !Z.land_ones by lia.
  rewrite Z.shiftr_div_pow2 by lia.
  change (2 ^ 4) with 16.
  rewrite (Z.mod_small (b / 16) 16).
  - pose proof (Z.div_mod b 16). lia.
  - split.
    + apply Z.div_pos; lia.
    + apply Z.div_lt_upper_bound; lia.
Qed.

Lemma store_length (i : nat) (v : Z) (l : list Z) :
  List.length (store i v l) = List.length l.
Proof.
  revert i. induction l as [|a l IH]; intros [|i]; simpl; auto.
Qed.

Lemma store_nth (l : list Z) (i j : nat) (v : Z) :
  (i < List.length l)%nat ->
  nth j (store i v l) 0 = if Nat.eqb j i then v else nth j l 0.
Proof.
  revert i j. induction l as [|a l IH]; intros i j Hi; simpl in Hi; [lia|].
  destruct i as [|i], j as [|j]; simpl; auto.
  apply IH. lia.
Qed.

Section Decode.

(** [g] is the case in which the digits reach the decoder. *)
Variable g : ascii -> ascii.
Hypothesis g_scan : forall h l rest,
  0 <= h < 16 -> 0 <= l < 16 ->
  sscanf_2hhx (String (g (hex_at h)) (String (g (hex_at l)) rest))
  = Assigned (16 * h + l).

Lemma str2id_loop_decodes (id : list Z) :
  Forall is_byte id ->
  forall cnt i buf,
    List.length buf = List.length id ->
    (i + cnt <= List.length id)%nat ->
    (forall j, (j < i)%nat -> nth j buf 0 = nth j id 0) ->
    exists buf',
      str2id_loop cnt i (smap g (id2str_from id i cnt)) buf = Some buf' /\
      List.length buf' = List.length id /\
      (forall j, (j < i + cnt)%nat -> nth j buf' 0 = nth j id 0).
Proof.
  intros Hid. induction cnt as [|c IH]; intros i buf Hlen Hle Hpre.
  - exists buf. simpl. repeat split; auto.
    intros j Hj. apply Hpre. lia.
  - assert (Hb : is_byte (byte_at id i)).
    { unfold byte_at. rewrite Forall_forall in Hid. apply Hid, nth_In. lia. }
    cbn [id2str_from smap str2id_loop].
    rewrite g_scan by auto using high_nibble, low_nibble.
    rewrite nibbles_join by assumption.
    cbn [advance2].
    replace (Nat.ltb i (List.length buf)) with true
      by (symmetry; apply Nat.ltb_lt; lia).
    destruct (IH (S i) (store i (byte_at id i) buf)) as (buf' & Hrun & Hl' & Hnth).
    + now rewrite store_length.
    + lia.
    + intros j Hj. rewrite store_nth by lia.
      destruct (Nat.eqb_spec j i) as [->|Hne]; [reflexivity|].
      apply Hpre. lia.
    + exists buf'. repeat split; auto.
      intros j Hj. apply Hnth. lia.
Qed.

Lemma smap_length (s : string) : String.length (smap g s) = String.length s.
Proof. induction s; simpl; auto. Qed.

End Decode.

Lemma id2str_from_length (id : list Z) (cnt i : nat) :
  String.length (id2str_from id i cnt) = (2 * cnt)%nat.
Proof.
  revert i. induction cnt as [|c IH]; intros i; simpl; [reflexivity|].
  rewrite IH. lia.
Qed.

Lemma smap_id (s : string) : smap (fun c => c) s = s.
Proof. induction s; simpl; congruence. Qed.

Lemma smap_tolower (s : string) : smap tolower s = lowercase s.
Proof. induction s; simpl; congruence. Qed.

(** Decoding the encoding of a key, with its digits in case [g]. *)
Lemma str2id_smap_id2str (g : ascii -> ascii) (id buf : list Z) :
  (forall h l rest, 0 <= h < 16 -> 0 <= l < 16 ->
     sscanf_2hhx (String (g (hex_at h)) (String (g (hex_at l)) rest))
     = Assigned (16 * h + l)) ->
  List.length id = TOX_CLIENT_ID_SIZE ->
  Forall is_byte id ->
  List.length buf = TOX_CLIENT_ID_SIZE ->
  str2id (smap g (id2str id)) buf = Some id.
Proof.
  intros Hg Hlen Hid Hbuf.
  unfold str2id, id2str.
  rewrite smap_length, id2str_from_length.
  replace (Nat.div (2 * TOX_CLIENT_ID_SIZE) 2) with TOX_CLIENT_ID_SIZE by reflexivity.
  destruct (str2id_loop_decodes g Hg id Hid TOX_CLIENT_ID_SIZE 0 buf)
    as (buf' & Hrun & Hl & Hnth); try lia.
  rewrite Hrun. f_equal.
  apply (nth_ext _ _ 0 0); [lia|].
  intros j Hj. apply Hnth. lia.
Qed.

End HexFacts.

(** C8 -- for every 32-byte public key, [str2id] applied to the 64
    characters that [id2str] produces gives the key back, and it gives the
    same key from the all-lowercase form of those characters. *)
Theorem hex_decode_encode (id buf : list Z) :
  List.length id = TOX_CLIENT_ID_SIZE ->
  Forall Hex.is_byte id ->
  List.length buf = TOX_CLIENT_ID_SIZE ->
  String.length (Hex.id2str id) = 64%nat /\
  Hex.str2id (Hex.id2str id) buf = Some id /\
  Hex.str2id (Hex.lowercase (Hex.id2str id)) buf = Some id.
Proof.
  intros Hlen Hid Hbuf. split; [|split].
  - unfold Hex.id2str. now rewrite HexFacts.id2str_from_length.
  - rewrite <- (HexFacts.smap_id (Hex.id2str id)).
    apply HexFacts.str2id_smap_id2str; auto.
    intros; now apply HexFacts.sscanf_upper.
  - rewrite <- HexFacts.smap_tolower.
    apply HexFacts.str2id_smap_id2str; auto.
    intros; now apply HexFacts.sscanf_lower.
Qed.

Lemma hex_decode_encode_witness :
  String.length (Hex.id2str sample_key) = 64%nat /\
  Hex.str2id (Hex.id2str sample_key) (repeat 0 32) = Some sample_key /\
  Hex.str2id (Hex.lowercase (Hex.id2str sample_key)) (repeat 0 32) = Some sample_key.
Proof.
  apply (hex_decode_encode sample_key (repeat 0 32)).
  - reflexivity.
  - unfold sample_key, Hex.is_byte. repeat constructor; lia.
  - reflexivity.
Defined.

(** ** The trace and the monad *)

Lemma add_trace_nil (w : world) : add_trace w [] = w.
Proof. destruct w. unfold add_trace. simpl. now rewrite app_nil_r. Qed.

Lemma add_trace_app (w : world) (a b : list event) :
  add_trace (add_trace w a) b = add_trace w (a ++ b).
Proof. unfold add_trace. simpl. now rewrite app_assoc. Qed.

Lemma emit_run (e : event) (w : world) : emit e w = Done tt (add_trace w [e]).
Proof. reflexivity. Qed.

Lemma emits_run (es : list event) (w : world) : emits es w = Done tt (add_trace w es).
Proof.
  revert w. induction es as [|e es IH]; intros w; simpl.
  - now rewrite add_trace_nil.
  - unfold bind. rewrite emit_run, IH, add_trace_app. reflexivity.
Qed.

(** ** FIFO primitive *)

Section FifoFacts.

Variable E : Env.

(** [k] interrupted reads are each followed by another attempt. *)
Lemma fiforead_eintr (dirfd fd : Z) (f : file) (sz : Z) (k : nat)
      (rs : list readres) (w : world) :
  fiforead E dirfd fd f sz (repeat (RdErr EINTR) k ++ rs) w
  = fiforead E dirfd fd f sz rs (add_trace w (repeat (EvRead fd sz) k)).
Proof.
  revert w. induction k as [|k IH]; intros w.
  - simpl. now rewrite add_trace_nil.
  - cbn [repeat app fiforead]. unfold bind at 1. rewrite emit_run.
    cbn [errno_eqb]. rewrite IH, add_trace_app. reflexivity.
Qed.

End FifoFacts.

Section ResetFacts.

Variable E : Env.

Lemma fifoopen_run (dirfd : Z) (f : file) (w : world) :
  fifoopen_ok E dirfd f = true ->
  fifoopen E dirfd f w
  = Done (open_fd E dirfd f) (add_trace w [EvOpenat dirfd (f_name f) (f_flags f)]).
Proof.
  unfold fifoopen_ok, open_fd, fifoopen, bind. rewrite emit_run.
  destruct (sys_openat E dirfd (f_name f) (f_flags f)) as [v|e]; intros H.
  - reflexivity.
  - now rewrite H.
Qed.

Lemma fiforeset_run (dirfd fd : Z) (f : file) (w : world) :
  fiforeset_ok E dirfd f = true ->
  fiforeset E dirfd fd f w
  = Done (open_fd E dirfd f) (add_trace w (reset_events dirfd fd f)).
Proof.
  unfold fiforeset_ok. intros H.
  apply andb_prop in H as [H Hopen]. apply andb_prop in H as [Hul Hmk].
  unfold fiforeset, reset_events, bind at 1. rewrite emit_run.
  assert (Hu : forall v,
    match sys_unlinkat E dirfd (f_name f) with
    | Ok _ => ret tt
    | Err e => if errno_eqb e ENOENT then ret tt
               else eprintf ("unlinkat " ++ f_name f ++ ":")
    end v = Done tt v).
  { intros v. destruct (sys_unlinkat E dirfd (f_name f)); [reflexivity|].
    now rewrite Hul. }
  assert (Hm : forall v,
    match sys_mkfifoat E dirfd (f_name f) with
    | Ok _ => ret tt
    | Err e => if errno_eqb e EEXIST then ret tt
               else eprintf ("mkfifoat " ++ f_name f ++ ":")
    end v = Done tt v).
  { intros v. destruct (sys_mkfifoat E dirfd (f_name f)); [reflexivity|].
    now rewrite Hmk. }
  unfold bind. rewrite Hu.
  destruct (fd =? -1); cbn [negb when]; unfold ret; rewrite ?emit_run;
    rewrite Hm, fifoopen_run by assumption;
    now rewrite !add_trace_app.
Qed.

End ResetFacts.

(** C4 -- every [read] that fails with [EINTR] is followed by a new attempt;
    after any number [k] of them, a [read] failing with [EWOULDBLOCK] makes
    [fiforead] return -1 (no data) with the descriptor as it was, a [read]
    of zero bytes makes it run [fiforeset] and return 0 (no data) with the
    new descriptor (it returns whenever the reset goes well), and a [read]
    of at least one byte makes it return the positive count of the bytes
    read.  A [read] failing with any other error ends in [eprintf]. *)
Theorem fiforead_cases (E : Env) (dirfd fd : Z) (f : file) (sz : positive)
        (k : nat) (rest : list readres) (w : world) :
  let retry := repeat (RdErr EINTR) k in
  let w' := add_trace w (repeat (EvRead fd (Z.pos sz)) (S k)) in
  fiforead E dirfd fd f (Z.pos sz) (RdErr EINTR :: rest) w
    = fiforead E dirfd fd f (Z.pos sz) rest (add_trace w [EvRead fd (Z.pos sz)]) /\
  fiforead E dirfd fd f (Z.pos sz) (retry ++ RdErr EWOULDBLOCK :: rest) w
    = Done (-1, [], fd) w' /\
  fiforead E dirfd fd f (Z.pos sz) (retry ++ RdBytes [] :: rest) w
    = match fiforeset E dirfd fd f w' with
      | Done fd' w'' => Done (0, [], fd') w''
      | Fatal msg w'' => Fatal msg w''
      | Fault w'' => Fault w''
      | Stuck w'' => Stuck w''
      end /\
  (forall b bs,
    let data := firstn (Pos.to_nat sz) (b :: bs) in
    fiforead E dirfd fd f (Z.pos sz) (retry ++ RdBytes (b :: bs) :: rest) w
      = Done (Z.of_nat (List.length data), data, fd) w' /\
    0 < Z.of_nat (List.length data) <= Z.pos sz) /\
  (fiforeset_ok E dirfd f = true ->
   fiforead E dirfd fd f (Z.pos sz) (retry ++ RdBytes [] :: rest) w
     = Done (0, [], open_fd E dirfd f) (add_trace w' (reset_events dirfd fd f))) /\
  (forall e, errno_eqb e EINTR = false -> errno_eqb e EWOULDBLOCK = false ->
   fiforead E dirfd fd f (Z.pos sz) (retry ++ RdErr e :: rest) w
     = Fatal ("read " ++ f_name f ++ ":") w').
Proof.
  intros retry w'. subst retry w'.
  assert (Hw : forall es, add_trace (add_trace w (repeat (EvRead fd (Z.pos sz)) k)) [es]
               = add_trace w (repeat (EvRead fd (Z.pos sz)) k ++ [es]))
    by (intros; apply add_trace_app).
  assert (Hk : (repeat (EvRead fd (Z.pos sz)) k ++ [EvRead fd (Z.pos sz)]
               = repeat (EvRead fd (Z.pos sz)) (S k))%list).
  { change [EvRead fd (Z.pos sz)] with (repeat (EvRead fd (Z.pos sz)) 1).
    rewrite <- repeat_app. f_equal. lia. }
  assert (Hzero :
    fiforead E dirfd fd f (Z.pos sz) (repeat (RdErr EINTR) k ++ RdBytes [] :: rest) w
    = match fiforeset E dirfd fd f
              (add_trace w (repeat (EvRead fd (Z.pos sz)) (S k))) with
      | Done fd' w'' => Done (0, [], fd') w''
      | Fatal msg w'' => Fatal msg w''
      | Fault w'' => Fault w''
      | Stuck w'' => Stuck w''
      end).
  { rewrite fiforead_eintr. cbn [fiforead]. unfold bind at 1. rewrite emit_run.
    rewrite Hw, Hk. rewrite firstn_nil. cbn [List.length Z.of_nat Z.eqb].
    unfold bind, ret. destruct (fiforeset E dirfd fd f _); reflexivity. }
  split; [reflexivity|].
  split; [|split; [exact Hzero|split; [intros b bs data; subst data; split|split]]].
  - rewrite fiforead_eintr. cbn [fiforead]. unfold bind. rewrite emit_run.
    cbn [errno_eqb]. unfold ret. now rewrite Hw, Hk.
  - rewrite fiforead_eintr. cbn [fiforead]. unfold bind. rewrite emit_run.
    rewrite Hw, Hk. cbn [Z.to_nat].
    destruct (Pos.to_nat sz) as [|n] eqn:Hn; [pose proof (Pos2Nat.is_pos sz); lia|].
    cbn [firstn List.length]. rewrite Nat2Z.inj_succ.
    destruct (Z.eqb_spec (Z.succ (Z.of_nat (List.length (firstn n bs)))) 0); [lia|].
    reflexivity.
  - pose proof (firstn_le_length (Pos.to_nat sz) (b :: bs)) as Hle.
    pose proof (Pos2Nat.is_pos sz) as Hpos.
    destruct (Pos.to_nat sz) as [|n] eqn:Hn; [lia|].
    cbn [firstn List.length] in *. lia.
  - intros Hok. rewrite Hzero. now rewrite fiforeset_run.
  - intros e He Hb. rewrite fiforead_eintr. cbn [fiforead]. unfold bind.
    rewrite emit_run, He, Hb, Hw, Hk. reflexivity.
Qed.

Lemma fiforead_cases_witness :
  fiforead env0 10 20 (gfiles IN) 16 [RdErr EINTR; RdBytes []] world_request
  = Done (0, [], 5)
         (add_trace world_request
            [ EvRead 20 16; EvRead 20 16; EvUnlinkat 10 "in"; EvClose 20;
              EvMkfifoat 10 "in"; EvOpenat 10 "in" [O_RDONLY; O_NONBLOCK] ]).
Proof.
  refine (eq_trans
            (proj1 (proj2 (proj2 (proj2 (proj2
               (fiforead_cases env0 10 20 (gfiles IN) 16%positive 1 []
                  world_request))))) _) _);
    reflexivity.
Defined.


(** ** Connection status *)

Ltac world_simpl :=
  rewrite ?add_trace_app;
  unfold add_trace; cbn [friendhead reqhead gslots idfd trace];
  rewrite <- ?app_assoc.

Ltac run_monad :=
  cbv [bind ret emit when eprintf fault stuck weprintf logmsg
       get_friends get_reqs get_slot get_idfd set_friends set_reqs].

Section ConnStatusFacts.

Variable E : Env.

(** With a friend record in hand the request loop runs to its end. *)
Lemma connstatus_requests_done (out : Z) (fr : friend) (todo kept : list request)
      (w : world) :
  exists w', connstatus_requests out (Some fr) kept todo w = Done tt w'.
Proof.
  revert kept w. induction todo as [|req rest IH]; intros kept w.
  - now exists w.
  - cbn [connstatus_requests].
    destruct (memcmp_id_eq (fr_id fr) (rq_id req)); cbn [negb].
    + run_monad. apply IH.
    + apply IH.
Qed.

(** The part of [cbconnstatus] before the request loop neither fails nor
    touches the queues. *)
Lemma cbconnstatus_prefix (frnum : Z) (status : TOX_CONNECTION) (w : world) :
  0 <= to_int (tox_friend_get_name_size E frnum) <= TOX_MAX_NAME_LENGTH E ->
  exists es,
    cbconnstatus E frnum status w
    = connstatus_requests
        (fd_get (sl_fd (nth (slot_pos REQUEST) (gslots w) (mkslot "" false (-1) [])))
                (gfile_pos OUT))
        (option_map snd (find_friend frnum (friendhead w))) [] (reqhead w)
        (add_trace w es).
Proof.
  intros [Hlo Hhi]. unfold cbconnstatus.
  destruct (Z.ltb_spec (to_int (tox_friend_get_name_size E frnum)) 0) as [Hneg|_]; [lia|].
  assert (Hname : exists name, forall v,
    (if to_int (tox_friend_get_name_size E frnum) =? 0 then ret "Anonymous"
     else if to_int (tox_friend_get_name_size E frnum) <=? TOX_MAX_NAME_LENGTH E
          then ret (uninit_name E (to_int (tox_friend_get_name_size E frnum)))
          else fault) v = Done name v).
  { destruct (to_int (tox_friend_get_name_size E frnum) =? 0).
    - now exists "Anonymous".
    - apply Z.leb_le in Hhi. rewrite Hhi. eexists. reflexivity. }
  destruct Hname as [name Hname].
  unfold bind at 1. rewrite Hname.
  destruct status; run_monad; cbn [friendhead add_trace];
    destruct (option_map snd (find_friend frnum (friendhead w))) as [f|];
    world_simpl; eexists; reflexivity.
Qed.

(** What [cbconnstatus] records before the request loop when called with
    the status "offline". *)
Lemma cbconnstatus_offline_logs (frnum : Z) (w : world) :
  tox_friend_get_name_size E frnum = 0 ->
  exists es w',
    cbconnstatus E frnum TOX_CONNECTION_NONE w
    = connstatus_requests
        (fd_get (sl_fd (nth (slot_pos REQUEST) (gslots w) (mkslot "" false (-1) [])))
                (gfile_pos OUT))
        (option_map snd (find_friend frnum (friendhead w))) [] (reqhead w) w' /\
    trace w'
    = (trace w
       ++ [EvLog (": Anonymous > Offline" ++ NL);
           EvLog (": Anonymous > Online using TCP" ++ NL);
           EvLog (": Anonymous > Online using UDP" ++ NL)] ++ es)%list.
Proof.
  intros Hsz. unfold cbconnstatus. rewrite Hsz.
  change (to_int 0) with 0. cbn [Z.ltb Z.compare Z.eqb].
  run_monad; cbn [friendhead add_trace];
    destruct (option_map snd (find_friend frnum (friendhead w))) as [f|];
    world_simpl; do 2 eexists; (split; [reflexivity|]);
    cbn [trace app]; reflexivity.
Qed.

End ConnStatusFacts.

(** The friend loop ends with a null pointer exactly when no friend of the
    queue has the number, compared as the code compares [f->num] with
    [frnum]: both as unsigned 32-bit values. *)
Lemma find_friend_none (frnum : Z) (fs : list friend) :
  find_friend frnum fs = None <->
  (forall f, In f fs -> to_uint32 (fr_num f) <> to_uint32 frnum).
Proof.
  induction fs as [|g fs IH]; cbn [find_friend].
  - split; [intros _ f []|reflexivity].
  - destruct (Z.eqb_spec (to_uint32 (fr_num g)) (to_uint32 frnum)) as [Heq|Hne].
    + split; [discriminate|]. intros H. exfalso. apply (H g); [now left|assumption].
    + destruct (find_friend frnum fs) as [[j h]|].
      * split; [discriminate|]. intros H. exfalso.
        assert (Hnone : Some (j, h) = None); [|discriminate Hnone].
        apply IH. intros f Hf. apply H. now right.
      * split; [|reflexivity]. intros _ f [<-|Hf]; [assumption|].
        now apply (proj1 IH).
Qed.

Lemma find_friend_some (frnum : Z) (fs : list friend) :
  (exists f, In f fs /\ to_uint32 (fr_num f) = to_uint32 frnum) ->
  exists i f, find_friend frnum fs = Some (i, f).
Proof.
  intros (f & Hin & Hnum).
  destruct (find_friend frnum fs) as [[i g]|] eqn:Hfind; [now exists i, g|].
  exfalso. exact (proj1 (find_friend_none frnum fs) Hfind f Hin Hnum).
Qed.

(** C10 -- when the name-size guard of [cbconnstatus] passes: with a friend
    in the queue whose number equals the callback's (as [f->num == frnum]
    compares them, both as unsigned 32-bit values) the callback returns;
    with no such friend it returns only if no request is pending, and
    otherwise the request loop compares keys through the null friend
    pointer. *)
Theorem connstatus_absent_friend (E : Env) (frnum : Z) (status : TOX_CONNECTION)
        (w : world) :
  0 <= to_int (tox_friend_get_name_size E frnum) <= TOX_MAX_NAME_LENGTH E ->
  ((exists f, In f (friendhead w) /\ to_uint32 (fr_num f) = to_uint32 frnum) ->
     exists w', cbconnstatus E frnum status w = Done tt w') /\
  ((forall f, In f (friendhead w) -> to_uint32 (fr_num f) <> to_uint32 frnum) ->
     reqhead w = [] ->
     exists w', cbconnstatus E frnum status w = Done tt w') /\
  ((forall f, In f (friendhead w) -> to_uint32 (fr_num f) <> to_uint32 frnum) ->
     reqhead w <> [] ->
     exists w', cbconnstatus E frnum status w = Fault w').
Proof.
  intros Hsz.
  destruct (cbconnstatus_prefix E frnum status w Hsz) as [es Hrun].
  rewrite Hrun. split; [|split].
  - intros Hsome. apply find_friend_some in Hsome as (i & f & Hf).
    rewrite Hf. cbn [option_map snd].
    apply connstatus_requests_done.
  - intros Hnone Hreq. apply find_friend_none in Hnone.
    rewrite Hnone, Hreq. eexists. reflexivity.
  - intros Hnone Hreq. apply find_friend_none in Hnone. rewrite Hnone.
    destruct (reqhead w) as [|req rest]; [congruence|].
    eexists. reflexivity.
Qed.

Lemma connstatus_absent_friend_witness :
  (exists w', cbconnstatus env0 7 TOX_CONNECTION_TCP world_request = Fault w') /\
  (exists w', cbconnstatus env0 4294967295 TOX_CONNECTION_TCP world_wrapped = Done tt w').
Proof.
  split.
  - refine (proj2 (proj2 (connstatus_absent_friend env0 7 TOX_CONNECTION_TCP
                            world_request _)) _ _).
    + vm_compute. split; discriminate.
    + intros f [].
    + discriminate.
  - refine (proj1 (connstatus_absent_friend env0 4294967295 TOX_CONNECTION_TCP
                     world_wrapped _) _).
    + vm_compute. split; discriminate.
    + eexists. split; [now left|reflexivity].
Defined.

(** C5 -- for the status "offline" the fall-through [switch] of
    [cbconnstatus] records three log lines, "Offline", "Online using TCP"
    and "Online using UDP", and for the status "TCP" two, before it
    rewrites the [online] file. *)
Theorem connstatus_log_fallthrough :
  (exists w',
     cbconnstatus env0 1 TOX_CONNECTION_NONE (world_friend tx0) = Done tt w' /\
     trace w'
     = [ EvLog (": Anonymous > Offline" ++ NL);
         EvLog (": Anonymous > Online using TCP" ++ NL);
         EvLog (": Anonymous > Online using UDP" ++ NL);
         EvFtruncate 5; EvLseek 5; EvDprintf 5 ("0" ++ NL) ]) /\
  (exists w',
     cbconnstatus env0 1 TOX_CONNECTION_TCP (world_friend tx0) = Done tt w' /\
     trace w'
     = [ EvLog (": Anonymous > Online using TCP" ++ NL);
         EvLog (": Anonymous > Online using UDP" ++ NL);
         EvFtruncate 5; EvLseek 5; EvDprintf 5 ("1" ++ NL) ]).
Proof.
  split; eexists; (split; [vm_compute; reflexivity | reflexivity]).
Qed.

(** ** File control *)

Lemma find_friend_num (frnum : Z) (fs : list friend) (i : nat) (f : friend) :
  find_friend frnum fs = Some (i, f) -> to_uint32 (fr_num f) = to_uint32 frnum.
Proof.
  revert i. induction fs as [|g fs IH]; intros i; simpl; [discriminate|].
  destruct (Z.eqb_spec (to_uint32 (fr_num g)) (to_uint32 frnum)) as [Heq|Hne].
  - intros [= <- <-]. assumption.
  - destruct (find_friend frnum fs) as [[j h]|]; [|discriminate].
    intros [= <- <-]. now apply (IH j).
Qed.

Lemma find_friend_replace (frnum : Z) (fs : list friend) (i : nat) (f f' : friend) :
  find_friend frnum fs = Some (i, f) ->
  to_uint32 (fr_num f') = to_uint32 frnum ->
  find_friend frnum (replace_nth i f' fs) = Some (i, f').
Proof.
  intros Hf Hn. revert i Hf. induction fs as [|g fs IH]; intros i; simpl; [discriminate|].
  destruct (Z.eqb_spec (to_uint32 (fr_num g)) (to_uint32 frnum)) as [Heq|Hne].
  - intros [= <- <-]. simpl. rewrite Hn, Z.eqb_refl. reflexivity.
  - destruct (find_friend frnum fs) as [[j h]|] eqn:Hfs; [|discriminate].
    intros [= <- <-]. simpl.
    destruct (Z.eqb_spec (to_uint32 (fr_num g)) (to_uint32 frnum)); [contradiction|].
    now rewrite (IH j eq_refl).
Qed.

(** C2 (as the code has it) -- for a friend whose send transfer is
    INITIATED, a file-control RESUME for transfer 0 (the buffer being
    allocated) sets the state to INPROGRESS, allocates a chunk buffer of
    [tox_file_data_size] = 1371 bytes and clears [pendingbuf]; [cooldown]
    and [lastblock] keep their values. *)
Theorem resume_starts_transfer (E : Env) (frnum : Z) (w : world) (i : nat) (f : friend) :
  find_friend frnum (friendhead w) = Some (i, f) ->
  tx_state (fr_tx f) = TRANSFER_INITIATED ->
  sys_malloc E (tox_file_data_size 0) = true ->
  exists w',
    cbfilecontrol E frnum 0 TOX_FILE_CONTROL_RESUME w = Done tt w' /\
    find_friend frnum (friendhead w') = Some (i, set_tx f (tx_resumed (fr_tx f))) /\
    tx_state (tx_resumed (fr_tx f)) = TRANSFER_INPROGRESS /\
    tx_buf (tx_resumed (fr_tx f)) = Some (tox_file_data_size 0) /\
    tx_chunksz (tx_resumed (fr_tx f)) = tox_file_data_size 0 /\
    tx_pendingbuf (tx_resumed (fr_tx f)) = false /\
    tx_cooldown (tx_resumed (fr_tx f)) = tx_cooldown (fr_tx f) /\
    tx_lastblock (tx_resumed (fr_tx f)) = tx_lastblock (fr_tx f).
Proof.
  intros Hf Hst Hm.
  unfold cbfilecontrol. run_monad. rewrite Hf.
  unfold filecontrol_friend. cbn [Z.eqb andb]. rewrite Hst. cbn [tstate_eqb].
  rewrite Hm. cbn [negb]. run_monad.
  eexists. split; [reflexivity|].
  cbn [friendhead add_trace]. split; [|repeat split].
  apply (find_friend_replace frnum (friendhead w) i f); [assumption|].
  cbn [set_tx fr_num]. now apply find_friend_num in Hf.
Qed.

Lemma resume_starts_transfer_witness :
  exists w',
    cbfilecontrol env0 1 0 TOX_FILE_CONTROL_RESUME (world_friend tx_initiated_cooling)
    = Done tt w' /\
    find_friend 1 (friendhead w')
    = Some (O, set_tx (sample_friend tx_initiated_cooling)
                      (tx_resumed tx_initiated_cooling)).
Proof.
  destruct (resume_starts_transfer env0 1 (world_friend tx_initiated_cooling) O
              (sample_friend tx_initiated_cooling))
    as (w' & Hrun & Hfind & _).
  - reflexivity.
  - reflexivity.
  - reflexivity.
  - exists w'. split; assumption.
Defined.

(** C2 (as stated) fails: a friend in state INITIATED whose cooldown flag is
    set still has it set after the RESUME for transfer 0. *)
Lemma resume_keeps_cooldown :
  exists w',
    cbfilecontrol env0 1 0 TOX_FILE_CONTROL_RESUME (world_friend tx_initiated_cooling)
    = Done tt w' /\
    map (fun f => (tx_state (fr_tx f), tx_pendingbuf (fr_tx f), tx_cooldown (fr_tx f)))
        (friendhead w')
    = [(TRANSFER_INPROGRESS, false, true)].
Proof. eexists. split; [vm_compute; reflexivity | reflexivity]. Qed.

(** ** Computations that only add to the trace *)

Lemma traces_ret {A} (a : A) : traces_only (ret a).
Proof. intros w b w' [= _ <-]. exists []. now rewrite add_trace_nil. Qed.

Lemma traces_emit (e : event) : traces_only (emit e).
Proof. intros w b w' H. injection H as _ <-. now exists [e]. Qed.

Lemma traces_eprintf {A} (msg : string) : traces_only (@eprintf A msg).
Proof. intros w b w' H. discriminate. Qed.

Lemma traces_fault {A} : traces_only (@fault A).
Proof. intros w b w' H. discriminate. Qed.

Lemma traces_bind {A B} (m : M A) (k : A -> M B) :
  traces_only m -> (forall a, traces_only (k a)) -> traces_only (bind m k).
Proof.
  intros Hm Hk w b w'. unfold bind.
  destruct (m w) as [a w1| | |] eqn:Hrun; try discriminate.
  intros Hrun'.
  destruct (Hm _ _ _ Hrun) as [es1 ->].
  destruct (Hk _ _ _ _ Hrun') as [es2 ->].
  exists (es1 ++ es2)%list. apply add_trace_app.
Qed.

Lemma traces_when (b : bool) (m : M unit) : traces_only m -> traces_only (when b m).
Proof. destruct b; simpl; [auto | intros _; apply traces_ret]. Qed.

Create HintDb traces.
#[local] Hint Resolve traces_ret traces_emit traces_eprintf traces_fault traces_when : traces.
#[local] Hint Extern 2 (traces_only (bind _ _)) =>
  apply traces_bind; [ | intros ? ] : traces.
#[local] Hint Extern 1 (traces_only (weprintf _)) => apply traces_emit : traces.
#[local] Hint Extern 1 (traces_only (logmsg _)) => apply traces_emit : traces.
#[local] Hint Extern 3 (traces_only (if ?c then _ else _)) => destruct c : traces.
#[local] Hint Extern 3 (traces_only (match ?c with Ok _ => _ | Err _ => _ end)) =>
  destruct c : traces.

Section TracesFacts.

Variable E : Env.

Lemma traces_fifoopen (dirfd : Z) (f : file) : traces_only (fifoopen E dirfd f).
Proof. unfold fifoopen. auto 8 with traces. Qed.

Lemma traces_fiforeset (dirfd fd : Z) (f : file) : traces_only (fiforeset E dirfd fd f).
Proof. unfold fiforeset. auto 12 using traces_fifoopen with traces. Qed.

Lemma traces_cancelrxtransfer (f : friend) : traces_only (cancelrxtransfer E f).
Proof. unfold cancelrxtransfer. auto 12 with traces. Qed.

Lemma traces_filecontrol_friend (fnum : Z) (ctrl : TOX_FILE_CONTROL) (f : friend) :
  traces_only (filecontrol_friend E fnum ctrl f).
Proof.
  unfold filecontrol_friend.
  destruct ctrl; auto 12 using traces_fiforeset, traces_cancelrxtransfer with traces.
Qed.

Lemma traces_datasave : traces_only (datasave E).
Proof. unfold datasave. auto 14 with traces. Qed.

Lemma traces_friend_files (dfd : Z) (ks : list ffile_ix) :
  forall fds, traces_only (friend_files E dfd ks fds).
Proof.
  induction ks as [|k ks IH]; intros fds; simpl.
  - apply traces_ret.
  - apply traces_bind; [|intros a; apply IH].
    destruct (f_type (ffiles k));
      auto 6 using traces_fiforeset, traces_fifoopen with traces.
Qed.

End TracesFacts.

(** ** Send transfer *)

Lemma tstate_eqb_eq (a b : tstate) : tstate_eqb a b = true <-> a = b.
Proof. destruct a, b; simpl; split; congruence. Qed.

Section TransferFacts.

Variable E : Env.

Lemma cancelrxtransfer_tx (f f' : friend) (w w' : world) :
  cancelrxtransfer E f w = Done f' w' -> fr_tx f' = fr_tx f.
Proof.
  unfold cancelrxtransfer.
  destruct (tstate_eqb (fr_rxstate f) TRANSFER_NONE).
  - now intros [= <- _].
  - run_monad.
    destruct (tox_file_control E (fr_num f) 0 TOX_FILE_CONTROL_CANCEL <? 0),
             (ffd f FFILE_OUT =? -1); cbn [negb]; now intros [= <- _].
Qed.

Lemma cancelrxtransfer_done (f : friend) (w : world) :
  exists f' w', cancelrxtransfer E f w = Done f' w'.
Proof.
  unfold cancelrxtransfer.
  destruct (tstate_eqb (fr_rxstate f) TRANSFER_NONE).
  - now exists f, w.
  - run_monad.
    destruct (tox_file_control E (fr_num f) 0 TOX_FILE_CONTROL_CANCEL <? 0),
             (ffd f FFILE_OUT =? -1); cbn [negb]; eexists; eexists; reflexivity.
Qed.

Lemma filecontrol_friend_inv (fnum : Z) (ctrl : TOX_FILE_CONTROL)
      (f f' : friend) (w w' : world) :
  tx_inv f -> filecontrol_friend E fnum ctrl f w = Done f' w' -> tx_inv f'.
Proof.
  intros Hinv. unfold filecontrol_friend.
  destruct ctrl, (fnum =? 0); cbn [andb]; run_monad;
    try (intros [= <- _]; exact Hinv).
  - destruct (tstate_eqb (tx_state (fr_tx f)) TRANSFER_PAUSED).
    + intros [= <- _]. intros _. reflexivity.
    + destruct (sys_malloc E (tox_file_data_size fnum)); cbn [negb]; [|discriminate].
      intros [= <- _]. intros Hp. discriminate Hp.
  - intros Hrun. apply cancelrxtransfer_tx in Hrun.
    unfold tx_inv. now rewrite Hrun.
  - intros Hrun. apply cancelrxtransfer_tx in Hrun.
    unfold tx_inv. now rewrite Hrun.
Qed.

Lemma filecontrol_friend_done (fnum : Z) (ctrl : TOX_FILE_CONTROL)
      (f : friend) (w : world) :
  sys_malloc E (tox_file_data_size 0) = true ->
  exists f' w', filecontrol_friend E fnum ctrl f w = Done f' w'.
Proof.
  intros Hm. unfold filecontrol_friend.
  destruct ctrl, (fnum =? 0); cbn [andb]; run_monad;
    try (eexists; eexists; reflexivity);
    try apply cancelrxtransfer_done.
  destruct (tstate_eqb (tx_state (fr_tx f)) TRANSFER_PAUSED).
  - eexists; eexists; reflexivity.
  - change (tox_file_data_size fnum) with (tox_file_data_size 0).
    rewrite Hm. cbn [negb]. eexists; eexists; reflexivity.
Qed.

Lemma canceltxtransfer_result (f f' : friend) (w w' : world) :
  canceltxtransfer E f w = Done f' w' ->
  tx_state (fr_tx f') = TRANSFER_NONE /\
  tx_pendingbuf (fr_tx f') = tx_pendingbuf (fr_tx f).
Proof.
  unfold canceltxtransfer.
  destruct (tstate_eqb (tx_state (fr_tx f)) TRANSFER_NONE) eqn:Hst.
  - intros [= <- _]. apply tstate_eqb_eq in Hst. auto.
  - run_monad.
    destruct (tox_file_control E (fr_num f) 0 TOX_FILE_CONTROL_CANCEL <? 0);
      match goal with
      | |- context [fiforeset E ?d ?fd ?fl ?v] =>
          destruct (fiforeset E d fd fl v); try discriminate
      end; intros [= <- _]; auto.
Qed.

Lemma canceltxtransfer_done (f : friend) (w : world) :
  fiforeset_ok E (fr_dirfd f) (ffiles FFILE_IN) = true ->
  exists f' w', canceltxtransfer E f w = Done f' w'.
Proof.
  intros Hok. unfold canceltxtransfer.
  destruct (tstate_eqb (tx_state (fr_tx f)) TRANSFER_NONE).
  - now exists f, w.
  - run_monad.
    destruct (tox_file_control E (fr_num f) 0 TOX_FILE_CONTROL_CANCEL <? 0);
      cbn [set_tx fr_dirfd]; rewrite fiforeset_run by assumption;
      eexists; eexists; reflexivity.
Qed.

End TransferFacts.

Section ChunkFacts.

Variable E : Env.

Lemma fiforead_done (dirfd fd : Z) (f : file) (sz : Z) (rs : list readres) (w : world) :
  fiforead_ok E dirfd f rs = true ->
  exists x w', fiforead E dirfd fd f sz rs w = Done x w'.
Proof.
  revert w. induction rs as [|r rs IH]; intros w; simpl; [discriminate|].
  destruct r as [bs|e]; unfold bind at 1; rewrite emit_run.
  - intros Hok.
    destruct (Z.of_nat (List.length (firstn (Z.to_nat sz) bs)) =? 0).
    + unfold bind. rewrite fiforeset_run by assumption.
      eexists; eexists; reflexivity.
    + eexists; eexists; reflexivity.
  - destruct (errno_eqb e EINTR); [apply IH|].
    intros Hok. rewrite Hok. eexists; eexists; reflexivity.
Qed.

(** One round started in state INPROGRESS: [pendingbuf] afterwards implies
    INPROGRESS, and a round that reaches the end of the loop body leaves
    the state INPROGRESS. *)
Lemma chunk_round_inv (start : timespec) (ce : chunk_env) (f f' : friend)
      (o : option timespec) (w w' : world) :
  tx_state (fr_tx f) = TRANSFER_INPROGRESS ->
  chunk_round E start ce f w = Done (f', o) w' ->
  tx_inv f' /\
  fr_dirfd f' = fr_dirfd f /\
  (forall d, o = Some d ->
     tx_state (fr_tx f') = TRANSFER_INPROGRESS /\ d = timediff start (ce_clock ce)).
Proof.
  intros Hst. unfold chunk_round, tx_inv.
  assert (Hfin : forall g : friend,
    fr_dirfd g = fr_dirfd f ->
    (tx_pendingbuf (fr_tx g) = true -> tx_state (fr_tx g) = TRANSFER_INPROGRESS) ->
    forall o',
    (forall d, o' = Some d ->
       tx_state (fr_tx g) = TRANSFER_INPROGRESS /\ d = timediff start (ce_clock ce)) ->
    forall v, Done (g, o') v = Done (f', o) w' ->
    (tx_pendingbuf (fr_tx f') = true -> tx_state (fr_tx f') = TRANSFER_INPROGRESS) /\
    fr_dirfd f' = fr_dirfd f /\
    (forall d, o = Some d ->
       tx_state (fr_tx f') = TRANSFER_INPROGRESS /\ d = timediff start (ce_clock ce))).
  { intros g Hd Hi o' Ho v [= <- <- _]. auto. }
  destruct (tx_pendingbuf (fr_tx f)) eqn:Hp; run_monad.
  - destruct (ce_resend ce <? 0); cbn [negb].
    + apply Hfin; cbn; auto. intros d Hd; discriminate.
    + match goal with
      | |- context [fiforead E ?a ?b ?c ?x ?e ?v] =>
          destruct (fiforead E a b c x e v) as [[[n data] fd] w1| | |]; try discriminate
      end.
      destruct (n =? 0); [|destruct (n <? 0); [|destruct (ce_send ce <? 0)]];
        run_monad;
        try match goal with
          | |- context [tox_file_control E ?a ?b ?c <? 0] =>
              destruct (tox_file_control E a b c <? 0)
          end;
        apply Hfin; cbn; auto; try discriminate;
        try (intros d Hd; discriminate);
        try (intros d [= <-]; auto).
  - cbn [negb].
    match goal with
    | |- context [fiforead E ?a ?b ?c ?x ?e ?v] =>
        destruct (fiforead E a b c x e v) as [[[n data] fd] w1| | |]; try discriminate
    end.
    destruct (n =? 0); [|destruct (n <? 0); [|destruct (ce_send ce <? 0)]];
      run_monad;
      try match goal with
        | |- context [tox_file_control E ?a ?b ?c <? 0] =>
            destruct (tox_file_control E a b c <? 0)
        end;
      apply Hfin; cbn; auto; try congruence;
      try (intros d Hd; discriminate);
      try (intros d [= <-]; auto).
Qed.

Lemma chunk_round_done (start : timespec) (ce : chunk_env) (f : friend) (w : world) :
  fiforead_ok E (fr_dirfd f) (ffiles FFILE_IN) (ce_reads ce) = true ->
  exists f' o w', chunk_round E start ce f w = Done (f', o) w'.
Proof.
  intros Hok. unfold chunk_round.
  destruct (tx_pendingbuf (fr_tx f)); run_monad.
  - destruct (ce_resend ce <? 0); cbn [negb].
    + do 3 eexists; reflexivity.
    + match goal with
      | |- context [fiforead E ?a ?b ?c ?x ?e ?v] =>
          destruct (fiforead_done a b c x e v Hok) as ([[n data] fd] & w1 & ->)
      end.
      destruct (n =? 0); [|destruct (n <? 0); [|destruct (ce_send ce <? 0)]];
        run_monad;
        try match goal with
          | |- context [tox_file_control E ?a ?b ?c <? 0] =>
              destruct (tox_file_control E a b c <? 0)
          end; do 3 eexists; reflexivity.
  - cbn [negb].
    match goal with
    | |- context [fiforead E ?a ?b ?c ?x ?e ?v] =>
        destruct (fiforead_done a b c x e v Hok) as ([[n data] fd] & w1 & ->)
    end.
    destruct (n =? 0); [|destruct (n <? 0); [|destruct (ce_send ce <? 0)]];
      run_monad;
      try match goal with
        | |- context [tox_file_control E ?a ?b ?c <? 0] =>
            destruct (tox_file_control E a b c <? 0)
        end; do 3 eexists; reflexivity.
Qed.

Lemma sendfriendfile_loop_inv (start : timespec) (script : list chunk_env) :
  forall diff f w f' w',
    tx_state (fr_tx f) = TRANSFER_INPROGRESS ->
    sendfriendfile_loop E start diff script f w = Done f' w' ->
    tx_inv f'.
Proof.
  induction script as [|ce rest IH]; intros diff f w f' w' Hst; simpl;
    destruct (in_time E diff).
  - discriminate.
  - intros [= <- _]. now intros _.
  - unfold bind.
    destruct (chunk_round E start ce f w) as [[f1 o] w1| | |] eqn:Hround;
      try discriminate.
    destruct (chunk_round_inv _ _ _ _ _ _ _ Hst Hround) as (Hinv & _ & Ho).
    destruct o as [d|].
    + apply IH. now destruct (Ho d eq_refl).
    + now intros [= <- _].
  - intros [= <- _]. now intros _.
Qed.

Lemma sendfriendfile_loop_done (start : timespec) (dirfd : Z) (script : list chunk_env) :
  forall diff f w,
    fr_dirfd f = dirfd ->
    tx_state (fr_tx f) = TRANSFER_INPROGRESS ->
    forallb (fun ce => fiforead_ok E dirfd (ffiles FFILE_IN) (ce_reads ce)) script = true ->
    in_time E diff = false \/
    existsb (fun ce => negb (in_time E (timediff start (ce_clock ce)))) script = true ->
    exists f' w', sendfriendfile_loop E start diff script f w = Done f' w'.
Proof.
  induction script as [|ce rest IH]; intros diff f w Hd Hst Hall Hend; simpl;
    destruct (in_time E diff) eqn:Hin.
  - destruct Hend as [Hend|Hend]; discriminate.
  - now exists f, w.
  - simpl in Hall. apply andb_prop in Hall as [Hce Hall].
    rewrite <- Hd in Hce.
    destruct (chunk_round_done start ce f w Hce) as (f1 & o & w1 & Hround).
    unfold bind. rewrite Hround.
    destruct (chunk_round_inv _ _ _ _ _ _ _ Hst Hround) as (_ & Hd1 & Ho).
    destruct o as [d|]; [|now exists f1, w1].
    destruct (Ho d eq_refl) as [Hst1 ->].
    apply IH; auto; [congruence|].
    destruct Hend as [Hend|Hend]; [discriminate|].
    simpl in Hend. apply orb_prop in Hend as [Hlate|Hrest]; [|now right].
    left. now apply negb_true_iff in Hlate.
  - now exists f, w.
Qed.

End ChunkFacts.

Lemma find_friend_In (frnum : Z) (fs : list friend) (i : nat) (f : friend) :
  find_friend frnum fs = Some (i, f) -> In f fs.
Proof.
  revert i. induction fs as [|g fs IH]; intros i; simpl; [discriminate|].
  destruct (to_uint32 (fr_num g) =? to_uint32 frnum).
  - intros [= _ <-]. now left.
  - destruct (find_friend frnum fs) as [[j h]|]; [|discriminate].
    intros [= _ <-]. right. now apply (IH j).
Qed.

Lemma Forall_replace_nth {A} (P : A -> Prop) (l : list A) (i : nat) (a : A) :
  Forall P l -> P a -> Forall P (replace_nth i a l).
Proof.
  intros Hl Ha. revert i. induction Hl as [|x l Hx Hl IH]; intros [|i]; simpl;
    constructor; auto.
Qed.

(** C3 (as the code has it) -- chunk sending started in state INPROGRESS and
    file-control handling leave every friend with "[pendingbuf] set implies
    state INPROGRESS", and both return (given a sufficient script, and a
    successful allocation); transfer cancellation sets the state to NONE and
    leaves [pendingbuf] as it was, and returns when the reset of [file_in]
    goes well. *)
Theorem pendingbuf_implies_inprogress (E : Env) :
  (forall start script f w f' w',
     tx_state (fr_tx f) = TRANSFER_INPROGRESS ->
     sendfriendfile E start script f w = Done f' w' -> tx_inv f') /\
  (forall start script f w,
     tx_state (fr_tx f) = TRANSFER_INPROGRESS ->
     script_ok E start (fr_dirfd f) script = true ->
     exists f' w', sendfriendfile E start script f w = Done f' w') /\
  (forall frnum fnum ctrl w w',
     Forall tx_inv (friendhead w) ->
     cbfilecontrol E frnum fnum ctrl w = Done tt w' ->
     Forall tx_inv (friendhead w')) /\
  (forall frnum fnum ctrl w,
     sys_malloc E (tox_file_data_size 0) = true ->
     exists w', cbfilecontrol E frnum fnum ctrl w = Done tt w') /\
  (forall f w f' w',
     canceltxtransfer E f w = Done f' w' ->
     tx_state (fr_tx f') = TRANSFER_NONE /\
     tx_pendingbuf (fr_tx f') = tx_pendingbuf (fr_tx f)) /\
  (forall f w,
     fiforeset_ok E (fr_dirfd f) (ffiles FFILE_IN) = true ->
     exists f' w', canceltxtransfer E f w = Done f' w').
Proof.
  split; [|split; [|split; [|split; [|split]]]].
  - intros start script f w f' w'. apply sendfriendfile_loop_inv.
  - intros start script f w Hst Hok. unfold script_ok in Hok.
    apply andb_prop in Hok as [Hall Hend].
    apply (sendfriendfile_loop_done E start (fr_dirfd f)); auto.
  - intros frnum fnum ctrl w w' Hall. unfold cbfilecontrol. run_monad.
    destruct (find_friend frnum (friendhead w)) as [[i f]|] eqn:Hf.
    + destruct (filecontrol_friend E fnum ctrl f w) as [f1 w1| | |] eqn:Hrun;
        try discriminate.
      unfold put_friend. run_monad. intros [= <-]. cbn [friendhead].
      destruct (traces_filecontrol_friend E fnum ctrl f _ _ _ Hrun) as [es ->].
      cbn [friendhead add_trace].
      apply Forall_replace_nth; [assumption|].
      apply (filecontrol_friend_inv E fnum ctrl f f1 w (add_trace w es)); [|assumption].
      rewrite Forall_forall in Hall. apply Hall.
      now apply (find_friend_In frnum _ i).
    + now intros [= <-].
  - intros frnum fnum ctrl w Hm. unfold cbfilecontrol. run_monad.
    destruct (find_friend frnum (friendhead w)) as [[i f]|].
    + destruct (filecontrol_friend_done E fnum ctrl f w Hm) as (f1 & w1 & ->).
      unfold put_friend. run_monad. eexists. reflexivity.
    + now exists w.
  - intros f w f' w'. apply canceltxtransfer_result.
  - intros f w. apply canceltxtransfer_done.
Qed.

Lemma pendingbuf_implies_inprogress_witness :
  exists f' w',
    sendfriendfile env0 (mktime 7 0) [round_refused; round_sent_late]
                   (sample_friend tx_running) (world_friend tx_running)
    = Done f' w' /\ tx_inv f'.
Proof.
  destruct (proj1 (proj2 (pendingbuf_implies_inprogress env0))
              (mktime 7 0) [round_refused; round_sent_late]
              (sample_friend tx_running) (world_friend tx_running))
    as (f' & w' & Hrun).
  - reflexivity.
  - reflexivity.
  - exists f', w'. split; [assumption|].
    apply (proj1 (pendingbuf_implies_inprogress env0) (mktime 7 0)
             [round_refused; round_sent_late] (sample_friend tx_running)
             (world_friend tx_running) f' w' eq_refl Hrun).
Defined.

(** C3 (as stated) fails: a chunk refused by the transport sets
    [pendingbuf]; cancelling the transfer then sets the state to NONE and
    [pendingbuf] stays set. *)
Lemma cancel_leaves_pendingbuf :
  exists f1 w1 f2 w2,
    sendfriendfile env0 (mktime 7 0) [round_refused]
                   (sample_friend tx_running) (world_friend tx_running)
    = Done f1 w1 /\
    canceltxtransfer env0 f1 w1 = Done f2 w2 /\
    tx_pendingbuf (fr_tx f2) = true /\
    tx_state (fr_tx f2) = TRANSFER_NONE /\
    ~ tx_inv f2.
Proof.
  do 4 eexists.
  split; [vm_compute; reflexivity|].
  split; [vm_compute; reflexivity|].
  split; [reflexivity|]. split; [reflexivity|].
  intros H. specialize (H eq_refl). discriminate H.
Qed.

(** ** Friend creation *)

Section FriendFacts.

Variable E : Env.

Lemma to_size_t_nonneg (v : Z) : (to_size_t v <? 0) = false.
Proof.
  apply Z.ltb_ge. unfold to_size_t.
  apply Z.mod_pos_bound. reflexivity.
Qed.

(** An allocation whose failure ends the process. *)
Lemma alloc_bind {B} (c : bool) (msg : string) (k : unit -> M B) (w : world) :
  bind (if negb c then eprintf msg else ret tt) k w
  = if c then k tt w else Fatal msg w.
Proof. now destruct c. Qed.

Lemma friend_files_done (dfd : Z) (ks : list ffile_ix) :
  forall fds w,
    forallb (fun k => match f_type (ffiles k) with
                      | FIFO => fiforeset_ok E dfd (ffiles k)
                      | STATIC => fifoopen_ok E dfd (ffiles k)
                      | _ => true
                      end) ks = true ->
    exists fds' w', friend_files E dfd ks fds w = Done fds' w'.
Proof.
  induction ks as [|k ks IH]; intros fds w Hok; simpl.
  - now exists fds, w.
  - simpl in Hok. apply andb_prop in Hok as [Hk Hks].
    unfold bind at 1.
    destruct (f_type (ffiles k)); unfold bind, ret;
      rewrite ?fiforeset_run, ?fifoopen_run by assumption; apply IH; assumption.
Qed.

Lemma friendcreate_shape (frnum : Z) (w : world) (o : option friend) (w' : world) :
  friendcreate E frnum w = Done o w' ->
  exists f es,
    o = Some f /\
    fr_num f = frnum /\
    fr_id f = tox_friend_get_public_key E frnum /\
    fr_idstr f = Hex.id2str (fr_id f) /\
    fr_tx f = tx0 /\
    friendhead w' = (friendhead w ++ [f])%list /\
    reqhead w' = reqhead w /\
    trace w' = (trace w ++ EvMkdir (fr_idstr f) :: EvOpendir (fr_idstr f) :: es)%list.
Proof.
  unfold friendcreate. rewrite alloc_bind.
  destruct (sys_calloc E 1 (sizeof_friend E)); [|discriminate].
  rewrite !to_size_t_nonneg.
  set (r := to_size_t (tox_friend_get_name_size E frnum)).
  assert (Hname : forall (k : string -> M (option friend)),
    (forall name, k name w = Done o w' -> exists f es,
        o = Some f /\ fr_num f = frnum /\
        fr_id f = tox_friend_get_public_key E frnum /\
        fr_idstr f = Hex.id2str (fr_id f) /\ fr_tx f = tx0 /\
        friendhead w' = (friendhead w ++ [f])%list /\ reqhead w' = reqhead w /\
        trace w' = (trace w ++ EvMkdir (fr_idstr f) :: EvOpendir (fr_idstr f) :: es)%list) ->
    bind (if r =? 0 then ret "Anonymous"
          else if r <=? TOX_MAX_NAME_LENGTH E then ret "" else fault) k w = Done o w' ->
    exists f es,
        o = Some f /\ fr_num f = frnum /\
        fr_id f = tox_friend_get_public_key E frnum /\
        fr_idstr f = Hex.id2str (fr_id f) /\ fr_tx f = tx0 /\
        friendhead w' = (friendhead w ++ [f])%list /\ reqhead w' = reqhead w /\
        trace w' = (trace w ++ EvMkdir (fr_idstr f) :: EvOpendir (fr_idstr f) :: es)%list).
  { intros k Hk. destruct (r =? 0); [apply Hk|].
    destruct (r <=? TOX_MAX_NAME_LENGTH E); [apply Hk|discriminate]. }
  apply Hname. clear Hname. intros name.
  unfold bind at 1. rewrite emit_run. cbn [andb].
  unfold bind at 1, ret at 1. unfold bind at 1. rewrite emit_run.
  rewrite add_trace_app.
  destruct (sys_opendir E (Hex.id2str (tox_friend_get_public_key E frnum))) as [d|];
    [|discriminate].
  rewrite to_size_t_nonneg. set (dfd := to_int (to_size_t d)).
  unfold bind at 1.
  destruct (friend_files E dfd all_ffiles _ _) as [fds w1| | |] eqn:Hfiles;
    try discriminate.
  destruct (traces_friend_files E dfd all_ffiles _ _ _ _ Hfiles) as [es1 ->].
  rewrite add_trace_app.
  destruct (to_size_t (tox_friend_get_status_message_size E frnum)
            >? TOX_MAX_STATUS_MESSAGE_LENGTH E),
           (to_size_t (tox_friend_get_status E frnum)
            >=? Z.of_nat (List.length ustate));
    run_monad; world_simpl; intros [= <- <-];
    cbn [friendhead reqhead trace app];
    eexists; eexists; (split; [reflexivity|]);
    cbn [fr_num fr_id fr_idstr fr_tx]; repeat (split; [reflexivity|]);
    reflexivity.
Qed.

Lemma friendcreate_done (frnum : Z) (w : world) :
  friendcreate_ok E frnum = true ->
  exists o w', friendcreate E frnum w = Done o w'.
Proof.
  unfold friendcreate_ok, friendcreate. rewrite alloc_bind, !to_size_t_nonneg.
  set (r := to_size_t (tox_friend_get_name_size E frnum)).
  intros Hok. apply andb_prop in Hok as [Hr Hdir].
  apply andb_prop in Hr as [Hc Hr]. rewrite Hc.
  assert (Hname : exists name, forall v,
    (if r =? 0 then ret "Anonymous"
     else if r <=? TOX_MAX_NAME_LENGTH E then ret "" else fault) v = Done name v).
  { destruct (r =? 0); [now exists "Anonymous"|].
    cbn [orb] in Hr. rewrite Hr. now exists "". }
  destruct Hname as [name Hname].
  unfold bind at 1. rewrite Hname.
  unfold bind at 1. rewrite emit_run. cbn [andb].
  unfold bind at 1, ret at 1. unfold bind at 1. rewrite emit_run.
  destruct (sys_opendir E (Hex.id2str (tox_friend_get_public_key E frnum))) as [d|];
    [|discriminate].
  rewrite to_size_t_nonneg.
  cbv zeta in Hdir. set (dfd := to_int (to_size_t d)) in *.
  unfold bind at 1.
  match goal with
  | |- context [friend_files E dfd all_ffiles ?fds ?v] =>
      destruct (friend_files_done dfd all_ffiles fds v Hdir) as (fds1 & w1 & ->)
  end.
  destruct (to_size_t (tox_friend_get_status_message_size E frnum)
            >? TOX_MAX_STATUS_MESSAGE_LENGTH E),
           (to_size_t (tox_friend_get_status E frnum)
            >=? Z.of_nat (List.length ustate));
    run_monad; eexists; eexists; reflexivity.
Qed.

Lemma datasave_done (w : world) :
  datasave_ok E = true ->
  exists es,
    datasave E w = Done tt (add_trace w es) /\
    In EvOpenSave es /\ (exists fd sz, In (EvWriteSave fd sz) es /\ In (EvFsync fd) es).
Proof.
  unfold datasave_ok, datasave. run_monad.
  destruct (sys_open_save E) as [fd|]; [|discriminate].
  fold (tox_size E). fold (tox_encrypted_size E).
  intros Hok. apply andb_prop in Hok as [Hm Hw].
  rewrite Hm, Hw. cbn [negb].
  destruct (encryptsavefile E); [destruct (tox_pass_encrypt_ok E)|];
    rewrite ?add_trace_app; eexists; (split; [reflexivity|]);
    (split; [now left|]); do 2 eexists; cbn; auto 8.
Qed.

Lemma id2str_from_upper (id : list Z) (cnt i : nat) :
  upper_hex (Hex.id2str_from id i cnt) = true.
Proof.
  revert i. induction cnt as [|c IH]; intros i; [reflexivity|].
  cbn [Hex.id2str_from upper_hex]. rewrite IH.
  assert (Hd : forall k, 0 <= k < 16 ->
    (let n := Z.of_nat (nat_of_ascii (Hex.hex_at k)) in
     ((48 <=? n) && (n <=? 57)) || ((65 <=? n) && (n <=? 70))) = true).
  { intros k Hk. apply HexFacts.nibble_cases in Hk.
    repeat (destruct Hk as [Hk|Hk]; [subst; reflexivity|]). subst; reflexivity. }
  assert (Hl : forall x, 0 <= Z.land x 15 < 16).
  { intros x. change 15 with (Z.ones 4). rewrite Z.land_ones by lia.
    apply Z.mod_pos_bound. reflexivity. }
  rewrite !Hd by apply Hl. reflexivity.
Qed.

End FriendFacts.

(** ** Global slots *)

Lemma ustate_search_rejects (buf : string) :
  buf <> "away" -> buf <> "busy" ->
  ustate_search buf 0 (List.length ustate) = List.length ustate.
Proof.
  intros Ha Hb. cbn.
  destruct (String.eqb_spec buf "away"); [contradiction|].
  destruct (String.eqb_spec buf "busy"); [contradiction|].
  reflexivity.
Qed.

Section SlotFacts.

Variable E : Env.

(** What [fiforead] does on a first read that finds at least one byte. *)
Lemma fiforead_bytes (dirfd fd : Z) (f : file) (sz : Z) (b : Z) (bs : list Z)
      (rs : list readres) (w : world) :
  1 <= sz ->
  fiforead E dirfd fd f sz (RdBytes (b :: bs) :: rs) w
  = Done (Z.of_nat (List.length (read_data sz (b :: bs))), read_data sz (b :: bs), fd)
         (add_trace w [EvRead fd sz]) /\
  (Z.of_nat (List.length (read_data sz (b :: bs))) <=? 0) = false.
Proof.
  intros Hsz. unfold read_data.
  assert (Hpos : 0 < Z.of_nat (List.length (firstn (Z.to_nat sz) (b :: bs)))).
  { destruct (Z.to_nat sz) as [|n] eqn:Hn; [lia|]. cbn [firstn List.length]. lia. }
  split; [|apply Z.leb_gt; assumption].
  cbn [fiforead]. unfold bind. rewrite emit_run.
  destruct (Z.eqb_spec (Z.of_nat (List.length (firstn (Z.to_nat sz) (b :: bs)))) 0);
    [lia|reflexivity].
Qed.

Lemma setuserstate_invalid (b : Z) (bs : list Z) (rs : list readres) (w : world) :
  2 <= PIPE_BUF E ->
  let data := read_data (PIPE_BUF E - 1) (b :: bs) in
  cstr (chomp data) <> "away" ->
  cstr (chomp data) <> "busy" ->
  exists w',
    setuserstate E (RdBytes (b :: bs) :: rs) w = Done tt w' /\
    trace w'
    = (trace w
       ++ [ EvRead (slot_fd w STATE IN) (PIPE_BUF E - 1);
            EvFtruncate (slot_fd w STATE ERR);
            EvLseek (slot_fd w STATE ERR);
            EvDprintf (slot_fd w STATE ERR) ("invalid" ++ NL);
            EvWarn ("Invalid state: " ++ cstr (chomp data) ++ NL) ])%list.
Proof.
  intros Hsz data Ha Hb. unfold setuserstate.
  unfold bind at 1. unfold get_slot at 1.
  unfold bind at 1.
  destruct (fiforead_bytes (sl_dirfd (slot_of w STATE)) (slot_fd w STATE IN) (gfiles IN)
              (PIPE_BUF E - 1) b bs rs w) as [Hrun Hn]; [lia|].
  unfold slot_of, slot_fd, slot_of in Hrun. rewrite Hrun.
  unfold bind at 1. unfold set_slot_fd at 1.
  fold data. unfold data at 1. rewrite Hn.
  fold (chomp data). rewrite (ustate_search_rejects _ Ha Hb).
  cbn [List.length ustate Nat.ltb Nat.leb Nat.eqb when].
  run_monad. world_simpl. eexists. split; reflexivity.
Qed.

Lemma sendfriendreq_invalid (b : Z) (bs : list Z) (rs : list readres) (w : world) :
  2 <= PIPE_BUF E ->
  let data := read_data (PIPE_BUF E - 1) (b :: bs) in
  String.length (fst (split_space (cstr data))) <> (TOX_FRIEND_ADDRESS_SIZE * 2)%nat ->
  exists w',
    sendfriendreq E (RdBytes (b :: bs) :: rs) w = Done tt w' /\
    trace w'
    = (trace w
       ++ [ EvRead (slot_fd w REQUEST IN) (PIPE_BUF E - 1);
            EvFtruncate (slot_fd w REQUEST ERR);
            EvLseek (slot_fd w REQUEST ERR);
            EvDprintf (slot_fd w REQUEST ERR) ("Invalid friend ID" ++ NL) ])%list.
Proof.
  intros Hsz data Hlen. unfold sendfriendreq.
  unfold bind at 1. unfold get_slot at 1.
  unfold bind at 1.
  destruct (fiforead_bytes (sl_dirfd (slot_of w REQUEST)) (slot_fd w REQUEST IN)
              (gfiles IN) (PIPE_BUF E - 1) b bs rs w) as [Hrun Hn]; [lia|].
  unfold slot_of, slot_fd, slot_of in Hrun. rewrite Hrun.
  unfold bind at 1. unfold set_slot_fd at 1.
  fold data. unfold data at 1. rewrite Hn.
  destruct (split_space (cstr data)) as [buf rest]. cbn [fst] in Hlen.
  destruct (Nat.eqb_spec (String.length buf) (TOX_FRIEND_ADDRESS_SIZE * 2));
    [contradiction|].
  cbn [negb]. run_monad. world_simpl. eexists. split; reflexivity.
Qed.

Lemma setnospam_invalid (b : Z) (bs : list Z) (rs : list readres) (w : world) :
  let data := read_data 8 (b :: bs) in
  existsb nospam_char_bad (chomp data) = true ->
  fiforeset_ok E (sl_dirfd (slot_of w NOSPAM)) (gfiles IN) = true ->
  exists w',
    setnospam E (RdBytes (b :: bs) :: rs) w = Done tt w' /\
    trace w'
    = (trace w
       ++ [ EvRead (slot_fd w NOSPAM IN) 8;
            EvDprintf (slot_fd w NOSPAM ERR)
                      ("Input contains invalid characters ![0-9, A-F]" ++ NL) ]
       ++ reset_events (sl_dirfd (slot_of w NOSPAM)) (slot_fd w NOSPAM IN) (gfiles IN))%list.
Proof.
  intros data Hbad Hok. unfold setnospam.
  unfold bind at 1. unfold get_slot at 1.
  unfold bind at 1.
  destruct (fiforead_bytes (sl_dirfd (slot_of w NOSPAM)) (slot_fd w NOSPAM IN)
              (gfiles IN) 8 b bs rs w) as [Hrun Hn]; [lia|].
  unfold slot_of, slot_fd, slot_of in Hrun.
  change (2 * 4 + 1 - 1) with 8. rewrite Hrun.
  unfold bind at 1. unfold set_slot_fd at 1.
  fold data. unfold data at 1. rewrite Hn.
  fold (chomp data). rewrite Hbad.
  unfold bind at 1. rewrite emit_run.
  unfold bind at 1. rewrite fiforeset_run by exact Hok.
  unfold set_slot_fd. world_simpl. eexists. split; reflexivity.
Qed.

Lemma setnospam_valid (b : Z) (bs : list Z) (rs : list readres) (w : world) :
  let data := read_data 8 (b :: bs) in
  let nsval := strtoul16 (cstr (chomp data)) mod 2 ^ 32 in
  existsb nospam_char_bad (chomp data) = false ->
  datasave_ok E = true ->
  fiforeset_ok E (sl_dirfd (slot_of w NOSPAM)) (gfiles IN) = true ->
  exists es w',
    setnospam E (RdBytes (b :: bs) :: rs) w = Done tt w' /\
    trace w'
    = (trace w
       ++ [ EvRead (slot_fd w NOSPAM IN) 8; EvTox (ToxSelfSetNospam nsval) ]
       ++ es
       ++ [ EvLog ("Nospam > " ++ fmt_08X nsval ++ NL);
            EvFtruncate (slot_fd w NOSPAM OUT);
            EvLseek (slot_fd w NOSPAM OUT);
            EvDprintf (slot_fd w NOSPAM OUT) (fmt_08X nsval ++ NL);
            EvFtruncate (idfd w);
            EvLseek (idfd w) ]
       ++ map (fun k => EvDprintf (idfd w)
                          (fmt_02X (Hex.byte_at (tox_self_get_address E nsval) k)))
              (seq 0 TOX_FRIEND_ADDRESS_SIZE)
       ++ [ EvDprintf (idfd w) NL ]
       ++ reset_events (sl_dirfd (slot_of w NOSPAM)) (slot_fd w NOSPAM IN) (gfiles IN))%list.
Proof.
  intros data nsval Hgood Hsave Hok. unfold setnospam.
  unfold bind at 1. unfold get_slot at 1.
  unfold bind at 1.
  destruct (fiforead_bytes (sl_dirfd (slot_of w NOSPAM)) (slot_fd w NOSPAM IN)
              (gfiles IN) 8 b bs rs w) as [Hrun Hn]; [lia|].
  unfold slot_of, slot_fd, slot_of in Hrun.
  change (2 * 4 + 1 - 1) with 8. rewrite Hrun.
  unfold bind at 1. unfold set_slot_fd at 1.
  fold data. unfold data at 1. rewrite Hn.
  fold (chomp data). rewrite Hgood. fold nsval.
  unfold bind at 1. unfold bind at 1. rewrite emit_run.
  unfold bind at 1.
  match goal with
  | |- context [datasave E ?v] =>
      destruct (datasave_done E v Hsave) as (es & -> & _)
  end.
  exists es.
  run_monad. world_simpl.
  rewrite emits_run. cbv beta iota. world_simpl.
  rewrite fiforeset_run by exact Hok.
  unfold set_slot_fd. world_simpl. eexists. split; reflexivity.
Qed.

End SlotFacts.

(** ** The nospam value echoed to [out] *)

Lemma nospam_char_digit (c : Z) :
  nospam_char_bad c = false ->
  exists d,
    0 <= d < 16 /\ (c =? 0) = false /\
    Hex.hexval (ascii_of_nat (Z.to_nat c)) = Some d /\
    Hex.hex_at d = ascii_of_nat (Z.to_nat c).
Proof.
  unfold nospam_char_bad. intros H.
  apply orb_false_elim in H as [H H3]. apply orb_false_elim in H as [H1 H2].
  apply Z.ltb_ge in H1.
  assert (H3' : c <= 70) by (destruct (Z.gtb_spec c 70); [discriminate|lia]).
  assert (H2' : c <= 57 \/ 65 <= c).
  { destruct (Z.gtb_spec c 57); [|lia]. destruct (Z.ltb_spec c 65); [discriminate|lia]. }
  clear H2 H3.
  assert (Hc : c = 48 \/ c = 49 \/ c = 50 \/ c = 51 \/ c = 52 \/ c = 53 \/ c = 54 \/
               c = 55 \/ c = 56 \/ c = 57 \/ c = 65 \/ c = 66 \/ c = 67 \/ c = 68 \/
               c = 69 \/ c = 70) by lia.
  exists (if c <=? 57 then c - 48 else c - 55).
  repeat match goal with H : _ \/ _ |- _ => destruct H as [H|H] end;
    subst c; cbn; repeat split; try reflexivity; lia.
Qed.

Lemma fmt_02X_nibbles (h l : Z) :
  0 <= h < 16 -> 0 <= l < 16 ->
  fmt_02X (16 * h + l) = String (Hex.hex_at h) (String (Hex.hex_at l) EmptyString).
Proof.
  intros Hh Hl.
  apply HexFacts.nibble_cases in Hh. apply HexFacts.nibble_cases in Hl.
  HexFacts.each_nibble Hh; HexFacts.each_nibble Hl; reflexivity.
Qed.

Lemma byte_of_word (d0 d1 d2 d3 d4 d5 d6 d7 : Z) :
  0 <= d0 < 16 -> 0 <= d1 < 16 -> 0 <= d2 < 16 -> 0 <= d3 < 16 ->
  0 <= d4 < 16 -> 0 <= d5 < 16 -> 0 <= d6 < 16 -> 0 <= d7 < 16 ->
  let v := 16 * (16 * (16 * (16 * (16 * (16 * (16 * (16 * 0 + d0) + d1) + d2) + d3)
                                + d4) + d5) + d6) + d7 in
  v mod 2 ^ 32 = v /\
  Z.land (Z.shiftr v 24) 255 = 16 * d0 + d1 /\
  Z.land (Z.shiftr v 16) 255 = 16 * d2 + d3 /\
  Z.land (Z.shiftr v 8) 255 = 16 * d4 + d5 /\
  Z.land v 255 = 16 * d6 + d7.
Proof.
  intros H0 H1 H2 H3 H4 H5 H6 H7 v.
  change 255 with (Z.ones 8).
  rewrite !Z.land_ones, !Z.shiftr_div_pow2 by lia.
  change (2 ^ 32) with 4294967296. change (2 ^ 24) with 16777216.
  change (2 ^ 16) with 65536. change (2 ^ 8) with 256.
  subst v. repeat split.
  - apply Z.mod_small. lia.
  - symmetry. apply (Z.mod_unique_pos _ _ 0); [lia|].
    rewrite Z.mul_0_r, Z.add_0_l.
    symmetry. apply (Z.div_unique_pos _ _ _ (65536 * (16 * d2 + d3) + 256 * (16 * d4 + d5) + (16 * d6 + d7))); lia.
  - symmetry. apply (Z.mod_unique_pos _ _ (16 * d0 + d1)); [lia|].
    assert (Hq : (16 * (16 * (16 * (16 * (16 * (16 * (16 * (16 * 0 + d0) + d1) + d2) + d3)
                                + d4) + d5) + d6) + d7) / 65536
                 = 256 * (16 * d0 + d1) + (16 * d2 + d3)).
    { symmetry. apply (Z.div_unique_pos _ _ _ (256 * (16 * d4 + d5) + (16 * d6 + d7))); lia. }
    rewrite Hq. lia.
  - symmetry. apply (Z.mod_unique_pos _ _ (256 * (16 * d0 + d1) + (16 * d2 + d3))); [lia|].
    assert (Hq : (16 * (16 * (16 * (16 * (16 * (16 * (16 * (16 * 0 + d0) + d1) + d2) + d3)
                                + d4) + d5) + d6) + d7) / 256
                 = 65536 * (16 * d0 + d1) + 256 * (16 * d2 + d3) + (16 * d4 + d5)).
    { symmetry. apply (Z.div_unique_pos _ _ _ (16 * d6 + d7)); lia. }
    rewrite Hq. lia.
  - symmetry.
    apply (Z.mod_unique_pos _ _ (65536 * (16 * d0 + d1) + 256 * (16 * d2 + d3)
                                 + (16 * d4 + d5))); lia.
Qed.

(** Eight valid characters come back unchanged from [strtoul] and [%08X]. *)
Lemma nospam_echo (cs : list Z) :
  List.length cs = 8%nat ->
  existsb nospam_char_bad cs = false ->
  fmt_08X (strtoul16 (cstr cs) mod 2 ^ 32) = cstr cs.
Proof.
  intros Hlen Hgood.
  destruct cs as [|c0 [|c1 [|c2 [|c3 [|c4 [|c5 [|c6 [|c7 [|]]]]]]]]]; try discriminate.
  cbn [existsb] in Hgood.
  repeat match type of Hgood with
         | (_ || _)%bool = false => apply orb_false_elim in Hgood as [?H Hgood]
         end.
  clear Hgood.
  repeat match goal with
         | H : nospam_char_bad ?c = false |- _ =>
             let d := fresh "d" in let Hd := fresh "Hd" in
             let Hz := fresh "Hz" in let Hv := fresh "Hv" in let Ha := fresh "Ha" in
             destruct (nospam_char_digit c H) as (d & Hd & Hz & Hv & Ha); clear H
         end.
  cbn [cstr].
  repeat match goal with H : (_ =? 0) = false |- _ => rewrite H; clear H end.
  unfold strtoul16. cbn [strtoul16_from].
  repeat match goal with H : Hex.hexval _ = Some _ |- _ => rewrite H; clear H end.
  repeat match goal with H : Hex.hex_at _ = ascii_of_nat _ |- _ => rewrite <- H; clear H end.
  match goal with
  | |- context [16 * (16 * (16 * (16 * (16 * (16 * (16 * (16 * 0 + ?a) + ?b) + ?c) + ?d)
                                   + ?e) + ?f) + ?g) + ?h] =>
      destruct (byte_of_word a b c d e f g h) as (Hm & B3 & B2 & B1 & B0); try assumption
  end.
  cbv zeta in Hm, B3, B2, B1, B0.
  rewrite Hm. unfold fmt_08X. rewrite B3, B2, B1, B0.
  rewrite !fmt_02X_nibbles by assumption. reflexivity.
Qed.

(** ** Request decisions *)

Lemma bind_done {A B} (m : M A) (k : A -> M B) (w : world) (b : B) (w' : world) :
  bind m k w = Done b w' ->
  exists a w1, m w = Done a w1 /\ k a w1 = Done b w'.
Proof.
  unfold bind. destruct (m w) as [a w1| | |]; try discriminate.
  intros H. now exists a, w1.
Qed.

Lemma set_rq_fd_same (req : request) : set_rq_fd req (rq_fd req) = req.
Proof. now destruct req. Qed.

Lemma world_eta (w : world) :
  mkworld (friendhead w) (reqhead w) (gslots w) (idfd w) (trace w) = w.
Proof. now destruct w. Qed.

Section ReadFacts.

Variable E : Env.

Lemma fifoopen_done_inv (dirfd : Z) (f : file) (w : world) (fd : Z) (w' : world) :
  fifoopen E dirfd f w = Done fd w' ->
  fifoopen_ok E dirfd f = true /\ fd = open_fd E dirfd f.
Proof.
  unfold fifoopen, fifoopen_ok, open_fd. run_monad.
  destruct (sys_openat E dirfd (f_name f) (f_flags f)) as [v|e].
  - intros [= <- _]. auto.
  - destruct (errno_eqb e ENXIO); [intros [= <- _]; auto|discriminate].
Qed.

Lemma fiforeset_done_inv (dirfd fd : Z) (f : file) (w : world) (fd' : Z) (w' : world) :
  fiforeset E dirfd fd f w = Done fd' w' ->
  fiforeset_ok E dirfd f = true /\ fd' = open_fd E dirfd f.
Proof.
  unfold fiforeset, fiforeset_ok. intros H.
  apply bind_done in H as ([] & w1 & _ & H).
  apply bind_done in H as ([] & w2 & Hunlink & H).
  apply bind_done in H as ([] & w3 & _ & H).
  apply bind_done in H as ([] & w4 & _ & H).
  apply bind_done in H as ([] & w5 & Hmk & H).
  apply fifoopen_done_inv in H as [Hopen ->].
  rewrite Hopen, andb_true_r. split; [|reflexivity].
  apply andb_true_iff. split.
  - destruct (sys_unlinkat E dirfd (f_name f)) as [v|e]; [reflexivity|].
    destruct (errno_eqb e ENOENT); [reflexivity|discriminate].
  - destruct (sys_mkfifoat E dirfd (f_name f)) as [v|e]; [reflexivity|].
    destruct (errno_eqb e EEXIST); [reflexivity|discriminate].
Qed.

(** A [fiforead] of one byte, by what the reads bring. *)
Lemma fiforead_one (dirfd fd : Z) (f : file) (rs : list readres) :
  forall w,
    match read_one rs with
    | GotByte k c =>
        fiforead E dirfd fd f 1 rs w
        = Done (1, [c], fd) (add_trace w (repeat (EvRead fd 1) (S k)))
    | WouldBlock k =>
        fiforead E dirfd fd f 1 rs w
        = Done (-1, [], fd) (add_trace w (repeat (EvRead fd 1) (S k)))
    | EndOfFile k =>
        fiforead E dirfd fd f 1 rs w
        = bind (fiforeset E dirfd fd f) (fun fd' => ret (0, [], fd'))
               (add_trace w (repeat (EvRead fd 1) (S k)))
    | ReadStops => forall x w', fiforead E dirfd fd f 1 rs w <> Done x w'
    end.
Proof.
  induction rs as [|r rs IH]; intros w; [intros x w'; discriminate|].
  cbn [read_one]. destruct r as [[|c more]|e].
  - cbn [fiforead]. unfold bind at 1. rewrite emit_run. reflexivity.
  - cbn [fiforead]. unfold bind at 1. rewrite emit_run. reflexivity.
  - destruct (errno_eqb e EINTR) eqn:He.
    + specialize (IH (add_trace w [EvRead fd 1])).
      destruct (read_one rs); try intros x w';
        cbn [fiforead]; unfold bind at 1; rewrite emit_run, He;
        rewrite ?IH, ?add_trace_app; try reflexivity.
      apply IH.
    + destruct (errno_eqb e EWOULDBLOCK) eqn:Hb; try intros x w';
        cbn [fiforead]; unfold bind at 1; rewrite emit_run, He, Hb;
        [reflexivity|discriminate].
Qed.

Lemma datasave_done_inv (w w' : world) :
  datasave E w = Done tt w' -> datasave_ok E = true.
Proof.
  unfold datasave, datasave_ok. intros H.
  apply bind_done in H as ([] & w1 & _ & H).
  destruct (sys_open_save E) as [fd|]; [|discriminate].
  fold (tox_size E) in H. fold (tox_encrypted_size E) in H.
  destruct (sys_malloc E _); cbn [negb] in H; [|discriminate].
  apply bind_done in H as ([] & w2 & _ & H).
  apply bind_done in H as ([] & w3 & _ & H).
  destruct (sys_write_save E fd _ =? _); [reflexivity|discriminate].
Qed.

(** [friendcreate] changes the friend queue and the trace only. *)
Lemma friendcreate_world (frnum : Z) (w : world) (o : option friend) (w' : world) :
  friendcreate E frnum w = Done o w' ->
  exists f es,
    w' = mkworld (friendhead w ++ [f]) (reqhead w) (gslots w) (idfd w) (trace w ++ es).
Proof.
  unfold friendcreate. intros H.
  apply bind_done in H as ([] & w0 & Halloc & H).
  assert (Hw0 : w0 = w).
  { destruct (sys_calloc E 1 (sizeof_friend E)); [|discriminate].
    now injection Halloc as <-. }
  subst w0. rewrite !to_size_t_nonneg in H.
  apply bind_done in H as (name & w1 & Hname & H).
  assert (Hw1 : w1 = w).
  { destruct (_ =? 0); [now injection Hname as _ <-|].
    destruct (_ <=? _); [now injection Hname as _ <-|discriminate]. }
  subst w1.
  apply bind_done in H as ([] & w2 & Hmk & H). injection Hmk as <-.
  apply bind_done in H as ([] & w3 & Hchk & H).
  assert (Hw3 : w3 = add_trace w
                       [EvMkdir (Hex.id2str (tox_friend_get_public_key E frnum))]).
  { destruct (_ && _)%bool; [discriminate|now injection Hchk as <-]. }
  subst w3.
  apply bind_done in H as ([] & w4 & Hod & H). injection Hod as <-.
  destruct (sys_opendir E (Hex.id2str (tox_friend_get_public_key E frnum))) as [d|];
    [|discriminate].
  rewrite ?to_size_t_nonneg in H.
  apply bind_done in H as (fds & w5 & Hfiles & H).
  destruct (traces_friend_files E _ _ _ _ _ _ Hfiles) as [es1 ->].
  rewrite !add_trace_app in H.
  destruct (to_size_t (tox_friend_get_status_message_size E frnum)
            >? TOX_MAX_STATUS_MESSAGE_LENGTH E),
           (to_size_t (tox_friend_get_status E frnum)
            >=? Z.of_nat (List.length ustate));
    revert H; run_monad; world_simpl; intros [= _ <-];
    do 2 eexists; reflexivity.
Qed.

End ReadFacts.

Section RoundFacts.

Variable E : Env.
Variable rfds : list Z.
Variable reads : Z -> list readres.

Ltac world_eq :=
  rewrite ?add_trace_app; unfold add_trace;
  cbn [friendhead reqhead gslots idfd trace];
  rewrite ?app_nil_r, <- ?app_assoc; reflexivity.

(** A round that returns has one of the effects of [round_effect]. *)
Lemma request_round_effect (req : request) (w : world) (o : option request)
      (w1 : world) :
  request_round E rfds reads req w = Done o w1 ->
  exists fs es,
    round_effect E rfds reads (slot_fd w REQUEST OUT) req (mkround o fs es) /\
    w1 = mkworld (friendhead w ++ fs) (reqhead w) (gslots w) (idfd w) (trace w ++ es).
Proof.
  unfold request_round.
  destruct (fd_isset (rq_fd req) rfds) eqn:Hready; cbn [negb].
  2:{ intros [= <- <-]. exists [], []. split; [now apply eff_idle|].
      rewrite !app_nil_r. symmetry. apply world_eta. }
  unfold bind at 1, get_slot at 1.
  fold (slot_of w REQUEST). fold (slot_fd w REQUEST OUT). fold (reqfifo_of req).
  set (out := slot_fd w REQUEST OUT).
  pose proof (fiforead_one E out (rq_fd req) (reqfifo_of req) (reads (rq_fd req)) w)
    as Hread.
  unfold bind at 1.
  destruct (read_one (reads (rq_fd req))) as [k c|k|k|] eqn:Hone.
  - rewrite Hread. cbn [Z.eqb Pos.eqb negb nth]. rewrite set_rq_fd_same.
    destruct (Z.eqb_spec c 48) as [H0|H0]; [|destruct (Z.eqb_spec c 49) as [H1|H1]];
      cbn [negb andb].
    + (* '0' *)
      subst c. unfold bind at 1. rewrite emit_run.
      destruct (Z.ltb_spec (tox_friend_add_norequest E (rq_id req)) 0) as [Hneg|Hpos].
      * unfold bind at 1, weprintf. rewrite emit_run. intros H.
        apply bind_done in H as (fd2 & w2 & Hreset & H). injection H as <- <-.
        pose proof (fiforeset_done_inv E _ _ _ _ _ _ Hreset) as [Hok ->].
        rewrite (fiforeset_run E _ _ _ _ Hok) in Hreset. injection Hreset as <-.
        do 2 eexists. split; [apply (eff_refused E rfds reads out req k 48); auto|].
        world_eq.
      * change (48 =? 49) with false. run_monad. rewrite !add_trace_app.
        intros [= <- <-].
        do 2 eexists. split; [apply (eff_rejected E rfds reads out req k); assumption|].
        world_eq.
    + (* '1' *)
      subst c. unfold bind at 1. rewrite emit_run.
      destruct (Z.ltb_spec (tox_friend_add_norequest E (rq_id req)) 0) as [Hneg|Hpos].
      * unfold bind at 1, weprintf. rewrite emit_run. intros H.
        apply bind_done in H as (fd2 & w2 & Hreset & H). injection H as <- <-.
        pose proof (fiforeset_done_inv E _ _ _ _ _ _ Hreset) as [Hok ->].
        rewrite (fiforeset_run E _ _ _ _ Hok) in Hreset. injection Hreset as <-.
        do 2 eexists. split; [apply (eff_refused E rfds reads out req k 49); auto|].
        world_eq.
      * change (49 =? 49) with true. cbv iota. rewrite add_trace_app. intros H.
        apply bind_done in H as ([] & w2 & Hbody & H).
        apply bind_done in Hbody as (ofr & w3 & Hcreate & Hbody).
        apply bind_done in Hbody as ([] & w4 & Hlog & Hsave).
        destruct (friendcreate_shape E _ _ _ _ Hcreate)
          as (f & es1 & _ & Hnum & Hid & Hstr & _ & Hfs & _ & Htr).
        destruct (friendcreate_world E _ _ _ _ Hcreate) as (f' & es' & Hw3).
        rewrite Hw3 in Hfs, Htr.
        cbn [friendhead reqhead gslots idfd trace add_trace] in Hfs, Htr, Hw3.
        rewrite Hfs, Htr in Hw3. clear Hfs Htr.
        pose proof (datasave_done_inv E _ _ Hsave) as Hds.
        destruct (datasave_done E w4 Hds) as (es2 & Hrun & Hopen & Hwrite).
        rewrite Hrun in Hsave. injection Hsave as <-.
        assert (Hw4 : w4 = add_trace w3 [EvLog ("Request : " ++ rq_idstr req
                                                ++ " > Accepted" ++ NL)])
          by (now injection Hlog as <-).
        subst w4 w3. clear Hlog Hrun.
        revert H. run_monad. rewrite !add_trace_app. intros [= <- <-].
        exists [f].
        exists (repeat (EvRead (rq_fd req) 1) (S k)
                ++ [ EvTox (ToxFriendAddNorequest (rq_id req)) ]
                ++ EvMkdir (fr_idstr f) :: EvOpendir (fr_idstr f) :: es1
                ++ [ EvLog ("Request : " ++ rq_idstr req ++ " > Accepted" ++ NL) ]
                ++ es2
                ++ [ EvUnlinkat out (rq_idstr req); EvClose (rq_fd req) ])%list.
        split.
        { apply (eff_accepted E rfds reads out req k f es1 es2); auto.
          now rewrite Hstr, Hid. }
        unfold add_trace. cbn [friendhead reqhead gslots idfd trace].
        f_equal. rewrite <- !app_assoc. cbn [app].
        rewrite <- !app_assoc. reflexivity.
    + (* any other byte *)
      intros [= <- <-]. exists [].
      eexists. split; [apply (eff_ignored E rfds reads out req k c); assumption|].
      world_eq.
  - rewrite Hread. cbn [Z.eqb negb]. rewrite set_rq_fd_same.
    intros [= <- <-]. exists [].
    eexists. split; [apply (eff_would_block E rfds reads out req k); assumption|].
    world_eq.
  - rewrite Hread. intros H.
    destruct (fiforeset E out (rq_fd req) (reqfifo_of req)
                (add_trace w (repeat (EvRead (rq_fd req) 1) (S k))))
      as [fd' w2| | |] eqn:Hreset; unfold bind at 1 in H; rewrite Hreset in H;
      try discriminate.
    cbn [ret Z.eqb negb] in H. unfold ret in H. injection H as <- <-.
    pose proof (fiforeset_done_inv E _ _ _ _ _ _ Hreset) as [Hok ->].
    rewrite (fiforeset_run E _ _ _ _ Hok) in Hreset. injection Hreset as <-.
    exists []. eexists. split; [apply (eff_end_of_file E rfds reads out req k); assumption|].
    world_eq.
  - intros H. exfalso.
    destruct (fiforead E out (rq_fd req) (reqfifo_of req) 1 (reads (rq_fd req)) w)
      as [x w2| | |] eqn:Hrd; try discriminate.
    exact (Hread x w2 eq_refl).
Qed.

(** A round returns whenever the calls it makes go well. *)
Lemma request_round_done (req : request) (w : world) :
  round_ok E rfds reads (slot_fd w REQUEST OUT) req = true ->
  exists o w1, request_round E rfds reads req w = Done o w1.
Proof.
  unfold round_ok, request_round.
  destruct (fd_isset (rq_fd req) rfds); cbn [negb]; [|intros _; now exists (Some req), w].
  unfold bind at 1, get_slot at 1.
  fold (slot_of w REQUEST). fold (slot_fd w REQUEST OUT). fold (reqfifo_of req).
  set (out := slot_fd w REQUEST OUT).
  pose proof (fiforead_one E out (rq_fd req) (reqfifo_of req) (reads (rq_fd req)) w)
    as Hread.
  unfold bind at 1.
  destruct (read_one (reads (rq_fd req))) as [k c|k|k|]; [| | |discriminate].
  - rewrite Hread. cbn [Z.eqb Pos.eqb negb nth]. rewrite set_rq_fd_same.
    destruct (negb (c =? 48) && negb (c =? 49))%bool; [intros _; do 2 eexists; reflexivity|].
    unfold bind at 1. rewrite emit_run.
    destruct (tox_friend_add_norequest E (rq_id req) <? 0).
    + intros Hok. unfold bind at 1, weprintf. rewrite emit_run.
      unfold bind at 1. rewrite (fiforeset_run E _ _ _ _ Hok).
      do 2 eexists. reflexivity.
    + destruct (c =? 49).
      * intros Hok. apply andb_prop in Hok as [Hfc Hds].
        unfold bind at 1. unfold bind at 1.
        match goal with
        | |- context [friendcreate E ?r ?v] =>
            destruct (friendcreate_done E r v Hfc) as (ofr & w2 & ->)
        end.
        unfold bind at 1, logmsg. rewrite emit_run.
        match goal with
        | |- context [datasave E ?v] =>
            destruct (datasave_done E v Hds) as (es2 & -> & _)
        end.
        run_monad. do 2 eexists. reflexivity.
      * intros _. run_monad. do 2 eexists. reflexivity.
  - intros _. rewrite Hread. cbn [Z.eqb negb]. do 2 eexists. reflexivity.
  - intros Hok. rewrite Hread. unfold bind at 1.
    rewrite (fiforeset_run E _ _ _ _ Hok). cbn [ret Z.eqb negb].
    do 2 eexists. reflexivity.
Qed.

(** The loop visits the requests in order; each round leaves its effect. *)
Lemma request_loop_effect (out : Z) (todo : list request) :
  forall kept w w',
    slot_fd w REQUEST OUT = out ->
    reqhead w = (kept ++ todo)%list ->
    request_loop E rfds reads kept todo w = Done tt w' ->
    exists steps,
      Forall2 (round_effect E rfds reads out) todo steps /\
      reqhead w' = (kept ++ flat_map rr_queued steps)%list /\
      friendhead w' = (friendhead w ++ flat_map rr_new steps)%list /\
      trace w' = (trace w ++ flat_map rr_calls steps)%list /\
      gslots w' = gslots w /\ idfd w' = idfd w.
Proof.
  induction todo as [|req rest IH]; intros kept w w' Hout Hq Hrun.
  - injection Hrun as <-. exists []. cbn. rewrite !app_nil_r.
    rewrite app_nil_r in Hq.
    split; [constructor|]. split; [exact Hq|]. auto.
  - cbn [request_loop] in Hrun.
    apply bind_done in Hrun as (o & w1 & Hround & Hrun).
    destruct (request_round_effect req w o w1 Hround) as (fs & es & Heff & ->).
    rewrite Hout in Heff.
    unfold bind at 1, set_reqs at 1 in Hrun.
    cbn [friendhead reqhead gslots idfd trace] in Hrun.
    apply IH in Hrun; [|exact Hout|reflexivity].
    destruct Hrun as (steps & HF & Hr & Hf & Ht & Hg & Hi).
    cbn [friendhead reqhead gslots idfd trace] in Hf, Ht, Hg, Hi.
    exists (mkround o fs es :: steps).
    split; [now constructor|].
    cbn [flat_map rr_new rr_calls]. unfold rr_queued at 1. cbn [rr_req].
    split; [rewrite Hr; destruct o; rewrite <- ?app_assoc; reflexivity|].
    split; [now rewrite Hf, <- app_assoc|].
    split; [now rewrite Ht, <- app_assoc|auto].
Qed.

Lemma request_loop_done (out : Z) (todo : list request) :
  forall kept w,
    slot_fd w REQUEST OUT = out ->
    forallb (round_ok E rfds reads out) todo = true ->
    exists w', request_loop E rfds reads kept todo w = Done tt w'.
Proof.
  induction todo as [|req rest IH]; intros kept w Hout Hok; [now exists w|].
  cbn [forallb] in Hok. apply andb_prop in Hok as [Hreq Hrest].
  rewrite <- Hout in Hreq.
  destruct (request_round_done req w Hreq) as (o & w1 & Hround).
  cbn [request_loop]. unfold bind at 1. rewrite Hround.
  destruct (request_round_effect req w o w1 Hround) as (fs & es & _ & ->).
  unfold bind at 1, set_reqs at 1.
  cbn [friendhead reqhead gslots idfd trace].
  apply IH; [exact Hout|exact Hrest].
Qed.

End RoundFacts.

(** C1 (as the code has it) -- one pass of the request loop visits every
    pending request once, in the order of the queue, and what it does with
    a request depends on that request alone, however many are ready.  A
    request whose FIFO is not ready, or has no byte to read, stays queued.
    When one byte is read from its FIFO: any byte other than '0' and '1'
    leaves the queue, the friends and the FIFO as they are; for '0' and '1'
    add-without-request is invoked first; when it succeeds, '0' deletes
    the friend entry it returned and '1' creates the friend directory and
    saves the state, and in both cases the FIFO is unlinked and closed and
    the request removed; when it fails, a warning is printed, the FIFO is
    reset and the request stays queued with its new descriptor.  Afterwards
    the queue holds the requests the rounds left, the friend queue has
    grown by the friends created and the trace by the calls of the rounds,
    in the order of the requests.  The pass returns whenever the calls of
    every round go well. *)
Theorem request_decision (E : Env) (rfds : list Z) (reads : Z -> list readres)
        (w : world) :
  let out := slot_fd w REQUEST OUT in
  (forall w',
     loop_requests E rfds reads w = Done tt w' ->
     exists steps,
       Forall2 (round_effect E rfds reads out) (reqhead w) steps /\
       reqhead w' = flat_map rr_queued steps /\
       friendhead w' = (friendhead w ++ flat_map rr_new steps)%list /\
       trace w' = (trace w ++ flat_map rr_calls steps)%list /\
       gslots w' = gslots w /\ idfd w' = idfd w) /\
  (forallb (round_ok E rfds reads out) (reqhead w) = true ->
   exists w', loop_requests E rfds reads w = Done tt w').
Proof.
  intros out. split.
  - intros w' Hrun. unfold loop_requests, bind, get_reqs in Hrun.
    exact (request_loop_effect E rfds reads out (reqhead w) [] w w'
             eq_refl eq_refl Hrun).
  - intros Hok. unfold loop_requests, bind, get_reqs.
    exact (request_loop_done E rfds reads out (reqhead w) [] w eq_refl Hok).
Qed.

Lemma request_decision_witness :
  let reads := fun fd => [RdBytes [if fd =? 40 then 49 else 48]] in
  exists w' steps,
    loop_requests env0 [40; 41] reads world_requests = Done tt w' /\
    Forall2 (round_effect env0 [40; 41] reads 30) (reqhead world_requests) steps /\
    reqhead w' = flat_map rr_queued steps /\
    friendhead w' = flat_map rr_new steps.
Proof.
  intros reads.
  destruct (proj2 (request_decision env0 [40; 41] reads world_requests) eq_refl)
    as [w' Hrun].
  destruct (proj1 (request_decision env0 [40; 41] reads world_requests) w' Hrun)
    as (steps & HF & Hr & Hf & _).
  exists w', steps. auto.
Defined.

(** C1 (as stated) fails: the byte '1' is read, the transport refuses
    add-without-request, and the request is still queued; no friend is
    created and nothing is saved. *)
Lemma accept_refused_by_transport :
  exists w',
    loop_requests (sample_env (-1)) [40] (fun _ => [RdBytes [49]]) world_request
    = Done tt w' /\
    reqhead w' = [set_rq_fd sample_request 5] /\
    friendhead w' = [] /\
    trace w'
    = [ EvRead 40 1;
        EvTox (ToxFriendAddNorequest sample_key);
        EvWarn ("Failed to add friend " ++ Hex.id2str sample_key ++ NL);
        EvUnlinkat 30 (Hex.id2str sample_key);
        EvClose 40;
        EvMkfifoat 30 (Hex.id2str sample_key);
        EvOpenat 30 (Hex.id2str sample_key) [O_RDONLY; O_NONBLOCK] ].
Proof.
  eexists. split; [vm_compute; reflexivity|].
  repeat split; vm_compute; reflexivity.
Qed.

(** C6 (as the code has it) -- each of the three validation failures writes
    a message to the slot's [err] file; the state and request handlers then
    return with the input FIFO as it is, and only the nospam handler resets
    its input FIFO. *)
Theorem validation_failure_effects (E : Env) (b : Z) (bs : list Z)
        (rs : list readres) (w : world) :
  2 <= PIPE_BUF E ->
  let line := read_data (PIPE_BUF E - 1) (b :: bs) in
  let digits := read_data 8 (b :: bs) in
  (cstr (chomp line) <> "away" -> cstr (chomp line) <> "busy" ->
   exists w',
     setuserstate E (RdBytes (b :: bs) :: rs) w = Done tt w' /\
     trace w'
     = (trace w
        ++ [ EvRead (slot_fd w STATE IN) (PIPE_BUF E - 1);
             EvFtruncate (slot_fd w STATE ERR);
             EvLseek (slot_fd w STATE ERR);
             EvDprintf (slot_fd w STATE ERR) ("invalid" ++ NL);
             EvWarn ("Invalid state: " ++ cstr (chomp line) ++ NL) ])%list) /\
  (String.length (fst (split_space (cstr line))) <> (TOX_FRIEND_ADDRESS_SIZE * 2)%nat ->
   exists w',
     sendfriendreq E (RdBytes (b :: bs) :: rs) w = Done tt w' /\
     trace w'
     = (trace w
        ++ [ EvRead (slot_fd w REQUEST IN) (PIPE_BUF E - 1);
             EvFtruncate (slot_fd w REQUEST ERR);
             EvLseek (slot_fd w REQUEST ERR);
             EvDprintf (slot_fd w REQUEST ERR) ("Invalid friend ID" ++ NL) ])%list) /\
  (existsb nospam_char_bad (chomp digits) = true ->
   fiforeset_ok E (sl_dirfd (slot_of w NOSPAM)) (gfiles IN) = true ->
   exists w',
     setnospam E (RdBytes (b :: bs) :: rs) w = Done tt w' /\
     trace w'
     = (trace w
        ++ [ EvRead (slot_fd w NOSPAM IN) 8;
             EvDprintf (slot_fd w NOSPAM ERR)
                       ("Input contains invalid characters ![0-9, A-F]" ++ NL) ]
        ++ reset_events (sl_dirfd (slot_of w NOSPAM)) (slot_fd w NOSPAM IN)
                        (gfiles IN))%list).
Proof.
  intros Hsz line digits. split; [|split].
  - now apply setuserstate_invalid.
  - now apply sendfriendreq_invalid.
  - now apply setnospam_invalid.
Qed.

Lemma validation_failure_effects_witness :
  (exists w',
     setuserstate env0 [RdBytes (bytes_of ("bogus" ++ NL))] world_request = Done tt w' /\
     trace w'
     = [ EvRead 26 4095; EvFtruncate 28; EvLseek 28;
         EvDprintf 28 ("invalid" ++ NL); EvWarn ("Invalid state: bogus" ++ NL) ]) /\
  (exists w',
     sendfriendreq env0 [RdBytes (bytes_of ("bogus" ++ NL))] world_request = Done tt w' /\
     trace w'
     = [ EvRead 29 4095; EvFtruncate 31; EvLseek 31;
         EvDprintf 31 ("Invalid friend ID" ++ NL) ]) /\
  (exists w',
     setnospam env0 [RdBytes (bytes_of ("bogus" ++ NL))] world_request = Done tt w' /\
     trace w'
     = [ EvRead 32 8;
         EvDprintf 34 ("Input contains invalid characters ![0-9, A-F]" ++ NL);
         EvUnlinkat 14 "in"; EvClose 32; EvMkfifoat 14 "in";
         EvOpenat 14 "in" [O_RDONLY; O_NONBLOCK] ]).
Proof.
  pose proof (validation_failure_effects env0 98 (bytes_of ("ogus" ++ NL)) []
                world_request) as H.
  destruct H as (Hstate & Hreq & Hns); [vm_compute; discriminate|].
  split; [|split].
  - apply Hstate; vm_compute; discriminate.
  - apply Hreq; vm_compute; discriminate.
  - apply Hns; reflexivity.
Defined.

(** C6 (as stated) fails: an invalid state word is answered on [err], and
    the input FIFO of the slot is not reset: nothing is unlinked, made or
    opened, and the slot keeps its descriptor. *)
Lemma state_error_without_reset :
  exists w',
    setuserstate env0 [RdBytes (bytes_of ("bogus" ++ NL))] world_request = Done tt w' /\
    trace w'
    = [ EvRead 26 4095; EvFtruncate 28; EvLseek 28;
        EvDprintf 28 ("invalid" ++ NL); EvWarn ("Invalid state: bogus" ++ NL) ] /\
    gslots w' = sample_slots.
Proof. eexists. split; [vm_compute; reflexivity|]. split; reflexivity. Qed.

(** ** What is written to the [id] file *)

Lemma digit_X_hex_at (d : Z) : 0 <= d < 16 -> digit_X d = Hex.hex_at d.
Proof.
  intros Hd. apply HexFacts.nibble_cases in Hd.
  HexFacts.each_nibble Hd; reflexivity.
Qed.

Lemma ratatox_hex_at (d : Z) :
  0 <= d < 16 -> Ratatox.hex_at d = Hex.tolower (Hex.hex_at d).
Proof.
  intros Hd. apply HexFacts.nibble_cases in Hd.
  HexFacts.each_nibble Hd; reflexivity.
Qed.

Lemma land_15_range (x : Z) : 0 <= Z.land x 15 < 16.
Proof.
  change 15 with (Z.ones 4). rewrite Z.land_ones by lia.
  apply Z.mod_pos_bound. reflexivity.
Qed.

(** The older encoder gives the lower-case form of what [id2str] gives. *)
Lemma ratatox_id2str_from (id : list Z) (cnt : nat) :
  forall i, Ratatox.id2str_from id i cnt = Hex.lowercase (Hex.id2str_from id i cnt).
Proof.
  induction cnt as [|c IH]; intros i; [reflexivity|].
  cbn [Ratatox.id2str_from Hex.id2str_from Hex.lowercase].
  rewrite !ratatox_hex_at by apply land_15_range. now rewrite IH.
Qed.

(** [%02X] prints a byte as [id2str] encodes it. *)
Lemma fmt_02X_id2str (a : list Z) (i : nat) (rest : string) :
  (fmt_02X (Hex.byte_at a i) ++ rest)%string
  = String (Hex.hex_at (Z.land (Z.shiftr (Hex.byte_at a i) 4) 15))
      (String (Hex.hex_at (Z.land (Hex.byte_at a i) 15)) rest).
Proof.
  unfold fmt_02X. rewrite !digit_X_hex_at by apply land_15_range. reflexivity.
Qed.

(** The [dprintf] loop over the address writes its hexadecimal form. *)
Lemma written_to_address (fd : Z) (a : list Z) (rest : list event) (cnt : nat) :
  forall i,
    written_to fd (map (fun k => EvDprintf fd (fmt_02X (Hex.byte_at a k))) (seq i cnt)
                   ++ rest)
    = (Hex.id2str_from a i cnt ++ written_to fd rest)%string.
Proof.
  induction cnt as [|c IH]; intros i; [reflexivity|].
  cbn [seq map app written_to Hex.id2str_from]. rewrite Z.eqb_refl, IH.
  rewrite fmt_02X_id2str. reflexivity.
Qed.

Lemma written_to_reset (fd dirfd fd0 : Z) (f : file) :
  written_to fd (reset_events dirfd fd0 f) = EmptyString.
Proof. unfold reset_events. destruct (fd0 =? -1); reflexivity. Qed.

Lemma substring_id2str_head (a : list Z) (rest : string) (n : nat) :
  forall i m,
    (n <= m)%nat ->
    substring 0 (2 * n) (Hex.id2str_from a i m ++ rest) = Hex.id2str_from a i n.
Proof.
  induction n as [|n IH]; intros i m Hle.
  - cbn [Nat.mul]. destruct (Hex.id2str_from a i m ++ rest)%string; reflexivity.
  - destruct m as [|m]; [lia|].
    replace (2 * S n)%nat with (S (S (2 * n))) by lia.
    cbn [Hex.id2str_from append substring]. rewrite IH by lia. reflexivity.
Qed.

Lemma substring_id2str (a : list Z) (rest : string) (n k : nat) :
  forall i m,
    (k + n <= m)%nat ->
    substring (2 * k) (2 * n) (Hex.id2str_from a i m ++ rest)
    = Hex.id2str_from a (i + k) n.
Proof.
  induction k as [|k IH]; intros i m Hle.
  - rewrite Nat.add_0_r. apply substring_id2str_head. lia.
  - destruct m as [|m]; [lia|].
    replace (2 * S k)%nat with (S (S (2 * k))) by lia.
    cbn [Hex.id2str_from append substring]. rewrite IH by lia.
    f_equal. lia.
Qed.

(** Four bytes that hold a 32-bit value are encoded as [%08X] prints it. *)
Lemma id2str_nospam (a : list Z) (k : nat) (v : Z) :
  carries_nospam a k v -> Hex.id2str_from a k 4 = fmt_08X v.
Proof.
  intros (H0 & H1 & H2 & H3). cbn [Hex.id2str_from].
  replace (S k) with (k + 1)%nat by lia.
  replace (S (k + 1)) with (k + 2)%nat by lia.
  replace (S (k + 2)) with (k + 3)%nat by lia.
  rewrite H0, H1, H2, H3. unfold fmt_08X, fmt_02X.
  rewrite !digit_X_hex_at by apply land_15_range. reflexivity.
Qed.




(** C9 (as the code has it) -- [friendcreate] of [src/ratox.c] returns when
    its allocation and its system calls go well, and every friend it
    creates is appended to the queue with the directory made and opened
    under the name [id2str] gives its public key: hexadecimal digits 0-9
    and A-F, in upper case.  The [id] file is in upper case as well: a
    nospam write that is accepted truncates it and writes the 76 upper-case
    hexadecimal digits of the address, as [id2str] would encode it, and a
    newline.  Lower case is what the encoder of the older [src/ratatox.c]
    produces: its [id2str] gives the lower-case form of the same digits. *)
Theorem friend_directory_name (E : Env) (frnum : Z) (w : world) :
  (friendcreate_ok E frnum = true ->
   exists o w', friendcreate E frnum w = Done o w') /\
  (forall o w',
     friendcreate E frnum w = Done o w' ->
     exists f es,
       o = Some f /\
       fr_id f = tox_friend_get_public_key E frnum /\
       fr_idstr f = Hex.id2str (fr_id f) /\
       upper_hex (fr_idstr f) = true /\
       friendhead w' = (friendhead w ++ [f])%list /\
       trace w' = (trace w ++ EvMkdir (fr_idstr f) :: EvOpendir (fr_idstr f) :: es)%list) /\
  (forall b bs rs,
     let digits := chomp (read_data 8 (b :: bs)) in
     let address := tox_self_get_address E (strtoul16 (cstr digits) mod 2 ^ 32) in
     existsb nospam_char_bad digits = false ->
     datasave_ok E = true ->
     fiforeset_ok E (sl_dirfd (slot_of w NOSPAM)) (gfiles IN) = true ->
     exists w' before after,
       setnospam E (RdBytes (b :: bs) :: rs) w = Done tt w' /\
       trace w'
       = (trace w ++ before
          ++ EvFtruncate (idfd w) :: EvLseek (idfd w) :: after)%list /\
       written_to (idfd w) after
       = (Hex.id2str_from address 0 TOX_FRIEND_ADDRESS_SIZE ++ NL)%string /\
       upper_hex (Hex.id2str_from address 0 TOX_FRIEND_ADDRESS_SIZE) = true) /\
  (forall id, Ratatox.id2str id = Hex.lowercase (Hex.id2str id)).
Proof.
  split; [|split; [|split]].
  - apply friendcreate_done.
  - intros o w' Hrun.
    destruct (friendcreate_shape E frnum w o w' Hrun)
      as (f & es & Ho & _ & Hid & Hstr & _ & Hfs & _ & Htr).
    exists f, es. repeat (split; [assumption|]).
    split; [|split; assumption].
    rewrite Hstr. apply id2str_from_upper.
  - intros b bs rs digits address Hgood Hsave Hreset.
    destruct (setnospam_valid E b bs rs w Hgood Hsave Hreset) as (es & w' & Hrun & Ht).
    fold digits in Ht. fold address in Ht.
    set (nsval := strtoul16 (cstr digits) mod 2 ^ 32) in *.
    exists w'.
    exists ([ EvRead (slot_fd w NOSPAM IN) 8; EvTox (ToxSelfSetNospam nsval) ]
            ++ es
            ++ [ EvLog ("Nospam > " ++ fmt_08X nsval ++ NL);
                 EvFtruncate (slot_fd w NOSPAM OUT);
                 EvLseek (slot_fd w NOSPAM OUT);
                 EvDprintf (slot_fd w NOSPAM OUT) (fmt_08X nsval ++ NL) ])%list.
    exists (map (fun k => EvDprintf (idfd w) (fmt_02X (Hex.byte_at address k)))
                (seq 0 TOX_FRIEND_ADDRESS_SIZE)
            ++ [ EvDprintf (idfd w) NL ]
            ++ reset_events (sl_dirfd (slot_of w NOSPAM)) (slot_fd w NOSPAM IN)
                            (gfiles IN))%list.
    split; [exact Hrun|].
    split; [rewrite Ht, <- !app_assoc; reflexivity|].
    split; [|apply id2str_from_upper].
    rewrite written_to_address. cbn [app written_to]. rewrite Z.eqb_refl.
    rewrite written_to_reset. reflexivity.
  - intros id. apply ratatox_id2str_from.
Qed.

Lemma friend_directory_name_witness :
  (exists o w', friendcreate env0 1 world_request = Done o w') /\
  (exists w' before after,
     setnospam env0 [RdBytes (bytes_of ("89ABCDEF" ++ NL))] world_request = Done tt w' /\
     trace w' = (before ++ EvFtruncate 3 :: EvLseek 3 :: after)%list /\
     written_to 3 after
     = (Hex.id2str_from (tox_self_get_address env0 2309737967) 0 TOX_FRIEND_ADDRESS_SIZE
        ++ NL)%string).
Proof.
  destruct (friend_directory_name env0 1 world_request) as (Hdone & _ & Hid & _).
  split; [apply Hdone; reflexivity|].
  destruct (Hid 56 (bytes_of ("9ABCDEF" ++ NL)) [] eq_refl eq_refl eq_refl)
    as (w' & before & after & Hrun & Ht & Hw & _).
  exists w', before, after. split; [exact Hrun|]. split; [exact Ht|exact Hw].
Defined.

(** C9 (as stated) fails: for the friend with key [sample_key] the directory
    made is "ABCDEF01...", not its lowercase form. *)
Lemma friend_directory_not_lowercase :
  exists f w',
    friendcreate env0 1 world_request = Done (Some f) w' /\
    fr_id f = sample_key /\
    In (EvMkdir (Hex.id2str (fr_id f))) (trace w') /\
    ~ In (EvMkdir (Hex.lowercase (Hex.id2str (fr_id f)))) (trace w') /\
    Hex.id2str (fr_id f) <> Hex.lowercase (Hex.id2str (fr_id f)).
Proof.
  do 2 eexists. split; [vm_compute; reflexivity|].
  split; [reflexivity|]. split; [now left|]. split.
  - intros H. vm_compute in H.
    repeat (destruct H as [H|H]; [discriminate H|]). exact H.
  - intros H. vm_compute in H. discriminate H.
Qed.

(** * Further properties of the code *)

(** ** Clock arithmetic *)

(** Whole numbers up to 2^53 in magnitude are doubles. *)
Lemma round_double_exact (v : Z) : Z.abs v <= 2 ^ 53 -> round_double v = v.
Proof.
  intros Hv. unfold round_double.
  destruct (Z.leb_spec (Z.abs v) (2 ^ 53)); [reflexivity|lia].
Qed.

(** A borrow computed in [double] is exact as long as the two nanosecond
    fields differ by at most 2^52. *)
Lemma timediff_borrow_exact (a b : Z) :
  Z.abs (a - b) <= 2 ^ 52 ->
  round_double (1000000000 - round_double (a - b)) = 1000000000 - (a - b).
Proof.
  intros H. assert (H52 : 2 ^ 52 = 4503599627370496) by reflexivity.
  assert (H53 : 2 ^ 53 = 9007199254740992) by reflexivity.
  rewrite (round_double_exact (a - b)) by lia.
  apply round_double_exact. lia.
Qed.

(** For readings with nanoseconds in [0, 10^9) nothing is rounded. *)
Lemma timediff_in_range (t1 t2 : timespec) :
  0 <= tv_nsec t1 < 1000000000 -> 0 <= tv_nsec t2 < 1000000000 ->
  timediff t1 t2
  = (if tv_nsec t2 - tv_nsec t1 >? 0
     then mktime (tv_sec t2 - tv_sec t1) (tv_nsec t2 - tv_nsec t1)
     else mktime (tv_sec t2 - tv_sec t1 - 1) (1000000000 - (tv_nsec t1 - tv_nsec t2))) /\
  round_double (tv_nsec (timediff t1 t2)) = tv_nsec (timediff t1 t2).
Proof.
  intros H1 H2.
  assert (H52 : 2 ^ 52 = 4503599627370496) by reflexivity.
  assert (H53 : 2 ^ 53 = 9007199254740992) by reflexivity.
  unfold timediff.
  destruct (Z.gtb_spec (tv_nsec t2 - tv_nsec t1) 0); cbn [tv_nsec].
  - split; [reflexivity|]. apply round_double_exact. lia.
  - rewrite timediff_borrow_exact by lia.
    split; [reflexivity|]. apply round_double_exact. lia.
Qed.



(** X2 -- for clock readings with nanoseconds in [0, 10^9), the loop of
    [sendfriendfile] goes on after a round exactly when the time since its
    start is positive, at most one second and less than the iteration
    interval (in milliseconds); with an interval of 0 no round is run at
    all. *)
Theorem chunk_loop_deadline (E : Env) (start now : timespec) :
  0 <= tv_nsec start < 1000000000 ->
  0 <= tv_nsec now < 1000000000 ->
  let elapsed :=
    (tv_sec now - tv_sec start) * 1000000000 + (tv_nsec now - tv_nsec start) in
  (in_time E (timediff start now) = true <->
   0 < elapsed <= 1000000000 /\ elapsed < interval E * 1000000) /\
  (interval E <= 0 ->
   forall script f w, sendfriendfile E start script f w = Done f w).
Proof.
  intros H1 H2 elapsed. subst elapsed. split.
  - unfold in_time.
    destruct (timediff_in_range start now H1 H2) as [-> ->].
    destruct (Z.gtb_spec (tv_nsec now - tv_nsec start) 0); cbn [tv_sec tv_nsec];
      rewrite andb_true_iff, Z.eqb_eq, Z.ltb_lt; lia.
  - intros Hi script f w. unfold sendfriendfile.
    assert (Hout : in_time E (mktime 0 0) = false).
    { unfold in_time. cbn [tv_sec tv_nsec Z.eqb andb].
      change (round_double 0) with 0. apply Z.ltb_ge. lia. }
    destruct script; cbn [sendfriendfile_loop]; rewrite Hout; reflexivity.
Qed.

Lemma chunk_loop_deadline_witness :
  in_time env0 (timediff (mktime 7 999999000) (mktime 8 2000)) = true /\
  in_time env0 (timediff (mktime 7 500) (mktime 7 500)) = false.
Proof.
  destruct (chunk_loop_deadline env0 (mktime 7 999999000) (mktime 8 2000))
    as [Hin _]; [cbn; lia | cbn; lia |].
  split; [apply Hin; cbn; lia|].
  destruct (chunk_loop_deadline env0 (mktime 7 500) (mktime 7 500))
    as [Hsame _]; [cbn; lia | cbn; lia |].
  apply not_true_is_false. intro Hv.
  apply Hsame in Hv. cbn in Hv. lia.
Defined.

(** X3 -- the cooldown test of [loop], for clock readings with nanoseconds
    in [0, 10^9): once more than three iteration intervals have passed
    since [lastblock] the flag and [lastblock] are cleared; up to three
    intervals (and at most one second) after it the friend is left as it
    is; a reading equal to [lastblock] clears the flag at once when three
    intervals are less than a second. *)
Theorem cooldown_elapsed (E : Env) (cur : timespec) (f : friend) :
  tx_cooldown (fr_tx f) = true ->
  0 <= tv_nsec (tx_lastblock (fr_tx f)) < 1000000000 ->
  0 <= tv_nsec cur < 1000000000 ->
  let elapsed :=
    (tv_sec cur - tv_sec (tx_lastblock (fr_tx f))) * 1000000000
    + (tv_nsec cur - tv_nsec (tx_lastblock (fr_tx f))) in
  let three := ((interval E * 3) mod 2 ^ 32) * 1000000 in
  (three < elapsed ->
   cooldown_step E cur f = set_tx f (tx_cooled (fr_tx f))) /\
  (0 < elapsed <= three -> elapsed <= 1000000000 ->
   cooldown_step E cur f = f) /\
  (elapsed = 0 -> three < 1000000000 ->
   cooldown_step E cur f = set_tx f (tx_cooled (fr_tx f))).
Proof.
  intros Hc H1 H2 elapsed three. subst elapsed.
  assert (H3 : 0 <= three).
  { subst three. pose proof (Z.mod_pos_bound (interval E * 3) (2 ^ 32) eq_refl). lia. }
  unfold cooldown_step. rewrite Hc. fold three.
  destruct (timediff_in_range (tx_lastblock (fr_tx f)) cur H1 H2) as [-> ->].
  destruct (Z.gtb_spec (tv_nsec cur - tv_nsec (tx_lastblock (fr_tx f))) 0);
    cbn [tv_sec tv_nsec];
    repeat split; intros;
    match goal with
    | |- (if ?a || ?b then _ else _) = set_tx _ _ =>
        replace (a || b)%bool with true; [reflexivity|];
        symmetry; apply orb_true_iff; rewrite !Z.gtb_ltb, !Z.ltb_lt; lia
    | |- (if ?a || ?b then _ else _) = _ =>
        replace (a || b)%bool with false; [reflexivity|];
        symmetry; apply orb_false_iff; rewrite !Z.gtb_ltb, !Z.ltb_ge; lia
    end.
Qed.

Lemma cooldown_elapsed_witness :
  cooldown_step env0 (mktime 5 700000000) (sample_friend tx_initiated_cooling)
  = set_tx (sample_friend tx_initiated_cooling) (tx_cooled tx_initiated_cooling) /\
  cooldown_step env0 (mktime 5 100000000) (sample_friend tx_initiated_cooling)
  = sample_friend tx_initiated_cooling.
Proof.
  destruct (cooldown_elapsed env0 (mktime 5 700000000)
              (sample_friend tx_initiated_cooling))
    as [Hclear _]; [reflexivity | cbn; lia | cbn; lia |].
  destruct (cooldown_elapsed env0 (mktime 5 100000000)
              (sample_friend tx_initiated_cooling))
    as [_ [Hkeep _]]; [reflexivity | cbn; lia | cbn; lia |].
  split; [apply Hclear; vm_compute; reflexivity
         | apply Hkeep; vm_compute; intuition congruence].
Defined.

(** ** Hex codec: names and bounds *)

Module HexBounds.
Import Hex.

Lemma store_nth_other (l : list Z) (i j : nat) (v : Z) :
  j <> i -> nth j (store i v l) 0 = nth j l 0.
Proof.
  revert i j. induction l as [|a l IH]; intros i j Hne; [destruct i; reflexivity|].
  destruct i as [|i], j as [|j]; simpl; auto; congruence.
Qed.

Lemma str2id_loop_bounds (cnt : nat) :
  forall i p buf buf',
    str2id_loop cnt i p buf = Some buf' ->
    List.length buf' = List.length buf /\
    (forall j, (j < i \/ i + cnt <= j)%nat -> nth j buf' 0 = nth j buf 0).
Proof.
  induction cnt as [|c IH]; intros i p buf buf' Hrun; simpl in Hrun.
  - injection Hrun as <-. auto.
  - destruct (sscanf_2hhx p) as [v|].
    + destruct (Nat.ltb i (List.length buf)); [|discriminate].
      apply IH in Hrun. destruct Hrun as [Hlen Hnth].
      rewrite HexFacts.store_length in Hlen. split; [assumption|].
      intros j Hj. rewrite Hnth by lia. apply store_nth_other. lia.
    + apply IH in Hrun. destruct Hrun as [Hlen Hnth].
      split; [assumption|]. intros j Hj. apply Hnth. lia.
Qed.

(** In an array long enough every store falls inside it. *)
Lemma str2id_loop_total (cnt : nat) :
  forall i p buf,
    (i + cnt <= List.length buf)%nat ->
    exists buf', str2id_loop cnt i p buf = Some buf'.
Proof.
  induction cnt as [|c IH]; intros i p buf Hlen; [now exists buf|].
  cbn [str2id_loop]. destruct (sscanf_2hhx p) as [v|].
  - replace (Nat.ltb i (List.length buf)) with true
      by (symmetry; apply Nat.ltb_lt; lia).
    apply IH. rewrite HexFacts.store_length. lia.
  - apply IH. lia.
Qed.

Lemma all_chars_advance2 (p : ascii -> bool) (s : string) :
  all_chars p s = true -> all_chars p (advance2 s) = true.
Proof.
  destruct s as [|c1 [|c2 r]]; simpl; auto.
  rewrite !andb_true_iff. tauto.
Qed.

Lemma str2id_loop_unmatched (cnt : nat) :
  forall i p buf,
    all_chars unmatched p = true ->
    str2id_loop cnt i p buf = Some buf.
Proof.
  induction cnt as [|c IH]; intros i p buf Hp; [reflexivity|].
  cbn [str2id_loop].
  assert (Hscan : sscanf_2hhx p = NoMatch).
  { destruct p as [|c1 r]; [reflexivity|].
    cbn [all_chars] in Hp. apply andb_true_iff in Hp. destruct Hp as [Hc _].
    unfold unmatched in Hc. rewrite !andb_true_iff, !negb_true_iff in Hc.
    destruct Hc as [[Hhex Hsp] Hsign].
    unfold sscanf_2hhx. cbn [skip_space]. rewrite Hsp, Hsign.
    destruct (hexval c1); [discriminate|reflexivity]. }
  rewrite Hscan. apply IH. now apply all_chars_advance2.
Qed.

End HexBounds.

(** X4 -- [id2str] gives different 32-byte keys different names: two
    friends (or two requests) with distinct public keys never share a
    directory or FIFO name. *)
Theorem id2str_injective (id1 id2 : list Z) :
  List.length id1 = TOX_CLIENT_ID_SIZE ->
  List.length id2 = TOX_CLIENT_ID_SIZE ->
  Forall Hex.is_byte id1 ->
  Forall Hex.is_byte id2 ->
  Hex.id2str id1 = Hex.id2str id2 ->
  id1 = id2.
Proof.
  intros L1 L2 B1 B2 Heq.
  assert (Hdec : forall id, List.length id = TOX_CLIENT_ID_SIZE ->
                            Forall Hex.is_byte id ->
                            Hex.str2id (Hex.id2str id) (repeat 0 TOX_CLIENT_ID_SIZE)
                            = Some id).
  { intros id L B. rewrite <- (HexFacts.smap_id (Hex.id2str id)).
    apply HexFacts.str2id_smap_id2str; auto using repeat_length.
    intros; now apply HexFacts.sscanf_upper. }
  pose proof (Hdec id1 L1 B1) as H1. pose proof (Hdec id2 L2 B2) as H2.
  rewrite Heq in H1. congruence.
Qed.

Lemma id2str_injective_witness :
  Hex.id2str (firstn 32 sample_address) = Hex.id2str sample_key /\
  firstn 32 sample_address = sample_key.
Proof.
  split; [reflexivity|].
  apply (id2str_injective (firstn 32 sample_address) sample_key);
    try reflexivity; unfold sample_key, Hex.is_byte; cbn; repeat constructor; lia.
Defined.

(** X5 -- [str2id] returns whenever [id] has room for [strlen(idstr) / 2]
    bytes (for the 76 characters [sendfriendreq] lets through, its 38-byte
    array has), and it stores into [id] only below that index: the bytes
    from there on are as they were.  White space is skipped and a sign
    counts as one of the two characters, as [sscanf] reads them; a string
    without any digit, white space or sign leaves the whole array as it
    was. *)
Theorem str2id_bounds (idstr : string) (buf : list Z) :
  ((Nat.div (String.length idstr) 2 <= List.length buf)%nat ->
   exists buf', Hex.str2id idstr buf = Some buf') /\
  (forall buf',
     Hex.str2id idstr buf = Some buf' ->
     List.length buf' = List.length buf /\
     forall j, (Nat.div (String.length idstr) 2 <= j)%nat ->
               nth j buf' 0 = nth j buf 0) /\
  (all_chars unmatched idstr = true -> Hex.str2id idstr buf = Some buf).
Proof.
  split; [|split].
  - intros Hlen. unfold Hex.str2id. apply HexBounds.str2id_loop_total. lia.
  - intros buf' Hrun. unfold Hex.str2id in Hrun.
    apply HexBounds.str2id_loop_bounds in Hrun. destruct Hrun as [Hlen Hnth].
    split; [assumption|]. intros j Hj. apply Hnth. lia.
  - intros Hall. now apply HexBounds.str2id_loop_unmatched.
Qed.

Lemma str2id_bounds_witness :
  (exists buf', Hex.str2id "-1+2 a" [7; 7; 7] = Some buf') /\
  Hex.str2id "-1+2 a" [7; 7; 7] = Some [255; 2; 10] /\
  Hex.str2id "GHIJ" [7; 7; 7] = Some [7; 7; 7].
Proof.
  split; [|split; [reflexivity|]].
  - apply (proj1 (str2id_bounds "-1+2 a" [7; 7; 7])). vm_compute. lia.
  - apply (str2id_bounds "GHIJ" [7; 7; 7]). reflexivity.
Defined.

(** ** Loops over the friends *)

Lemma replace_nth_middle {A} (pre : list A) (a b : A) (rest : list A) :
  replace_nth (List.length pre) b (pre ++ a :: rest) = (pre ++ b :: rest)%list.
Proof. induction pre as [|x pre IH]; simpl; [reflexivity|]. now rewrite IH. Qed.

Section FoldFacts.

Context {St : Type}.
Variable body : St -> friend -> M (friend * St).

(** What is known of the value carried along, how a friend is related to
    what the body leaves of it, and what a visit establishes for good. *)
Variable I : St -> Prop.
Variable R : friend -> friend -> Prop.
Variable J : friend -> St -> Prop.

Hypothesis body_traces : forall s f, traces_only (body s f).
Hypothesis body_step : forall s f w f' s' w',
  I s -> body s f w = Done (f', s') w' -> R f f' /\ I s' /\ J f s'.
Hypothesis body_keeps : forall g s f w f' s' w',
  I s -> J g s -> body s f w = Done (f', s') w' -> J g s'.

Lemma friends_fold_spec (todo : list friend) :
  forall pre s w s' w',
    friendhead w = (pre ++ todo)%list ->
    I s ->
    friends_fold body (List.length pre) todo s w = Done s' w' ->
    exists todo',
      friendhead w' = (pre ++ todo')%list /\
      Forall2 R todo todo' /\
      I s' /\
      Forall (fun f => J f s') todo /\
      (forall g, J g s -> J g s') /\
      reqhead w' = reqhead w /\ gslots w' = gslots w /\ idfd w' = idfd w.
Proof.
  induction todo as [|f rest IH]; intros pre s w s' w' Hfs Hs Hrun.
  - cbn in Hrun. injection Hrun as <- <-.
    exists []. split; [assumption|]. split; [constructor|].
    split; [assumption|]. split; [constructor|]. auto.
  - cbn [friends_fold] in Hrun. unfold bind at 1 in Hrun.
    destruct (body s f w) as [[f1 s1] w1| | |] eqn:Hb; try discriminate.
    destruct (body_traces s f w _ w1 Hb) as [es ->].
    destruct (body_step _ _ _ _ _ _ Hs Hb) as (HR & Hs1 & HJ).
    unfold put_friend in Hrun. cbv [bind get_friends set_friends] in Hrun.
    cbn [fst snd friendhead reqhead gslots idfd trace add_trace] in Hrun.
    rewrite Hfs, replace_nth_middle in Hrun.
    replace (S (List.length pre)) with (List.length (pre ++ [f1])) in Hrun
      by (rewrite length_app; simpl; lia).
    apply IH in Hrun; [|cbn; now rewrite <- app_assoc|assumption].
    destruct Hrun as (todo' & Hfs' & HF2 & Hs' & HJs & Hmono & Hr & Hg & Hi).
    exists (f1 :: todo'). rewrite <- app_assoc in Hfs'.
    split; [exact Hfs'|]. split; [now constructor|]. split; [assumption|].
    split; [constructor; [now apply Hmono|assumption]|].
    split; [intros g Hg0; apply Hmono;
            exact (body_keeps g s f w f1 s1 _ Hs Hg0 Hb)|].
    cbn in Hr, Hg, Hi. repeat split; assumption.
Qed.

(** The same for the whole queue. *)
Lemma for_friends_spec (s : St) (w : world) (s' : St) (w' : world) :
  I s ->
  for_friends body s w = Done s' w' ->
  Forall2 R (friendhead w) (friendhead w') /\
  I s' /\
  Forall (fun f => J f s') (friendhead w) /\
  (forall g, J g s -> J g s') /\
  reqhead w' = reqhead w /\ gslots w' = gslots w /\ idfd w' = idfd w.
Proof.
  intros Hs Hrun. unfold for_friends in Hrun. run_monad.
  apply (friends_fold_spec (friendhead w) [] s w s' w' eq_refl Hs) in Hrun.
  destruct Hrun as (todo' & Hfs & H). cbn in Hfs. rewrite Hfs. exact H.
Qed.

(** The loop returns when the body returns on every friend of the queue;
    [Pre] is what that takes of a friend. *)
Variable Pre : friend -> Prop.
Hypothesis body_done : forall s f w,
  Pre f -> exists f' s' w', body s f w = Done (f', s') w'.

Lemma friends_fold_done (todo : list friend) :
  forall i s w,
    Forall Pre todo ->
    exists s' w', friends_fold body i todo s w = Done s' w'.
Proof.
  induction todo as [|f rest IH]; intros i s w Hpre.
  - cbn. eauto.
  - inversion Hpre as [|? ? Hf Hrest]; subst.
    destruct (body_done s f w Hf) as (f1 & s1 & w1 & Hb).
    cbn [friends_fold]. unfold bind at 1. rewrite Hb.
    unfold put_friend. run_monad. cbn [fst snd]. apply IH. assumption.
Qed.

End FoldFacts.

(** ** The two sides of a friend record *)

Lemma fd_set_length (fds : list Z) (k : nat) (v : Z) :
  List.length (fd_set fds k v) = List.length fds.
Proof. apply HexFacts.store_length. Qed.

Lemma fd_get_set_other (fds : list Z) (k k' : nat) (v : Z) :
  k' <> k -> fd_get (fd_set fds k v) k' = fd_get fds k'.
Proof.
  unfold fd_get, fd_set. revert k k'.
  induction fds as [|a fds IH]; intros k k' Hne; [destruct k; reflexivity|].
  destruct k as [|k], k' as [|k']; simpl; auto; congruence.
Qed.

Lemma fd_get_set_same (fds : list Z) (k : nat) (v : Z) :
  (k < List.length fds)%nat -> fd_get (fd_set fds k v) k = v.
Proof.
  unfold fd_get, fd_set. revert k.
  induction fds as [|a fds IH]; intros k Hk; simpl in Hk; [lia|].
  destruct k as [|k]; simpl; [reflexivity|]. apply IH. lia.
Qed.

Lemma ffile_pos_inj (k k' : ffile_ix) : ffile_pos k = ffile_pos k' -> k = k'.
Proof. destruct k, k'; simpl; intros H; try reflexivity; discriminate H. Qed.

Lemma ffd_set_other (f : friend) (k k' : ffile_ix) (v : Z) :
  k' <> k -> ffd (set_fr_fd f k v) k' = ffd f k'.
Proof.
  intros Hne. unfold ffd, set_fr_fd. cbn [fr_fd].
  apply fd_get_set_other. intros H. apply Hne. now apply ffile_pos_inj.
Qed.

Lemma ffd_set_same (f : friend) (k : ffile_ix) (v : Z) :
  (ffile_pos k < List.length (fr_fd f))%nat -> ffd (set_fr_fd f k v) k = v.
Proof. intros Hk. unfold ffd, set_fr_fd. cbn [fr_fd]. now apply fd_get_set_same. Qed.

Lemma send_side_refl (f : friend) : send_side f f.
Proof. unfold send_side. repeat split; reflexivity. Qed.

Lemma send_side_set_tx (f g : friend) (t : transfer) :
  send_side f g -> send_side f (set_tx g t).
Proof. unfold send_side, set_tx, ffd. cbn. tauto. Qed.

Lemma send_side_set_fd (f g : friend) (v : Z) :
  send_side f g -> send_side f (set_fr_fd g FFILE_IN v).
Proof.
  intros (H1 & H2 & H3 & H4 & H5 & H6 & H7 & H8).
  unfold send_side. cbn [set_fr_fd fr_name fr_num fr_id fr_idstr fr_dirfd fr_rxstate fr_fd].
  rewrite fd_set_length. repeat (split; [assumption|]).
  intros k Hk. rewrite ffd_set_other by assumption. now apply H8.
Qed.

Lemma send_side_trans (f g h : friend) :
  send_side f g -> send_side g h -> send_side f h.
Proof.
  intros (H1 & H2 & H3 & H4 & H5 & H6 & H7 & H8)
         (G1 & G2 & G3 & G4 & G5 & G6 & G7 & G8).
  unfold send_side. repeat (split; [congruence|]).
  intros k Hk. rewrite G8 by assumption. now apply H8.
Qed.

Lemma recv_side_refl (f : friend) : recv_side f f.
Proof. unfold recv_side. repeat split; reflexivity. Qed.

Lemma recv_side_set_rxstate (f g : friend) (s : tstate) :
  recv_side f g -> recv_side f (set_rxstate g s).
Proof. unfold recv_side, set_rxstate, ffd. cbn. tauto. Qed.

Lemma recv_side_set_fd (f g : friend) (v : Z) :
  recv_side f g -> recv_side f (set_fr_fd g FFILE_OUT v).
Proof.
  intros (H1 & H2 & H3 & H4 & H5 & H6 & H7 & H8).
  unfold recv_side. cbn [set_fr_fd fr_name fr_num fr_id fr_idstr fr_dirfd fr_tx fr_fd].
  rewrite fd_set_length. repeat (split; [assumption|]).
  intros k Hk. rewrite ffd_set_other by assumption. now apply H8.
Qed.

Lemma recv_side_trans (f g h : friend) :
  recv_side f g -> recv_side g h -> recv_side f h.
Proof.
  intros (H1 & H2 & H3 & H4 & H5 & H6 & H7 & H8)
         (G1 & G2 & G3 & G4 & G5 & G6 & G7 & G8).
  unfold recv_side. repeat (split; [congruence|]).
  intros k Hk. rewrite G8 by assumption. now apply H8.
Qed.

Lemma same_friend_refl (f : friend) : same_friend f f.
Proof. unfold same_friend. repeat split; reflexivity. Qed.

Lemma same_friend_trans (f g h : friend) :
  same_friend f g -> same_friend g h -> same_friend f h.
Proof.
  intros (H1 & H2 & H3 & H4 & H5 & H6 & H7) (G1 & G2 & G3 & G4 & G5 & G6 & G7).
  unfold same_friend. repeat (split; [congruence|]).
  intros k Hk Hk'. rewrite G7 by assumption. now apply H7.
Qed.

Lemma send_side_same (f g : friend) : send_side f g -> same_friend f g.
Proof.
  intros (H1 & H2 & H3 & H4 & H5 & H6 & H7 & H8).
  unfold same_friend. repeat (split; [assumption|]). intros k Hk _. now apply H8.
Qed.

Lemma recv_side_same (f g : friend) : recv_side f g -> same_friend f g.
Proof.
  intros (H1 & H2 & H3 & H4 & H5 & H6 & H7 & H8).
  unfold same_friend. repeat (split; [assumption|]). intros k _ Hk. now apply H8.
Qed.

Ltac side_solve :=
  repeat first [ apply send_side_set_tx | apply send_side_set_fd
               | apply recv_side_set_rxstate | apply recv_side_set_fd ];
  first [ apply send_side_refl | apply recv_side_refl | assumption ].

Lemma rx_inv_send_side (f g : friend) : send_side f g -> rx_inv f -> rx_inv g.
Proof.
  intros (_ & _ & _ & _ & _ & Hrx & Hlen & Hfd) [Hl Hin].
  unfold rx_inv. rewrite Hlen, Hrx, Hfd by discriminate. auto.
Qed.

Lemma tx_used_recv_side (f g : friend) : recv_side f g -> tx_used f -> tx_used g.
Proof.
  intros (_ & _ & _ & _ & _ & Htx & _) H. unfold tx_used. now rewrite Htx.
Qed.

Lemma tx_inv_recv_side (f g : friend) : recv_side f g -> tx_inv f -> tx_inv g.
Proof.
  intros (_ & _ & _ & _ & _ & Htx & _) H. unfold tx_inv. now rewrite Htx.
Qed.

Section SideFacts.

Variable E : Env.

Lemma traces_canceltxtransfer (f : friend) : traces_only (canceltxtransfer E f).
Proof. unfold canceltxtransfer. auto 12 using traces_fiforeset with traces. Qed.

Lemma traces_fiforead (dirfd fd : Z) (fl : file) (sz : Z) (rs : list readres) :
  traces_only (fiforead E dirfd fd fl sz rs).
Proof.
  induction rs as [|r rs IH]; cbn [fiforead]; [intros w a w' H; discriminate|].
  destruct r as [bs|e]; auto 8 using traces_fiforeset with traces.
Qed.

Lemma traces_chunk_round (start : timespec) (ce : chunk_env) (f : friend) :
  traces_only (chunk_round E start ce f).
Proof.
  unfold chunk_round.
  apply traces_bind; [auto 8 with traces|]. intros [f1 go].
  destruct (negb go); [apply traces_ret|].
  apply traces_bind; [apply traces_fiforead|]. intros [[n data] fd].
  auto 12 with traces.
Qed.

Lemma traces_sendfriendfile_loop (start : timespec) (script : list chunk_env) :
  forall diff f, traces_only (sendfriendfile_loop E start diff script f).
Proof.
  induction script as [|ce rest IH]; intros diff f; cbn [sendfriendfile_loop];
    destruct (in_time E diff); try apply traces_ret.
  - intros w a w' H; discriminate.
  - apply traces_bind; [apply traces_chunk_round|].
    intros [f1 [d|]]; [apply IH|apply traces_ret].
Qed.

(** [cancelrxtransfer] leaves the receive side idle with [file_out]
    closed, and the rest of the record as it was; on an idle receive side
    it does nothing. *)
Lemma cancelrxtransfer_spec (f f' : friend) (w w' : world) :
  cancelrxtransfer E f w = Done f' w' ->
  recv_side f f' /\
  fr_rxstate f' = TRANSFER_NONE /\
  (fr_rxstate f <> TRANSFER_NONE ->
   (ffile_pos FFILE_OUT < List.length (fr_fd f))%nat -> ffd f' FFILE_OUT = -1) /\
  (fr_rxstate f = TRANSFER_NONE -> f' = f /\ w' = w).
Proof.
  unfold cancelrxtransfer.
  destruct (tstate_eqb (fr_rxstate f) TRANSFER_NONE) eqn:Hst.
  - intros [= <- <-]. apply tstate_eqb_eq in Hst.
    split; [apply recv_side_refl|]. repeat split; auto; congruence.
  - assert (Hne : fr_rxstate f <> TRANSFER_NONE).
    { intros H. apply tstate_eqb_eq in H. congruence. }
    run_monad.
    destruct (tox_file_control E (fr_num f) 0 TOX_FILE_CONTROL_CANCEL <? 0),
             (ffd f FFILE_OUT =? -1) eqn:Hfd; cbn [negb]; intros [= <- _];
      (split; [side_solve|]); (split; [reflexivity|]);
      (split; [|congruence]); intros _ Hlen;
      try (apply Z.eqb_eq in Hfd; exact Hfd);
      unfold set_rxstate, ffd; cbn [fr_fd set_fr_fd];
      now apply fd_get_set_same.
Qed.

(** [canceltxtransfer] leaves the send side idle and the rest of the
    record as it was; on an idle send side it does nothing. *)
Lemma canceltxtransfer_spec (f f' : friend) (w w' : world) :
  canceltxtransfer E f w = Done f' w' ->
  send_side f f' /\
  tx_state (fr_tx f') = TRANSFER_NONE /\
  (tx_state (fr_tx f) = TRANSFER_NONE -> f' = f /\ w' = w).
Proof.
  unfold canceltxtransfer.
  destruct (tstate_eqb (tx_state (fr_tx f)) TRANSFER_NONE) eqn:Hst.
  - intros [= <- <-]. apply tstate_eqb_eq in Hst.
    split; [apply send_side_refl|]. auto.
  - assert (Hne : tx_state (fr_tx f) <> TRANSFER_NONE).
    { intros H. apply tstate_eqb_eq in H. congruence. }
    run_monad.
    destruct (tox_file_control E (fr_num f) 0 TOX_FILE_CONTROL_CANCEL <? 0);
      match goal with
      | |- context [fiforeset E ?d ?fd ?fl ?v] =>
          destruct (fiforeset E d fd fl v); try discriminate
      end; intros [= <- _];
      (split; [side_solve|]); (split; [reflexivity|congruence]).
Qed.

(** One round of [sendfriendfile] changes the send side only, and leaves
    the send state as it was or idle. *)
Lemma chunk_round_frame (start : timespec) (ce : chunk_env) (f f' : friend)
      (o : option timespec) (w w' : world) :
  chunk_round E start ce f w = Done (f', o) w' ->
  send_side f f' /\
  (tx_state (fr_tx f') = tx_state (fr_tx f) \/ tx_state (fr_tx f') = TRANSFER_NONE).
Proof.
  unfold chunk_round.
  assert (Hfin : forall g : friend,
    send_side f g ->
    (tx_state (fr_tx g) = tx_state (fr_tx f) \/ tx_state (fr_tx g) = TRANSFER_NONE) ->
    forall o' v, Done (g, o') v = Done (f', o) w' ->
    send_side f f' /\
    (tx_state (fr_tx f') = tx_state (fr_tx f) \/ tx_state (fr_tx f') = TRANSFER_NONE)).
  { intros g Hs Ht o' v [= <- _ _]. auto. }
  destruct (tx_pendingbuf (fr_tx f)) eqn:Hp; run_monad.
  - destruct (ce_resend ce <? 0); cbn [negb].
    + apply Hfin; [side_solve|now left].
    + match goal with
      | |- context [fiforead E ?a ?b ?c ?x ?e ?v] =>
          destruct (fiforead E a b c x e v) as [[[n data] fd] w1| | |]; try discriminate
      end.
      destruct (n =? 0); [|destruct (n <? 0); [|destruct (ce_send ce <? 0)]];
        run_monad;
        try match goal with
          | |- context [tox_file_control E ?a ?b ?c <? 0] =>
              destruct (tox_file_control E a b c <? 0)
          end;
        (apply Hfin; [side_solve|cbn; auto]).
  - cbn [negb].
    match goal with
    | |- context [fiforead E ?a ?b ?c ?x ?e ?v] =>
        destruct (fiforead E a b c x e v) as [[[n data] fd] w1| | |]; try discriminate
    end.
    destruct (n =? 0); [|destruct (n <? 0); [|destruct (ce_send ce <? 0)]];
      run_monad;
      try match goal with
        | |- context [tox_file_control E ?a ?b ?c <? 0] =>
            destruct (tox_file_control E a b c <? 0)
        end;
      (apply Hfin; [side_solve|cbn; auto]).
Qed.

Lemma sendfriendfile_loop_frame (start : timespec) (script : list chunk_env) :
  forall diff f w f' w',
    sendfriendfile_loop E start diff script f w = Done f' w' ->
    send_side f f' /\
    (tx_state (fr_tx f') = tx_state (fr_tx f) \/ tx_state (fr_tx f') = TRANSFER_NONE).
Proof.
  induction script as [|ce rest IH]; intros diff f w f' w'; cbn [sendfriendfile_loop];
    destruct (in_time E diff);
    try (intros [= <- _]; split; [apply send_side_refl|now left]);
    try discriminate.
  intros H. apply bind_done in H as ([f1 o] & w1 & Hround & Hrest).
  apply chunk_round_frame in Hround as [Hs1 Ht1].
  destruct o as [d|].
  - apply IH in Hrest as [Hs2 Ht2].
    split; [eapply send_side_trans; eassumption|].
    destruct Ht2 as [Ht2|Ht2]; [rewrite Ht2; exact Ht1|now right].
  - injection Hrest as <- _. auto.
Qed.

End SideFacts.

(** ** Cancelling transfers *)

(** X6 -- each cancel touches its own side of the friend record only and
    leaves that side idle; cancelling again does nothing: the friend and
    the state come back as they are, with no control message sent and no
    FIFO reset. *)
Theorem cancel_idempotent (E : Env) (f f1 : friend) (w w1 : world) :
  (canceltxtransfer E f w = Done f1 w1 ->
   send_side f f1 /\ tx_state (fr_tx f1) = TRANSFER_NONE /\
   canceltxtransfer E f1 w1 = Done f1 w1) /\
  (cancelrxtransfer E f w = Done f1 w1 ->
   recv_side f f1 /\ fr_rxstate f1 = TRANSFER_NONE /\
   cancelrxtransfer E f1 w1 = Done f1 w1).
Proof.
  split; intros Hrun.
  - apply canceltxtransfer_spec in Hrun as (Hs & Hst & _).
    split; [assumption|]. split; [assumption|].
    unfold canceltxtransfer. now rewrite Hst.
  - apply cancelrxtransfer_spec in Hrun as (Hs & Hst & _).
    split; [assumption|]. split; [assumption|].
    unfold cancelrxtransfer. now rewrite Hst.
Qed.

Lemma cancel_idempotent_witness :
  exists f1 w1,
    canceltxtransfer env0 (sample_friend tx_running) (world_friend tx_running)
    = Done f1 w1 /\
    tx_state (fr_tx f1) = TRANSFER_NONE /\
    canceltxtransfer env0 f1 w1 = Done f1 w1.
Proof.
  eexists. eexists.
  split; [vm_compute; reflexivity|].
  refine (proj2 (proj1 (cancel_idempotent env0 (sample_friend tx_running) _
                          (world_friend tx_running) _) _)).
  vm_compute. reflexivity.
Defined.

(** ** The sweep for broken transfers *)

Section BrokenFacts.

Variable E : Env.
Variable connection : Z -> Z.

Lemma traces_broken_round (u : unit) (f : friend) :
  traces_only (broken_round E connection u f).
Proof.
  unfold broken_round.
  apply traces_bind.
  - destruct (connection (fr_num f) =? 0); [|apply traces_ret].
    apply traces_bind; [apply traces_canceltxtransfer|].
    intros a. apply traces_cancelrxtransfer.
  - intros f1.
    auto 10 using traces_fifoopen, traces_cancelrxtransfer with traces.
Qed.

Lemma rx_inv_cancelled (f f' : friend) :
  recv_side f f' -> fr_rxstate f' = TRANSFER_NONE ->
  (ffile_pos FFILE_OUT < List.length (fr_fd f))%nat -> rx_inv f'.
Proof.
  intros (_ & _ & _ & _ & _ & _ & Hlen & _) Hst Hl.
  unfold rx_inv. rewrite Hlen, Hst. split; [assumption|discriminate].
Qed.

Lemma broken_round_spec (u : unit) (f f' : friend) (u' : unit) (w w' : world) :
  broken_round E connection u f w = Done (f', u') w' -> broken_rel E connection f f'.
Proof.
  unfold broken_round. intros H.
  apply bind_done in H as (f1 & w1 & Hcancel & Hrest).
  assert (H1 : same_friend f f1 /\
               (connection (fr_num f) = 0 -> transfers_idle f1) /\
               (fr_rxstate f1 = fr_rxstate f \/ fr_rxstate f1 = TRANSFER_NONE) /\
               (tx_state (fr_tx f1) = tx_state (fr_tx f)
                \/ tx_state (fr_tx f1) = TRANSFER_NONE) /\
               (rx_inv f -> rx_inv f1)).
  { destruct (connection (fr_num f) =? 0) eqn:Hc.
    - apply bind_done in Hcancel as (f0 & w0 & Htx & Hrx).
      apply canceltxtransfer_spec in Htx as (Hs & Hst & _).
      apply cancelrxtransfer_spec in Hrx as (Hr & Hrst & _).
      assert (Htx1 : tx_state (fr_tx f1) = TRANSFER_NONE).
      { destruct Hr as (_ & _ & _ & _ & _ & Htx & _). now rewrite Htx. }
      split; [eapply same_friend_trans;
              [apply send_side_same|apply recv_side_same]; eassumption|].
      split; [intros _; split; assumption|].
      split; [now right|]. split; [now right|].
      intros Hinv. eapply rx_inv_cancelled; [eassumption|assumption|].
      apply (rx_inv_send_side _ _ Hs Hinv).
    - injection Hcancel as <- _. apply Z.eqb_neq in Hc.
      split; [apply same_friend_refl|]. split; [contradiction|]. auto. }
  destruct H1 as (Hsame & Hidle & Hrx1 & Htx1 & Hinv1).
  destruct (tstate_eqb (fr_rxstate f1) TRANSFER_INPROGRESS) eqn:Hin; cbn [negb] in Hrest.
  - apply tstate_eqb_eq in Hin.
    assert (Hin0 : fr_rxstate f = TRANSFER_INPROGRESS).
    { destruct Hrx1 as [Hrx1|Hrx1]; congruence. }
    assert (Hon : connection (fr_num f) <> 0).
    { intros Hc. destruct (Hidle Hc) as [_ Hn]. congruence. }
    assert (Hdir : fr_dirfd f1 = fr_dirfd f) by apply Hsame.
    apply bind_done in Hrest as (fd & w2 & Hopen & Hrest).
    assert (Hfd : fd = open_fd E (fr_dirfd f) (ffiles FFILE_OUT)).
    { rewrite Hdir in Hopen. revert Hopen. unfold fifoopen, open_fd. run_monad.
      destruct (sys_openat E (fr_dirfd f) (f_name (ffiles FFILE_OUT))
                           (f_flags (ffiles FFILE_OUT))) as [v|e].
      - now intros [= <- _].
      - destruct (errno_eqb e ENXIO); [now intros [= <- _]|discriminate]. }
    destruct (fd <? 0) eqn:Hneg.
    + apply bind_done in Hrest as (f2 & w3 & Hrx & Hret).
      injection Hret as <- _ _.
      apply cancelrxtransfer_spec in Hrx as (Hr & Hrst & _).
      split; [eapply same_friend_trans; [eassumption|now apply recv_side_same]|].
      split; [intros Hc; contradiction|].
      split; [intros Hc; congruence|].
      split; [now right|].
      split; [destruct Hr as (_ & _ & _ & _ & _ & Htx & _); now rewrite Htx|].
      intros Hinv. eapply rx_inv_cancelled; [eassumption|assumption|].
      apply (Hinv1 Hinv).
    + apply bind_done in Hrest as (x & w3 & _ & Hret).
      injection Hret as <- _ _.
      split; [assumption|]. split; [assumption|].
      split; [intros _; split; [assumption|]; apply Z.ltb_ge in Hneg; lia|].
      auto.
  - injection Hrest as <- _ _.
    split; [assumption|]. split; [assumption|].
    split; [intros Hc; rewrite Hc in Hin; discriminate|]. auto.
Qed.

Lemma broken_round_done (u : unit) (f : friend) (w : world) :
  fiforeset_ok E (fr_dirfd f) (ffiles FFILE_IN) = true ->
  fifoopen_ok E (fr_dirfd f) (ffiles FFILE_OUT) = true ->
  exists f' u' w', broken_round E connection u f w = Done (f', u') w'.
Proof.
  intros Hreset Hopen. unfold broken_round.
  assert (H1 : exists f1 w1,
             (if connection (fr_num f) =? 0
              then f' <- canceltxtransfer E f ;; cancelrxtransfer E f'
              else ret f) w = Done f1 w1 /\ fr_dirfd f1 = fr_dirfd f).
  { destruct (connection (fr_num f) =? 0).
    - destruct (canceltxtransfer_done E f w Hreset) as (f0 & w0 & Htx).
      destruct (cancelrxtransfer_done E f0 w0) as (f1 & w1 & Hrx).
      exists f1, w1. unfold bind. rewrite Htx. split; [assumption|].
      apply canceltxtransfer_spec in Htx as (Hs & _).
      apply cancelrxtransfer_spec in Hrx as (Hr & _).
      destruct Hs as (_ & _ & _ & _ & Hd1 & _), Hr as (_ & _ & _ & _ & Hd2 & _).
      congruence.
    - exists f, w. split; reflexivity. }
  destruct H1 as (f1 & w1 & Hrun & Hdir).
  unfold bind at 1. rewrite Hrun.
  destruct (negb (tstate_eqb (fr_rxstate f1) TRANSFER_INPROGRESS)).
  - do 3 eexists; reflexivity.
  - unfold bind at 1. rewrite Hdir, fifoopen_run by assumption.
    destruct (open_fd E (fr_dirfd f) (ffiles FFILE_OUT) <? 0).
    + match goal with
      | |- context [cancelrxtransfer E ?g] =>
          let H := fresh in
          intros; unfold bind;
          match goal with
          | |- context [cancelrxtransfer E g ?v] =>
              destruct (cancelrxtransfer_done E g v) as (f2 & w2 & H); rewrite H
          end
      end.
      do 3 eexists; reflexivity.
    + run_monad. do 3 eexists; reflexivity.
Qed.

End BrokenFacts.

Lemma loop_broken_rel (E : Env) (connection : Z -> Z) (w w' : world) :
  loop_broken E connection w = Done tt w' ->
  Forall2 (broken_rel E connection) (friendhead w) (friendhead w') /\
  reqhead w' = reqhead w /\ gslots w' = gslots w /\ idfd w' = idfd w.
Proof.
  intros Hrun. unfold loop_broken in Hrun.
  destruct (for_friends_spec (broken_round E connection)
              (fun _ => True) (broken_rel E connection) (fun _ _ => True)
              (traces_broken_round E connection))
    with (s := tt) (w := w) (s' := tt) (w' := w')
    as (HF & _ & _ & _ & Hr & Hg & Hi); auto.
  intros s f v f' s' v' _ Hb. split; [|auto].
  eapply broken_round_spec. eassumption.
Qed.

(** X7 -- the sweep of [loop] for broken transfers: when it returns, every
    friend is the friend it was, every friend the transport reports offline
    has both transfers idle, a receive transfer is still in progress only
    where it was and [file_out] could be opened, and the requests and slots
    are untouched; it returns whenever the FIFO calls in the friends'
    directories go well. *)
Theorem offline_friends_idle (E : Env) (connection : Z -> Z) (w : world) :
  (forall w',
     loop_broken E connection w = Done tt w' ->
     Forall2 (broken_rel E connection) (friendhead w) (friendhead w') /\
     reqhead w' = reqhead w /\ gslots w' = gslots w /\ idfd w' = idfd w) /\
  (forallb (broken_ok E) (friendhead w) = true ->
   exists w', loop_broken E connection w = Done tt w').
Proof.
  split.
  - intros w' Hrun. now apply loop_broken_rel.
  - intros Hok. unfold loop_broken, for_friends. run_monad.
    destruct (friends_fold_done (broken_round E connection)
                (fun f => broken_ok E f = true)) with
      (todo := friendhead w) (i := O) (s := tt) (w := w) as ([] & w' & Hrun).
    + intros s f v Hf. unfold broken_ok in Hf. apply andb_prop in Hf as [H1 H2].
      now apply broken_round_done.
    + apply Forall_forall. now apply forallb_forall.
    + now exists w'.
Qed.

Lemma offline_friends_idle_witness :
  exists w',
    loop_broken env0 (fun _ => 0) (world_friend tx_running) = Done tt w' /\
    Forall transfers_idle (friendhead w').
Proof.
  destruct (offline_friends_idle env0 (fun _ => 0) (world_friend tx_running))
    as [Hpost Hdone].
  destruct Hdone as [w' Hrun]; [reflexivity|].
  exists w'. split; [assumption|].
  destruct (Hpost w' Hrun) as [HF _].
  inversion HF as [|f f' l l' Hrel Hrest Hl Hl']; subst.
  inversion Hrest; subst.
  constructor; [|constructor]. now apply Hrel.
Defined.

(** ** The sweeps for pending offers and pending buffers *)

Section AcceptFacts.

Variable E : Env.
Variable connection : Z -> Z.

Lemma traces_accept_round (u : unit) (f : friend) :
  traces_only (accept_round E connection u f).
Proof.
  unfold accept_round.
  auto 14 using traces_fifoopen, traces_cancelrxtransfer with traces.
Qed.

Lemma fifoopen_result (dirfd : Z) (fl : file) (w : world) (fd : Z) (w' : world) :
  fifoopen E dirfd fl w = Done fd w' -> fd = open_fd E dirfd fl.
Proof.
  unfold fifoopen, open_fd. run_monad.
  destruct (sys_openat E dirfd (f_name fl) (f_flags fl)) as [v|e].
  - now intros [= <- _].
  - destruct (errno_eqb e ENXIO); [now intros [= <- _]|discriminate].
Qed.

Lemma accept_round_spec (u : unit) (f f' : friend) (u' : unit) (w w' : world) :
  accept_round E connection u f w = Done (f', u') w' ->
  accept_rel E connection f f'.
Proof.
  unfold accept_round, accept_rel, accept_ready.
  assert (Hsame : forall v, Done (f, tt) v = Done (f', u') w' ->
            (connection (fr_num f) = 0 \/ fr_rxstate f = TRANSFER_NONE
             \/ 0 <= ffd f FFILE_OUT \/ open_fd E (fr_dirfd f) (ffiles FFILE_OUT) < 0) ->
            recv_side f f' /\
            (rx_inv f -> rx_inv f') /\
            (fr_rxstate f' = TRANSFER_INPROGRESS ->
             fr_rxstate f = TRANSFER_INPROGRESS \/
             (connection (fr_num f) <> 0 /\ fr_rxstate f <> TRANSFER_NONE /\
              ffd f FFILE_OUT < 0 /\
              0 <= open_fd E (fr_dirfd f) (ffiles FFILE_OUT) /\
              0 <= tox_file_control E (fr_num f) 0 TOX_FILE_CONTROL_RESUME)) /\
            ((connection (fr_num f) <> 0 /\ fr_rxstate f <> TRANSFER_NONE /\
              ffd f FFILE_OUT < 0 /\
              0 <= open_fd E (fr_dirfd f) (ffiles FFILE_OUT) /\
              0 <= tox_file_control E (fr_num f) 0 TOX_FILE_CONTROL_RESUME) ->
             (ffile_pos FFILE_OUT < List.length (fr_fd f))%nat ->
             fr_rxstate f' = TRANSFER_INPROGRESS /\
             ffd f' FFILE_OUT = open_fd E (fr_dirfd f) (ffiles FFILE_OUT)) /\
            (connection (fr_num f) = 0 \/ fr_rxstate f = TRANSFER_NONE
             \/ 0 <= ffd f FFILE_OUT -> f' = f)).
  { intros v [= <- _ _] Hwhy. split; [apply recv_side_refl|].
    split; [auto|]. split; [auto|]. split; [|auto].
    intros (H1 & H2 & H3 & H4 & H5) _.
    destruct Hwhy as [H|[H|[H|H]]]; try contradiction; lia. }
  destruct (connection (fr_num f) =? 0) eqn:Hc.
  { intros H. apply (Hsame _ H). left. now apply Z.eqb_eq. }
  apply Z.eqb_neq in Hc.
  destruct (tstate_eqb (fr_rxstate f) TRANSFER_NONE) eqn:Hst.
  { intros H. apply (Hsame _ H). right. left. now apply tstate_eqb_eq. }
  assert (Hne : fr_rxstate f <> TRANSFER_NONE).
  { intros H. apply tstate_eqb_eq in H. congruence. }
  destruct (ffd f FFILE_OUT >=? 0) eqn:Hfd.
  { intros H. apply (Hsame _ H). right. right. left.
    rewrite Z.geb_leb in Hfd. now apply Z.leb_le. }
  rewrite Z.geb_leb in Hfd. apply Z.leb_gt in Hfd.
  intros H. apply bind_done in H as (r & w1 & Hopen & Hrest).
  apply fifoopen_result in Hopen. subst r.
  destruct (open_fd E (fr_dirfd f) (ffiles FFILE_OUT) <? 0) eqn:Hr.
  { apply (Hsame _ Hrest). right. right. right. now apply Z.ltb_lt. }
  apply Z.ltb_ge in Hr.
  apply bind_done in Hrest as ([] & w2 & _ & Hrest).
  cbn [set_fr_fd fr_num fr_name] in Hrest.
  destruct (tox_file_control E (fr_num f) 0 TOX_FILE_CONTROL_RESUME <? 0) eqn:Hctl.
  - apply Z.ltb_lt in Hctl.
    apply bind_done in Hrest as ([] & w3 & _ & Hrest).
    apply bind_done in Hrest as (f2 & w4 & Hrx & Hret).
    injection Hret as <- _ _.
    apply cancelrxtransfer_spec in Hrx as (Hs & Hst2 & _).
    split; [eapply recv_side_trans; [|exact Hs]; side_solve|].
    split; [intros [Hl _]; eapply rx_inv_cancelled;
            [exact Hs|assumption|cbn [fr_fd set_fr_fd]; now rewrite fd_set_length]|].
    split; [intros Hin; congruence|].
    split; [intros (_ & _ & _ & _ & H5) _; lia|].
    intros [H|[H|H]]; [contradiction|contradiction|lia].
  - apply Z.ltb_ge in Hctl.
    apply bind_done in Hrest as ([] & w3 & _ & Hret).
    injection Hret as <- _ _.
    split; [side_solve|].
    split; [intros [Hl _]; split;
            [cbn [set_rxstate set_fr_fd fr_fd]; now rewrite fd_set_length|];
            intros _; unfold set_rxstate, set_fr_fd, ffd; cbn [fr_fd];
            now rewrite fd_get_set_same|].
    split; [intros _; right; auto|].
    split; [intros _ Hl; split; [reflexivity|];
            unfold set_rxstate, set_fr_fd, ffd; cbn [fr_fd];
            now rewrite fd_get_set_same|].
    intros [H|[H|H]]; [contradiction|contradiction|lia].
Qed.

Lemma accept_round_done (u : unit) (f : friend) (w : world) :
  fifoopen_ok E (fr_dirfd f) (ffiles FFILE_OUT) = true ->
  exists f' u' w', accept_round E connection u f w = Done (f', u') w'.
Proof.
  intros Hopen. unfold accept_round.
  destruct (connection (fr_num f) =? 0); [do 3 eexists; reflexivity|].
  destruct (tstate_eqb (fr_rxstate f) TRANSFER_NONE); [do 3 eexists; reflexivity|].
  destruct (ffd f FFILE_OUT >=? 0); [do 3 eexists; reflexivity|].
  unfold bind at 1. rewrite fifoopen_run by assumption.
  destruct (open_fd E (fr_dirfd f) (ffiles FFILE_OUT) <? 0);
    [do 3 eexists; reflexivity|].
  unfold bind at 1. rewrite emit_run.
  destruct (tox_file_control E _ 0 TOX_FILE_CONTROL_RESUME <? 0).
  - unfold weprintf. unfold bind at 1. rewrite emit_run.
    match goal with
    | |- context [cancelrxtransfer E ?g] =>
        unfold bind;
        match goal with
        | |- context [cancelrxtransfer E g ?v] =>
            destruct (cancelrxtransfer_done E g v) as (f2 & w2 & ->)
        end
    end.
    do 3 eexists; reflexivity.
  - run_monad. do 3 eexists; reflexivity.
Qed.

End AcceptFacts.

Lemma loop_accept_rel (E : Env) (connection : Z -> Z) (w w' : world) :
  loop_accept E connection w = Done tt w' ->
  Forall2 (accept_rel E connection) (friendhead w) (friendhead w') /\
  reqhead w' = reqhead w /\ gslots w' = gslots w /\ idfd w' = idfd w.
Proof.
  intros Hrun. unfold loop_accept in Hrun.
  destruct (for_friends_spec (accept_round E connection)
              (fun _ => True) (accept_rel E connection) (fun _ _ => True)
              (traces_accept_round E connection))
    with (s := tt) (w := w) (s' := tt) (w' := w')
    as (HF & _ & _ & _ & Hr & Hg & Hi); auto.
  intros s f v f' s' v' _ Hb. split; [|auto].
  eapply accept_round_spec. eassumption.
Qed.

Lemma fd_clr_incl (fd : Z) (rfds : list Z) : incl (fd_clr fd rfds) rfds.
Proof. unfold fd_clr. intros x Hx. now apply filter_In in Hx. Qed.

Lemma fd_clr_absent (fd : Z) (rfds : list Z) : ~ In fd (fd_clr fd rfds).
Proof.
  unfold fd_clr. intros Hx. apply filter_In in Hx as [_ Hx].
  rewrite Z.eqb_refl in Hx. discriminate.
Qed.

Section PendingFacts.

Variable E : Env.
Variable connection : Z -> Z.
Variable start : Z -> timespec.
Variable scripts : Z -> list chunk_env.

Lemma traces_pending_round (rfds : list Z) (f : friend) :
  traces_only (pending_round E connection start scripts rfds f).
Proof.
  unfold pending_round.
  destruct (connection (fr_num f) =? 0); [apply traces_ret|].
  destruct (negb (tstate_eqb (tx_state (fr_tx f)) TRANSFER_INPROGRESS));
    [apply traces_ret|].
  apply traces_bind.
  - destruct (tx_pendingbuf (fr_tx f)); [|apply traces_ret].
    apply traces_sendfriendfile_loop.
  - intros f1. auto with traces.
Qed.

Lemma pending_round_spec (rfds : list Z) (f f' : friend) (rfds' : list Z)
      (w w' : world) :
  pending_round E connection start scripts rfds f w = Done (f', rfds') w' ->
  pending_rel connection f f' /\
  incl rfds' rfds /\
  (tx_state (fr_tx f) = TRANSFER_INPROGRESS -> connection (fr_num f) <> 0 ->
   tx_state (fr_tx f') = TRANSFER_NONE -> ~ In (ffd f' FFILE_IN) rfds').
Proof.
  unfold pending_round, pending_rel.
  assert (Hsame : forall v, Done (f, rfds) v = Done (f', rfds') w' ->
            (connection (fr_num f) = 0 \/ tx_state (fr_tx f) <> TRANSFER_INPROGRESS) ->
            (send_side f f' /\ (tx_inv f -> tx_inv f') /\
             (tx_state (fr_tx f') = tx_state (fr_tx f)
              \/ tx_state (fr_tx f') = TRANSFER_NONE) /\
             (connection (fr_num f) = 0 \/ tx_state (fr_tx f) <> TRANSFER_INPROGRESS
              \/ tx_pendingbuf (fr_tx f) = false -> f' = f)) /\
            incl rfds' rfds /\
            (tx_state (fr_tx f) = TRANSFER_INPROGRESS -> connection (fr_num f) <> 0 ->
             tx_state (fr_tx f') = TRANSFER_NONE -> ~ In (ffd f' FFILE_IN) rfds')).
  { intros v [= <- <- _] Hwhy.
    split; [split; [apply send_side_refl|auto]|].
    split; [apply incl_refl|]. intros H1 H2. destruct Hwhy; contradiction. }
  destruct (connection (fr_num f) =? 0) eqn:Hc.
  { intros H. apply (Hsame _ H). left. now apply Z.eqb_eq. }
  apply Z.eqb_neq in Hc.
  destruct (tstate_eqb (tx_state (fr_tx f)) TRANSFER_INPROGRESS) eqn:Hst;
    cbn [negb].
  2:{ intros H. apply (Hsame _ H). right. intros Hin.
      apply tstate_eqb_eq in Hin. congruence. }
  apply tstate_eqb_eq in Hst.
  intros H. apply bind_done in H as (f1 & w1 & Hsend & Hrest).
  assert (H1 : send_side f f1 /\ tx_inv f1 /\
               (tx_state (fr_tx f1) = tx_state (fr_tx f)
                \/ tx_state (fr_tx f1) = TRANSFER_NONE) /\
               (tx_pendingbuf (fr_tx f) = false -> f1 = f)).
  { destruct (tx_pendingbuf (fr_tx f)) eqn:Hp.
    - unfold sendfriendfile in Hsend.
      pose proof (sendfriendfile_loop_inv E _ _ _ _ _ _ _ Hst Hsend) as Hinv.
      apply sendfriendfile_loop_frame in Hsend as [Hs Ht].
      repeat (split; [assumption|]). discriminate.
    - injection Hsend as <- _.
      split; [apply send_side_refl|].
      split; [intros Hp'; congruence|]. auto. }
  destruct H1 as (Hs & Hinv & Ht & Hkeep).
  assert (Hrel : send_side f f1 /\ (tx_inv f -> tx_inv f1) /\
                 (tx_state (fr_tx f1) = tx_state (fr_tx f)
                  \/ tx_state (fr_tx f1) = TRANSFER_NONE) /\
                 (connection (fr_num f) = 0 \/ tx_state (fr_tx f) <> TRANSFER_INPROGRESS
                  \/ tx_pendingbuf (fr_tx f) = false -> f1 = f)).
  { repeat (split; [auto|]). intros [H|[H|H]]; [contradiction|contradiction|auto]. }
  destruct (tstate_eqb (tx_state (fr_tx f1)) TRANSFER_NONE) eqn:Hnone;
    injection Hrest as <- <- _; (split; [exact Hrel|]).
  - split; [apply fd_clr_incl|]. intros _ _ _. apply fd_clr_absent.
  - split; [apply incl_refl|]. intros _ _ Hn.
    apply tstate_eqb_eq in Hn. congruence.
Qed.

Lemma pending_round_done (rfds : list Z) (f : friend) (w : world) :
  pending_ok E start scripts f = true ->
  exists f' rfds' w',
    pending_round E connection start scripts rfds f w = Done (f', rfds') w'.
Proof.
  intros Hok. unfold pending_round.
  destruct (connection (fr_num f) =? 0); [do 3 eexists; reflexivity|].
  destruct (tstate_eqb (tx_state (fr_tx f)) TRANSFER_INPROGRESS) eqn:Hst;
    cbn [negb]; [|do 3 eexists; reflexivity].
  apply tstate_eqb_eq in Hst.
  destruct (tx_pendingbuf (fr_tx f)).
  - unfold pending_ok, script_ok in Hok. apply andb_prop in Hok as [Hall Hlate].
    destruct (sendfriendfile_loop_done E (start (fr_num f)) (fr_dirfd f)
                (scripts (fr_num f)) (mktime 0 0) f w eq_refl Hst Hall
                (or_intror Hlate)) as (f1 & w1 & Hrun).
    unfold bind, sendfriendfile. rewrite Hrun.
    destruct (tstate_eqb (tx_state (fr_tx f1)) TRANSFER_NONE);
      do 3 eexists; reflexivity.
  - run_monad.
    destruct (tstate_eqb (tx_state (fr_tx f)) TRANSFER_NONE);
      do 3 eexists; reflexivity.
Qed.

End PendingFacts.

Lemma loop_pending_rel (E : Env) (connection : Z -> Z) (start : Z -> timespec)
      (scripts : Z -> list chunk_env) (rfds rfds' : list Z) (w w' : world) :
  loop_pending E connection start scripts rfds w = Done rfds' w' ->
  Forall2 (pending_rel connection) (friendhead w) (friendhead w') /\
  incl rfds' rfds /\
  reqhead w' = reqhead w /\ gslots w' = gslots w /\ idfd w' = idfd w.
Proof.
  intros Hrun. unfold loop_pending in Hrun.
  destruct (for_friends_spec (pending_round E connection start scripts)
              (fun s => incl s rfds) (pending_rel connection) (fun _ _ => True)
              (traces_pending_round E connection start scripts))
    with (s := rfds) (w := w) (s' := rfds') (w' := w')
    as (HF & Hincl & _ & _ & Hr & Hg & Hi); auto using incl_refl.
  intros s f v f' s' v' Hs Hb.
  apply pending_round_spec in Hb as (Hrel & Hsub & _).
  split; [assumption|]. split; [|exact Logic.I].
  eapply incl_tran; eassumption.
Qed.

(** X8 -- the accept sweep of [loop]: when it returns, every friend has
    changed on its receive side at most; a receive transfer is in progress
    afterwards only where one was or where an offer was ready (friend
    online, offer pending, [file_out] not open, the open succeeds, the
    transport takes the RESUME), and a ready offer does go in progress
    with [file_out] set to the new descriptor; a friend that is offline,
    has no offer or has [file_out] open is left as it is.  The sweep
    returns whenever the opens of [file_out] go well. *)
Theorem accept_sweep (E : Env) (connection : Z -> Z) (w : world) :
  (forall w',
     loop_accept E connection w = Done tt w' ->
     Forall2 (accept_rel E connection) (friendhead w) (friendhead w') /\
     reqhead w' = reqhead w /\ gslots w' = gslots w /\ idfd w' = idfd w) /\
  (forallb (fun f => fifoopen_ok E (fr_dirfd f) (ffiles FFILE_OUT)) (friendhead w)
   = true ->
   exists w', loop_accept E connection w = Done tt w').
Proof.
  split.
  - intros w' Hrun. now apply loop_accept_rel.
  - intros Hok. unfold loop_accept, for_friends. run_monad.
    destruct (friends_fold_done (accept_round E connection)
                (fun f => fifoopen_ok E (fr_dirfd f) (ffiles FFILE_OUT) = true)) with
      (todo := friendhead w) (i := O) (s := tt) (w := w) as ([] & w' & Hrun).
    + intros s f v Hf. now apply accept_round_done.
    + apply Forall_forall. now apply forallb_forall.
    + now exists w'.
Qed.

Lemma accept_sweep_witness :
  exists w',
    loop_accept env0 (fun _ => 2) world_offer = Done tt w' /\
    map (fun f => (fr_rxstate f, ffd f FFILE_OUT)) (friendhead w')
    = [(TRANSFER_INPROGRESS, 5)].
Proof.
  destruct (accept_sweep env0 (fun _ => 2) world_offer) as [Hpost Hdone].
  destruct Hdone as [w' Hrun]; [reflexivity|].
  exists w'. split; [assumption|].
  destruct (Hpost w' Hrun) as [HF _].
  inversion HF as [|f f' l l' Hrel Hrest Hl Hl']; subst.
  inversion Hrest; subst.
  destruct Hrel as (_ & _ & _ & Hready & _).
  destruct Hready as [Hst Hfd].
  - unfold accept_ready. cbn.
    repeat split; try discriminate; lia.
  - cbn. lia.
  - cbn [map]. rewrite Hst, Hfd. reflexivity.
Defined.

(** X9 -- the sweep of [loop] that re-sends pending buffers: when it
    returns, every friend has changed on its send side at most; a friend
    that is offline, has no transfer in progress or has no pending buffer
    is left as it is; the send state is as before or idle; [pendingbuf]
    set implies INPROGRESS wherever it did before; and the read set has
    only lost members.  The sweep returns whenever the scripts of the
    friends' calls of [sendfriendfile] run out in time. *)
Theorem pending_sweep (E : Env) (connection : Z -> Z) (start : Z -> timespec)
        (scripts : Z -> list chunk_env) (rfds : list Z) (w : world) :
  (forall rfds' w',
     loop_pending E connection start scripts rfds w = Done rfds' w' ->
     Forall2 (pending_rel connection) (friendhead w) (friendhead w') /\
     incl rfds' rfds /\
     reqhead w' = reqhead w /\ gslots w' = gslots w /\ idfd w' = idfd w) /\
  (forallb (pending_ok E start scripts) (friendhead w) = true ->
   exists rfds' w', loop_pending E connection start scripts rfds w = Done rfds' w').
Proof.
  split.
  - intros rfds' w' Hrun.
    now apply (loop_pending_rel E connection start scripts rfds rfds' w w').
  - intros Hok. unfold loop_pending, for_friends. run_monad.
    destruct (friends_fold_done (pending_round E connection start scripts)
                (fun f => pending_ok E start scripts f = true)) with
      (todo := friendhead w) (i := O) (s := rfds) (w := w) as (rfds' & w' & Hrun).
    + intros s f v Hf. now apply pending_round_done.
    + apply Forall_forall. now apply forallb_forall.
    + now exists rfds', w'.
Qed.

Lemma pending_sweep_witness :
  exists rfds' w',
    loop_pending env0 (fun _ => 2) (fun _ => mktime 7 0) (fun _ => [round_sent_late])
                 [5; 20] (world_friend tx_blocked)
    = Done rfds' w' /\
    incl rfds' [5; 20] /\ Forall tx_inv (friendhead w').
Proof.
  destruct (pending_sweep env0 (fun _ => 2) (fun _ => mktime 7 0)
              (fun _ => [round_sent_late]) [5; 20] (world_friend tx_blocked))
    as [Hpost Hdone].
  destruct Hdone as (rfds' & w' & Hrun); [reflexivity|].
  exists rfds', w'. split; [assumption|].
  destruct (Hpost rfds' w' Hrun) as (HF & Hincl & _).
  split; [assumption|].
  inversion HF as [|f f' l l' Hrel Hrest Hl Hl']; subst.
  inversion Hrest; subst.
  constructor; [|constructor].
  apply Hrel. intros _. reflexivity.
Defined.

(** ** Callbacks on a friend of the queue *)

Lemma find_friend_split (frnum : Z) (fs : list friend) (i : nat) (f : friend) :
  find_friend frnum fs = Some (i, f) ->
  exists pre rest, fs = (pre ++ f :: rest)%list /\ i = List.length pre.
Proof.
  revert i. induction fs as [|g fs IH]; intros i; simpl; [discriminate|].
  destruct (to_uint32 (fr_num g) =? to_uint32 frnum).
  - intros [= <- <-]. now exists [], fs.
  - destruct (find_friend frnum fs) as [[j h]|]; [|discriminate].
    intros [= <- <-]. destruct (IH j eq_refl) as (pre & rest & -> & ->).
    now exists (g :: pre), rest.
Qed.

Lemma nth_error_split_at {A} (l : list A) (i : nat) (a : A) :
  nth_error l i = Some a ->
  exists pre rest, l = (pre ++ a :: rest)%list /\ i = List.length pre.
Proof.
  revert i. induction l as [|x l IH]; intros [|i]; simpl; try discriminate.
  - intros [= ->]. now exists [], l.
  - intros H. destruct (IH i H) as (pre & rest & -> & ->).
    now exists (x :: pre), rest.
Qed.

Lemma Forall2_same {A} (R : A -> A -> Prop) (l : list A) :
  (forall a, R a a) -> Forall2 R l l.
Proof. intros H. induction l; constructor; auto. Qed.

Lemma Forall2_middle {A} (R : A -> A -> Prop) (pre rest : list A) (a b : A) :
  (forall a, R a a) -> R a b -> Forall2 R (pre ++ a :: rest) (pre ++ b :: rest).
Proof.
  intros Hrefl Hab. apply Forall2_app; [now apply Forall2_same|].
  constructor; [assumption|now apply Forall2_same].
Qed.

Lemma Forall2_Forall {A} (R : A -> A -> Prop) (P : A -> Prop) (l l' : list A) :
  (forall a b, R a b -> P a -> P b) ->
  Forall2 R l l' -> Forall P l -> Forall P l'.
Proof.
  intros H HF. induction HF as [|a b l l' Hab _ IH]; intros HP; [constructor|].
  inversion HP; subst. constructor; eauto.
Qed.

(** Putting back a changed record at the position of a friend. *)
Lemma put_friend_at (R : friend -> friend -> Prop) (pre rest : list friend)
      (f f' : friend) (w1 w' : world) :
  (forall g, R g g) -> R f f' ->
  friendhead w1 = (pre ++ f :: rest)%list ->
  put_friend (List.length pre) f' w1 = Done tt w' ->
  Forall2 R (friendhead w1) (friendhead w') /\
  reqhead w' = reqhead w1 /\ gslots w' = gslots w1 /\ idfd w' = idfd w1 /\
  trace w' = trace w1.
Proof.
  intros Hrefl HR Hfs. unfold put_friend. run_monad. intros [= <-].
  cbn [friendhead reqhead gslots idfd trace].
  rewrite Hfs, replace_nth_middle. split; [now apply Forall2_middle|auto].
Qed.

Section CallbackFacts.

Variable E : Env.

Lemma filecontrol_friend_spec (fnum : Z) (ctrl : TOX_FILE_CONTROL)
      (f f' : friend) (w w' : world) :
  filecontrol_friend E fnum ctrl f w = Done f' w' ->
  same_friend f f' /\
  (rx_inv f -> rx_inv f') /\
  (tx_used f -> tx_used f') /\
  (ctrl = TOX_FILE_CONTROL_PAUSE \/ (ctrl = TOX_FILE_CONTROL_RESUME /\ fnum <> 0) ->
   f' = f /\ w' = w) /\
  (ctrl = TOX_FILE_CONTROL_CANCEL ->
   recv_side f f' /\ fr_rxstate f' = TRANSFER_NONE).
Proof.
  unfold filecontrol_friend.
  assert (Hsame : forall v, Done f v = Done f' w' -> v = w ->
            ctrl <> TOX_FILE_CONTROL_CANCEL ->
            same_friend f f' /\ (rx_inv f -> rx_inv f') /\ (tx_used f -> tx_used f') /\
            (ctrl = TOX_FILE_CONTROL_PAUSE
             \/ (ctrl = TOX_FILE_CONTROL_RESUME /\ fnum <> 0) -> f' = f /\ w' = w) /\
            (ctrl = TOX_FILE_CONTROL_CANCEL ->
             recv_side f f' /\ fr_rxstate f' = TRANSFER_NONE)).
  { intros v [= <- <-] -> Hc. split; [apply same_friend_refl|].
    split; [auto|]. split; [auto|]. split; [auto|].
    intros Hcancel. contradiction. }
  assert (Htx : forall t v, Done (set_tx f t) v = Done f' w' ->
            tx_state t = TRANSFER_INPROGRESS ->
            ctrl = TOX_FILE_CONTROL_RESUME -> fnum = 0 ->
            same_friend f f' /\ (rx_inv f -> rx_inv f') /\ (tx_used f -> tx_used f') /\
            (ctrl = TOX_FILE_CONTROL_PAUSE
             \/ (ctrl = TOX_FILE_CONTROL_RESUME /\ fnum <> 0) -> f' = f /\ w' = w) /\
            (ctrl = TOX_FILE_CONTROL_CANCEL ->
             recv_side f f' /\ fr_rxstate f' = TRANSFER_NONE)).
  { intros t v [= <- _] Ht Hc Hf.
    assert (Hs : send_side f (set_tx f t)) by side_solve.
    split; [now apply send_side_same|].
    split; [now apply rx_inv_send_side|].
    split; [intros _; right; right; exact Ht|].
    split; [intros [H|[_ H]]; [congruence|contradiction]|].
    intros H. congruence. }
  assert (Hrx : forall v, cancelrxtransfer E f v = Done f' w' ->
            ctrl = TOX_FILE_CONTROL_CANCEL ->
            same_friend f f' /\ (rx_inv f -> rx_inv f') /\ (tx_used f -> tx_used f') /\
            (ctrl = TOX_FILE_CONTROL_PAUSE
             \/ (ctrl = TOX_FILE_CONTROL_RESUME /\ fnum <> 0) -> f' = f /\ w' = w) /\
            (ctrl = TOX_FILE_CONTROL_CANCEL ->
             recv_side f f' /\ fr_rxstate f' = TRANSFER_NONE)).
  { intros v Hrun Hc. apply cancelrxtransfer_spec in Hrun as (Hr & Hst & _).
    split; [now apply recv_side_same|].
    split; [intros [Hl _]; eapply rx_inv_cancelled; eassumption|].
    split; [now apply tx_used_recv_side|].
    split; [intros [H|[H _]]; congruence|]. auto. }
  destruct ctrl as [| | |v]; destruct (fnum =? 0) eqn:Hf; cbn [andb]; run_monad;
    try (intros H; apply (Hsame _ H); [reflexivity|discriminate]);
    try (intros H; apply (Hrx _ H); reflexivity).
  - apply Z.eqb_eq in Hf.
    destruct (tstate_eqb (tx_state (fr_tx f)) TRANSFER_PAUSED).
    + intros H. apply (Htx _ _ H); auto.
    + destruct (sys_malloc E (tox_file_data_size fnum)); cbn [negb]; [|discriminate].
      intros H. apply (Htx _ _ H); auto.
  - intros [= <- _]. split; [apply same_friend_refl|].
    split; [auto|]. split; [auto|].
    split; [intros [H|[H _]]; discriminate|discriminate].
  - intros [= <- _]. split; [apply same_friend_refl|].
    split; [auto|]. split; [auto|].
    split; [intros [H|[H _]]; discriminate|discriminate].
Qed.

End CallbackFacts.

Lemma put_friend_same (frnum : Z) (i : nat) (f : friend) (w : world) :
  find_friend frnum (friendhead w) = Some (i, f) ->
  put_friend i f w = Done tt w.
Proof.
  intros Hfind. apply find_friend_split in Hfind as (pre & rest & Hfs & ->).
  unfold put_friend. run_monad.
  rewrite Hfs, replace_nth_middle, <- Hfs. now rewrite world_eta.
Qed.

(** A relation that keeps the friend number keeps the result of the
    search for a friend. *)
Lemma find_friend_Forall2 (R : friend -> friend -> Prop) (frnum : Z)
      (fs fs' : list friend) :
  (forall f f', R f f' -> fr_num f' = fr_num f) ->
  Forall2 R fs fs' ->
  match find_friend frnum fs with
  | Some (i, f) => exists f', find_friend frnum fs' = Some (i, f') /\ R f f'
  | None => find_friend frnum fs' = None
  end.
Proof.
  intros Hnum HF. induction HF as [|f f' l l' HR _ IH]; [reflexivity|].
  cbn [find_friend]. rewrite (Hnum _ _ HR).
  destruct (to_uint32 (fr_num f) =? to_uint32 frnum); [now exists f'|].
  destruct (find_friend frnum l) as [[j g]|].
  - destruct IH as (g' & -> & Hg). now exists g'.
  - now rewrite IH.
Qed.

Section WorldFacts.

Variable E : Env.

Lemma kept_refl (f : friend) : step_kept f f.
Proof. split; [apply same_friend_refl|auto]. Qed.

Lemma kept_send_side (f f' : friend) :
  send_side f f' -> (tx_used f -> tx_used f') -> step_kept f f'.
Proof.
  intros Hs Ht. split; [now apply send_side_same|].
  split; [now apply rx_inv_send_side|assumption].
Qed.

Lemma kept_recv_side (f f' : friend) :
  recv_side f f' -> (rx_inv f -> rx_inv f') -> step_kept f f'.
Proof.
  intros Hr Hi. split; [now apply recv_side_same|].
  split; [assumption|now apply tx_used_recv_side].
Qed.

Lemma kept_inv (f f' : friend) : step_kept f f' -> engine_inv f -> engine_inv f'.
Proof. intros (_ & Hr & Ht) [H1 H2]. split; auto. Qed.

Lemma tx_used_state (f f' : friend) :
  tx_state (fr_tx f') = tx_state (fr_tx f) \/ tx_state (fr_tx f') = TRANSFER_NONE ->
  tx_used f -> tx_used f'.
Proof. unfold tx_used. intros [->| ->]; auto. Qed.

Lemma cbfilecontrol_kept (frnum fnum : Z) (ctrl : TOX_FILE_CONTROL) (w w' : world) :
  cbfilecontrol E frnum fnum ctrl w = Done tt w' ->
  Forall2 step_kept (friendhead w) (friendhead w').
Proof.
  unfold cbfilecontrol. intros H.
  apply bind_done in H as (fs & w0 & Hget & H). injection Hget as <- <-.
  destruct (find_friend frnum (friendhead w)) as [[i f]|] eqn:Hfind.
  - apply bind_done in H as (f' & w1 & Hctl & Hput).
    destruct (traces_filecontrol_friend E fnum ctrl f _ _ _ Hctl) as [es ->].
    apply filecontrol_friend_spec in Hctl as (Hs & Hr & Ht & _).
    apply find_friend_split in Hfind as (pre & rest & Hfs & ->).
    eapply (put_friend_at step_kept) in Hput; [apply Hput|apply kept_refl| |exact Hfs].
    split; auto.
  - injection H as <-. apply Forall2_same, kept_refl.
Qed.

(** The refusal of an offer only adds to the trace. *)
Lemma traces_offer_refused (fnum flen : Z) (f : friend) :
  traces_only
    (logmsg (": " ++ fr_name f ++ " : Rx > Rejected " ++ uninit_name E flen
             ++ ", already one in progress" ++ NL) ;;
     emit (EvTox (ToxFileControl (fr_num f) fnum TOX_FILE_CONTROL_CANCEL)) ;;
     when (tox_file_control E (fr_num f) fnum TOX_FILE_CONTROL_CANCEL <? 0)
          (weprintf ("Failed to kill new Rx transfer" ++ NL))).
Proof. auto 8 with traces. Qed.

Lemma cbfilesendreq_kept (frnum fnum flen : Z) (w w' : world) :
  cbfilesendreq E frnum fnum flen w = Done tt w' ->
  Forall2 step_kept (friendhead w) (friendhead w').
Proof.
  unfold cbfilesendreq. intros H.
  apply bind_done in H as (fs & w0 & Hget & H). injection Hget as <- <-.
  destruct (find_friend frnum (friendhead w)) as [[i f]|] eqn:Hfind.
  - destruct (tstate_eqb (fr_rxstate f) TRANSFER_INPROGRESS) eqn:Hst.
    + destruct (traces_offer_refused fnum flen f _ _ _ H) as [es ->].
      apply Forall2_same, kept_refl.
    + apply bind_done in H as ([] & w1 & H1 & H).
      apply bind_done in H as ([] & w2 & H2 & H).
      apply bind_done in H as ([] & w3 & H3 & H).
      apply bind_done in H as ([] & w4 & Hput & Hlog).
      injection H1 as <-. injection H2 as <-. injection H3 as <-.
      injection Hlog as <-.
      apply find_friend_split in Hfind as (pre & rest & Hfs & ->).
      eapply (put_friend_at step_kept) in Hput;
        [cbn [add_trace friendhead] in *; apply Hput|apply kept_refl| |exact Hfs].
      apply kept_recv_side; [side_solve|].
      intros [Hl Hin]. split; [exact Hl|]. cbn. discriminate.
  - injection H as <-. apply Forall2_same, kept_refl.
Qed.

Lemma file_in_round_spec (sent : Z) (start : timespec) (script : list chunk_env)
      (f f' : friend) (w w' : world) :
  file_in_round E sent start script f w = Done f' w' ->
  send_side f f' /\ (tx_used f -> tx_used f') /\ (tx_inv f -> tx_inv f').
Proof.
  unfold file_in_round.
  destruct (tx_state (fr_tx f)) eqn:Hst;
    try (intros [= <- _]; split; [apply send_side_refl|auto]).
  - intros H. apply bind_done in H as ([] & w1 & _ & H).
    destruct (sent <? 0).
    + apply bind_done in H as ([] & w2 & _ & H).
      apply bind_done in H as (fd & w3 & _ & H). injection H as <- _.
      split; [side_solve|]. split; [auto|].
      unfold tx_inv, tx_used. cbn. auto.
    + apply bind_done in H as ([] & w2 & _ & H). injection H as <- _.
      split; [side_solve|]. split; [intros _; right; left; reflexivity|].
      unfold tx_inv. cbn. rewrite Hst. intros Hi Hp. specialize (Hi Hp). discriminate.
  - intros H. unfold sendfriendfile in H.
    pose proof (sendfriendfile_loop_inv E _ _ _ _ _ _ _ Hst H) as Hinv.
    apply sendfriendfile_loop_frame in H as [Hs Ht].
    split; [assumption|]. split; [now apply tx_used_state|auto].
Qed.

Lemma traces_file_in_round (sent : Z) (start : timespec) (script : list chunk_env)
      (f : friend) :
  traces_only (file_in_round E sent start script f).
Proof.
  unfold file_in_round.
  destruct (tx_state (fr_tx f)); try apply traces_ret.
  - auto 10 using traces_fiforeset with traces.
  - apply traces_sendfriendfile_loop.
Qed.

Lemma traces_cancel_round (u : unit) (f : friend) : traces_only (cancel_round E u f).
Proof.
  unfold cancel_round.
  apply traces_bind; [apply traces_canceltxtransfer|]. intros f1.
  apply traces_bind; [apply traces_cancelrxtransfer|]. intros f2. apply traces_ret.
Qed.

Lemma cancel_round_spec (u : unit) (f f' : friend) (u' : unit) (w w' : world) :
  cancel_round E u f w = Done (f', u') w' -> step_kept f f' /\ transfers_idle f'.
Proof.
  unfold cancel_round. intros H.
  apply bind_done in H as (f1 & w1 & Htx & H).
  apply bind_done in H as (f2 & w2 & Hrx & H). injection H as <- _ _.
  apply canceltxtransfer_spec in Htx as (Hs & Hst & _).
  apply cancelrxtransfer_spec in Hrx as (Hr & Hrst & _).
  assert (Htx2 : tx_state (fr_tx f2) = TRANSFER_NONE).
  { destruct Hr as (_ & _ & _ & _ & _ & Htx & _). now rewrite Htx. }
  split; [|split; assumption].
  split; [eapply same_friend_trans;
          [apply send_side_same|apply recv_side_same]; eassumption|].
  split; [|intros _; left; assumption].
  intros Hinv. eapply rx_inv_cancelled; [eassumption|assumption|].
  apply (rx_inv_send_side _ _ Hs Hinv).
Qed.

Lemma friend_files_length (dfd : Z) (ks : list ffile_ix) :
  forall fds w fds' w',
    friend_files E dfd ks fds w = Done fds' w' ->
    List.length fds' = List.length fds.
Proof.
  induction ks as [|k ks IH]; intros fds w fds' w'; cbn [friend_files].
  - now intros [= <- _].
  - intros H. apply bind_done in H as (fds2 & w2 & Hk & Hrest).
    apply IH in Hrest. rewrite Hrest.
    destruct (f_type (ffiles k)).
    + injection Hk as <- _. apply fd_set_length.
    + apply bind_done in Hk as (fd & w3 & _ & Hk). injection Hk as <- _.
      now rewrite !fd_set_length.
    + apply bind_done in Hk as (fd & w3 & _ & Hk). injection Hk as <- _.
      now rewrite !fd_set_length.
    + injection Hk as <- _. apply fd_set_length.
Qed.

End WorldFacts.

Section FreshFacts.

Variable E : Env.

(** The record that [friendcreate] appends has no transfer under way and a
    descriptor for each of the friend's files. *)
Lemma friendcreate_fresh (frnum : Z) (w : world) (o : option friend) (w' : world) :
  friendcreate E frnum w = Done o w' ->
  exists f,
    o = Some f /\
    friendhead w' = (friendhead w ++ [f])%list /\
    fr_tx f = tx0 /\ fr_rxstate f = TRANSFER_NONE /\
    List.length (fr_fd f) = List.length all_ffiles.
Proof.
  intros H.
  destruct (friendcreate_shape E frnum w o w' H)
    as (f & es & -> & _ & _ & _ & Htx & Hfs & _).
  exists f. split; [reflexivity|]. split; [assumption|]. split; [assumption|].
  unfold friendcreate in H.
  apply bind_done in H as ([] & w0 & _ & H).
  rewrite to_size_t_nonneg in H.
  apply bind_done in H as (name & w1 & _ & H).
  apply bind_done in H as ([] & w2 & _ & H).
  apply bind_done in H as ([] & w3 & _ & H).
  apply bind_done in H as ([] & w4 & _ & H).
  destruct (sys_opendir E (Hex.id2str (tox_friend_get_public_key E frnum))) as [d|];
    [|discriminate].
  rewrite to_size_t_nonneg in H.
  apply bind_done in H as (fds & w5 & Hfiles & H).
  apply friend_files_length in Hfiles. rewrite repeat_length in Hfiles.
  repeat (apply bind_done in H as (? & ? & _ & H)).
  injection H as <- _. cbn [fr_rxstate fr_fd]. auto.
Qed.

End FreshFacts.

(** ** The states the transfer engine reaches *)

Section EngineFacts.

Variable E : Env.

Lemma Forall2_kept_inv (fs fs' : list friend) :
  Forall2 step_kept fs fs' -> Forall engine_inv fs -> Forall engine_inv fs'.
Proof. apply Forall2_Forall. apply kept_inv. Qed.

Lemma Forall2_weaken {A} (R R' : A -> A -> Prop) (l l' : list A) :
  (forall a b, R a b -> R' a b) -> Forall2 R l l' -> Forall2 R' l l'.
Proof. intros H HF. induction HF; constructor; auto. Qed.

Lemma loop_connected_kept (w w' : world) :
  loop_connected E w = Done tt w' ->
  Forall2 (fun f f' => step_kept f f' /\ transfers_idle f')
          (friendhead w) (friendhead w').
Proof.
  intros Hrun. unfold loop_connected in Hrun.
  destruct (for_friends_spec (cancel_round E)
              (fun _ => True) (fun f f' => step_kept f f' /\ transfers_idle f')
              (fun _ _ => True) (traces_cancel_round E))
    with (s := tt) (w := w) (s' := tt) (w' := w') as (HF & _); auto.
  intros s f v f' s' v' _ Hb. split; [|auto].
  eapply cancel_round_spec. eassumption.
Qed.

Lemma engine_step_inv (w w' : world) :
  engine_step E w w' ->
  Forall engine_inv (friendhead w) -> Forall engine_inv (friendhead w').
Proof.
  intros Hstep Hinv.
  destruct Hstep as [frnum o H|frnum fnum flen H|frnum fnum ctrl H|H|connection H
                    |connection start scripts rfds rfds' H|connection H
                    |i f f' sent start script w1 Hnth Hin Hput].
  - apply friendcreate_fresh in H as (f & _ & -> & Htx & Hrx & Hlen).
    apply Forall_app. split; [assumption|]. constructor; [|constructor].
    split.
    + split; [rewrite Hlen; cbn; lia|]. rewrite Hrx. discriminate.
    + left. now rewrite Htx.
  - apply cbfilesendreq_kept in H. eapply Forall2_kept_inv; eassumption.
  - apply cbfilecontrol_kept in H. eapply Forall2_kept_inv; eassumption.
  - apply loop_connected_kept in H.
    eapply Forall2_kept_inv; [|eassumption].
    eapply Forall2_weaken; [|exact H]. now intros a b [Hk _].
  - apply loop_broken_rel in H as [H _].
    eapply Forall2_kept_inv; [|eassumption].
    eapply Forall2_weaken; [|exact H].
    intros a b (Hs & _ & _ & _ & Ht & Hr).
    split; [assumption|]. split; [assumption|]. now apply tx_used_state.
  - apply loop_pending_rel in H as [H _].
    eapply Forall2_kept_inv; [|eassumption].
    eapply Forall2_weaken; [|exact H].
    intros a b (Hs & _ & Ht & _).
    apply kept_send_side; [assumption|]. now apply tx_used_state.
  - apply loop_accept_rel in H as [H _].
    eapply Forall2_kept_inv; [|eassumption].
    eapply Forall2_weaken; [|exact H].
    intros a b (Hr & Hi & _). now apply kept_recv_side.
  - destruct (traces_file_in_round E sent start script f _ _ _ Hin) as [es ->].
    apply file_in_round_spec in Hin as (Hs & Ht & _).
    apply nth_error_split_at in Hnth as (pre & rest & Hfs & ->).
    eapply (put_friend_at step_kept) in Hput;
      [|apply kept_refl|apply kept_send_side; eassumption|exact Hfs].
    destruct Hput as [HF _]. cbn [add_trace friendhead] in HF.
    eapply Forall2_kept_inv; eassumption.
Qed.

End EngineFacts.

(** X10 -- in every state reached, from a state without friends (or one
    whose friends satisfy the same), by creating friends, by the callbacks
    for file offers and file control, by the sweeps of [loop] and by its
    handling of a readable [file_in], every friend has its send state
    among NONE, INITIATED and INPROGRESS (PAUSED and PENDING are never
    entered on the send side), and has [file_out] open whenever its
    receive transfer is in progress. *)
Theorem engine_states (E : Env) (w w' : world) :
  engine_steps E w w' ->
  Forall engine_inv (friendhead w) ->
  Forall engine_inv (friendhead w').
Proof.
  intros Hsteps Hinv. induction Hsteps as [|w1 w2 _ IH Hstep]; [assumption|].
  eapply engine_step_inv; eassumption.
Qed.

Lemma engine_states_witness :
  exists o w1 w2,
    friendcreate env0 1 world_request = Done o w1 /\
    cbfilecontrol env0 1 0 TOX_FILE_CONTROL_RESUME w1 = Done tt w2 /\
    Forall engine_inv (friendhead w2).
Proof.
  eexists. eexists. eexists.
  split; [vm_compute; reflexivity|].
  split; [vm_compute; reflexivity|].
  eapply (engine_states env0 world_request); [|constructor].
  eapply steps_more;
    [eapply steps_more;
       [apply steps_none
       |eapply (step_friendcreate env0 _ _ 1); vm_compute; reflexivity]
    |apply (step_filecontrol env0 _ _ 1 0 TOX_FILE_CONTROL_RESUME);
     vm_compute; reflexivity].
Defined.

(** ** File control from the peer *)

(** X11 -- what [cbfilecontrol] does not do: a PAUSE from the peer, and a
    RESUME for a transfer number other than 0, leave the whole state as it
    is, as does any control when no friend of the queue has the number
    (compared as [f->num == frnum] compares them, both as unsigned 32-bit
    values); and a CANCEL from the peer always returns and changes the
    receive side of the friend at most, so it never stops a transfer this
    side is sending. *)
Theorem filecontrol_ignored (E : Env) (frnum fnum : Z) (w : world) :
  cbfilecontrol E frnum fnum TOX_FILE_CONTROL_PAUSE w = Done tt w /\
  (fnum <> 0 -> cbfilecontrol E frnum fnum TOX_FILE_CONTROL_RESUME w = Done tt w) /\
  ((forall f, In f (friendhead w) -> to_uint32 (fr_num f) <> to_uint32 frnum) ->
   forall ctrl, cbfilecontrol E frnum fnum ctrl w = Done tt w) /\
  (exists w',
     cbfilecontrol E frnum fnum TOX_FILE_CONTROL_CANCEL w = Done tt w' /\
     Forall2 recv_side (friendhead w) (friendhead w') /\
     reqhead w' = reqhead w /\ gslots w' = gslots w).
Proof.
  split; [|split; [|split]].
  - unfold cbfilecontrol, bind at 1, get_friends.
    destruct (find_friend frnum (friendhead w)) as [[i f]|] eqn:Hfind; [|reflexivity].
    unfold filecontrol_friend. rewrite andb_false_r.
    unfold bind, ret. now apply put_friend_same with (frnum := frnum).
  - intros Hne. apply Z.eqb_neq in Hne.
    unfold cbfilecontrol, bind at 1, get_friends.
    destruct (find_friend frnum (friendhead w)) as [[i f]|] eqn:Hfind; [|reflexivity].
    unfold filecontrol_friend. rewrite Hne. cbn [andb].
    unfold bind, ret. now apply put_friend_same with (frnum := frnum).
  - intros Hnone ctrl. apply find_friend_none in Hnone.
    unfold cbfilecontrol, bind, get_friends. now rewrite Hnone.
  - unfold cbfilecontrol, bind at 1, get_friends.
    destruct (find_friend frnum (friendhead w)) as [[i f]|] eqn:Hfind.
    + assert (Hc : exists f' w1,
                filecontrol_friend E fnum TOX_FILE_CONTROL_CANCEL f w = Done f' w1).
      { unfold filecontrol_friend. rewrite andb_false_r. run_monad.
        apply cancelrxtransfer_done. }
      destruct Hc as (f' & w1 & Hc).
      destruct (traces_filecontrol_friend E fnum _ f _ _ _ Hc) as [es ->].
      unfold bind at 1. rewrite Hc.
      apply filecontrol_friend_spec in Hc as (_ & _ & _ & _ & Hcancel).
      destruct (Hcancel eq_refl) as [Hr _].
      apply find_friend_split in Hfind as (pre & rest & Hfs & ->).
      unfold put_friend. run_monad. eexists. split; [reflexivity|].
      cbn [add_trace friendhead reqhead gslots].
      rewrite Hfs, replace_nth_middle.
      split; [apply Forall2_middle; [apply recv_side_refl|assumption]|auto].
    + exists w. split; [reflexivity|].
      split; [apply Forall2_same, recv_side_refl|auto].
Qed.

Lemma filecontrol_ignored_witness :
  cbfilecontrol env0 1 3 TOX_FILE_CONTROL_RESUME (world_friend tx_initiated_cooling)
  = Done tt (world_friend tx_initiated_cooling) /\
  cbfilecontrol env0 2 0 TOX_FILE_CONTROL_RESUME (world_friend tx_initiated_cooling)
  = Done tt (world_friend tx_initiated_cooling).
Proof.
  split.
  - apply (proj1 (proj2 (filecontrol_ignored env0 1 3
                           (world_friend tx_initiated_cooling)))).
    discriminate.
  - apply (proj1 (proj2 (proj2 (filecontrol_ignored env0 2 0
                                  (world_friend tx_initiated_cooling))))).
    intros f [<-|[]]. vm_compute. discriminate.
Defined.

(** ** A file offer, from the callback to the accept sweep *)

Section OfferFacts.

Variable E : Env.

Lemma cbfilesendreq_pending (frnum fnum flen : Z) (w : world) (i : nat) (f : friend) :
  find_friend frnum (friendhead w) = Some (i, f) ->
  fr_rxstate f <> TRANSFER_INPROGRESS ->
  exists w1,
    cbfilesendreq E frnum fnum flen w = Done tt w1 /\
    friendhead w1 = replace_nth i (set_rxstate f TRANSFER_PENDING) (friendhead w) /\
    In (EvDprintf (ffd f FFILE_STATE) (uninit_name E flen ++ NL)) (trace w1).
Proof.
  intros Hfind Hst.
  assert (Hb : tstate_eqb (fr_rxstate f) TRANSFER_INPROGRESS = false).
  { destruct (tstate_eqb (fr_rxstate f) TRANSFER_INPROGRESS) eqn:H; [|reflexivity].
    apply tstate_eqb_eq in H. contradiction. }
  unfold cbfilesendreq, bind at 1, get_friends. rewrite Hfind, Hb.
  unfold put_friend. run_monad. eexists. split; [reflexivity|].
  world_simpl. split; [reflexivity|].
  apply in_or_app. right. cbn. auto.
Qed.

Lemma cbfilesendreq_rejected (frnum fnum flen : Z) (w : world) (i : nat) (f : friend) :
  find_friend frnum (friendhead w) = Some (i, f) ->
  fr_rxstate f = TRANSFER_INPROGRESS ->
  exists es,
    cbfilesendreq E frnum fnum flen w = Done tt (add_trace w es) /\
    In (EvTox (ToxFileControl (fr_num f) fnum TOX_FILE_CONTROL_CANCEL)) es.
Proof.
  intros Hfind Hst.
  unfold cbfilesendreq, bind at 1, get_friends. rewrite Hfind, Hst.
  cbn [tstate_eqb].
  run_monad.
  destruct (tox_file_control E (fr_num f) fnum TOX_FILE_CONTROL_CANCEL <? 0);
    cbn [when]; rewrite ?add_trace_app;
    eexists; (split; [reflexivity|]); cbn; auto.
Qed.

End OfferFacts.

(** X12 -- an offer and its acceptance: when the transport announces a
    file from a friend who is online and has no receive transfer in
    progress, whose [file_out] is not open but can be opened, the callback
    marks the offer pending, the next accept sweep of [loop] puts the
    transfer in progress with [file_out] open on the new descriptor, and
    from then on every further offer by that friend is answered with a
    CANCEL and changes nothing.  The transport is asked about, and told,
    the number in the friend's record, as the code passes [f->num]. *)
Theorem offer_accepted (E : Env) (connection : Z -> Z) (frnum fnum flen : Z)
        (w : world) (i : nat) (f : friend) :
  find_friend frnum (friendhead w) = Some (i, f) ->
  fr_rxstate f <> TRANSFER_INPROGRESS ->
  connection (fr_num f) <> 0 ->
  (ffile_pos FFILE_OUT < List.length (fr_fd f))%nat ->
  ffd f FFILE_OUT < 0 ->
  0 <= open_fd E (fr_dirfd f) (ffiles FFILE_OUT) ->
  0 <= tox_file_control E (fr_num f) 0 TOX_FILE_CONTROL_RESUME ->
  forallb (fun g => fifoopen_ok E (fr_dirfd g) (ffiles FFILE_OUT)) (friendhead w)
  = true ->
  exists w1 w2 f2,
    cbfilesendreq E frnum fnum flen w = Done tt w1 /\
    loop_accept E connection w1 = Done tt w2 /\
    find_friend frnum (friendhead w2) = Some (i, f2) /\
    fr_rxstate f2 = TRANSFER_INPROGRESS /\
    ffd f2 FFILE_OUT = open_fd E (fr_dirfd f) (ffiles FFILE_OUT) /\
    forall fnum' flen',
    exists es,
      cbfilesendreq E frnum fnum' flen' w2 = Done tt (add_trace w2 es) /\
      In (EvTox (ToxFileControl (fr_num f) fnum' TOX_FILE_CONTROL_CANCEL)) es.
Proof.
  intros Hfind Hst Hon Hlen Hfd Hopen Hctl Hok.
  pose proof (find_friend_num _ _ _ _ Hfind) as Hnum.
  destruct (cbfilesendreq_pending E frnum fnum flen w i f Hfind Hst)
    as (w1 & Hoffer & Hfs1 & _).
  set (f1 := set_rxstate f TRANSFER_PENDING) in *.
  assert (Hfind1 : find_friend frnum (friendhead w1) = Some (i, f1)).
  { rewrite Hfs1. apply (find_friend_replace frnum _ i f f1 Hfind). exact Hnum. }
  assert (Hok1 : Forall (fun g => fifoopen_ok E (fr_dirfd g) (ffiles FFILE_OUT) = true)
                        (friendhead w1)).
  { rewrite Hfs1. apply Forall_replace_nth; [|apply find_friend_In in Hfind].
    - apply Forall_forall. now apply forallb_forall.
    - cbn [f1 set_rxstate fr_dirfd].
      apply (proj1 (forallb_forall _ _) Hok). assumption. }
  destruct (friends_fold_done (accept_round E connection)
              (fun g => fifoopen_ok E (fr_dirfd g) (ffiles FFILE_OUT) = true)
              (fun s g v Hg => accept_round_done E connection s g v Hg)
              (friendhead w1) O tt w1 Hok1) as ([] & w2 & Hrun).
  assert (Haccept : loop_accept E connection w1 = Done tt w2).
  { unfold loop_accept, for_friends. run_monad. exact Hrun. }
  destruct (loop_accept_rel E connection w1 w2 Haccept) as [HF _].
  pose proof (find_friend_Forall2 (accept_rel E connection) frnum _ _
                (fun a b Hab => proj1 (proj2 (proj1 Hab))) HF) as Hfind2.
  rewrite Hfind1 in Hfind2. destruct Hfind2 as (f2 & Hfind2 & Hrel).
  destruct Hrel as (Hside & _ & _ & Hready & _).
  assert (Hnum2 : fr_num f2 = fr_num f) by exact (proj1 (proj2 Hside)).
  destruct Hready as [Hst2 Hfd2].
  { unfold accept_ready. cbn [f1 set_rxstate fr_num fr_rxstate fr_dirfd].
    repeat (split; [assumption || discriminate|]). assumption. }
  { exact Hlen. }
  exists w1, w2, f2.
  split; [assumption|]. split; [assumption|]. split; [assumption|].
  split; [assumption|]. split; [exact Hfd2|].
  intros fnum' flen'. rewrite <- Hnum2.
  now apply cbfilesendreq_rejected with (i := i) (f := f2).
Qed.

Lemma offer_accepted_witness :
  exists w1 w2 f2,
    cbfilesendreq env0 1 7 4 (world_friend tx0) = Done tt w1 /\
    loop_accept env0 (fun _ => 2) w1 = Done tt w2 /\
    find_friend 1 (friendhead w2) = Some (O, f2) /\
    fr_rxstate f2 = TRANSFER_INPROGRESS /\
    ffd f2 FFILE_OUT = 5.
Proof.
  destruct (offer_accepted env0 (fun _ => 2) 1 7 4 (world_friend tx0) O
              (sample_friend tx0))
    as (w1 & w2 & f2 & H1 & H2 & H3 & H4 & H5 & _);
    try reflexivity; try discriminate; try (cbn; lia).
  exists w1, w2, f2. auto.
Defined.

(** ** The read set of [select] *)

Lemma fd_appends_app (a b : list Z) (s : list Z * Z) :
  fd_appends (a ++ b) s = fd_appends b (fd_appends a s).
Proof. unfold fd_appends. apply fold_left_app. Qed.

Lemma fd_appends_fst (fds : list Z) :
  forall s, fst (fd_appends fds s) = (fst s ++ fds)%list.
Proof.
  induction fds as [|fd fds IH]; intros s; cbn; [now rewrite app_nil_r|].
  change (fold_left (fun s fd => fd_append fd s) fds (fd_append fd s))
    with (fd_appends fds (fd_append fd s)).
  rewrite IH. cbn. now rewrite <- app_assoc.
Qed.

Lemma fd_appends_max (fds : list Z) :
  forall s,
    (forall fd, In fd (fst s) -> fd <= snd s) ->
    (snd s = -1 \/ In (snd s) (fst s)) ->
    -1 <= snd s ->
    (forall fd, In fd (fst (fd_appends fds s)) -> fd <= snd (fd_appends fds s)) /\
    (snd (fd_appends fds s) = -1 \/ In (snd (fd_appends fds s)) (fst (fd_appends fds s))) /\
    -1 <= snd (fd_appends fds s).
Proof.
  induction fds as [|x fds IH]; intros s Hle Hin Hlow; [cbn; auto|].
  change (fd_appends (x :: fds) s) with (fd_appends fds (fd_append x s)).
  apply IH; unfold fd_append; cbn [fst snd].
  - intros fd Hfd. apply in_app_or in Hfd as [Hfd|[<-|[]]].
    + specialize (Hle fd Hfd). destruct (Z.gtb_spec x (snd s)); lia.
    + destruct (Z.gtb_spec x (snd s)); lia.
  - destruct (Z.gtb_spec x (snd s)).
    + right. apply in_or_app. right. now left.
    + destruct Hin as [Hin|Hin]; [now left|right; apply in_or_app; now left].
  - destruct (Z.gtb_spec x (snd s)); lia.
Qed.

Section FdsetFacts.

Variable E : Env.
Variable connection : Z -> Z.
Variable curtime : Z -> timespec.

Lemma cooldown_step_num (t : timespec) (f : friend) :
  fr_num (cooldown_step E t f) = fr_num f.
Proof.
  unfold cooldown_step. destruct (tx_cooldown (fr_tx f)); [|reflexivity].
  match goal with |- context [if ?c then _ else _] => destruct c end; reflexivity.
Qed.

Lemma fdset_round_run (s : list Z * Z) (f : friend) (w : world) :
  fdset_round E connection curtime s f w
  = Done (cooldown_step E (curtime (fr_num f)) f,
          fd_appends (watched connection (cooldown_step E (curtime (fr_num f)) f)) s) w.
Proof.
  unfold fdset_round, ret, watched. f_equal. f_equal.
  destruct (connection (fr_num (cooldown_step E (curtime (fr_num f)) f)) =? 1);
    [|reflexivity].
  match goal with |- context [if ?c then _ else _] => destruct c end; reflexivity.
Qed.

Lemma fdset_fold (todo : list friend) :
  forall pre s w,
    friendhead w = (pre ++ todo)%list ->
    friends_fold (fdset_round E connection curtime) (List.length pre) todo s w
    = Done (fd_appends
              (flat_map (watched connection)
                 (map (fun f => cooldown_step E (curtime (fr_num f)) f) todo)) s)
           (mkworld (pre ++ map (fun f => cooldown_step E (curtime (fr_num f)) f) todo)
                    (reqhead w) (gslots w) (idfd w) (trace w)).
Proof.
  induction todo as [|f rest IH]; intros pre s w Hfs.
  - cbn. rewrite app_nil_r in *. rewrite <- Hfs. now rewrite world_eta.
  - cbn [friends_fold]. unfold bind at 1. rewrite fdset_round_run.
    unfold put_friend. run_monad. cbn [fst snd].
    rewrite Hfs, replace_nth_middle.
    replace (S (List.length pre))
      with (List.length (pre ++ [cooldown_step E (curtime (fr_num f)) f]))
      by (rewrite length_app; simpl; lia).
    rewrite IH by (cbn; now rewrite <- app_assoc).
    cbn [friendhead reqhead gslots idfd trace map flat_map].
    rewrite fd_appends_app, <- app_assoc. reflexivity.
Qed.

Lemma slots_fdset_run (w : world) (s : list Z * Z) :
  slots_fdset all_slots s w
  = Done (fd_appends (map (fun i => slot_fd w i IN) all_slots) s) w.
Proof. reflexivity. Qed.

Lemma requests_fdset (rs : list request) :
  forall s,
    fold_left (fun s req => fd_append (rq_fd req) s) rs s
    = fd_appends (map rq_fd rs) s.
Proof. induction rs as [|r rs IH]; intros s; cbn; [reflexivity|]. apply IH. Qed.

End FdsetFacts.

(** X13 -- the read set that [loop] hands to [select], in closed form: the
    [in] FIFO of every slot, the FIFO of every request, and for every
    friend [text_in] only if its connection status is 1, [file_in] only if
    moreover its send state is idle or in progress and not cooling down,
    and [remove] always; the friends are left as the cooldown test leaves
    them and nothing else changes; and [fdmax] is -1 or a member of the
    set, and no member exceeds it. *)
Theorem fdset_assembled (E : Env) (connection : Z -> Z) (curtime : Z -> timespec)
        (w : world) :
  let fs' := map (fun f => cooldown_step E (curtime (fr_num f)) f) (friendhead w) in
  let fds := (map (fun i => slot_fd w i IN) all_slots ++ map rq_fd (reqhead w)
              ++ flat_map (watched connection) fs')%list in
  exists fdmax,
    loop_fdset E connection curtime w
    = Done (fds, fdmax) (mkworld fs' (reqhead w) (gslots w) (idfd w) (trace w)) /\
    (forall fd, In fd fds -> fd <= fdmax) /\
    (fdmax = -1 \/ In fdmax fds).
Proof.
  intros fs' fds.
  set (s := fd_appends fds ([], -1)).
  assert (Hrun : loop_fdset E connection curtime w
                 = Done s (mkworld fs' (reqhead w) (gslots w) (idfd w) (trace w))).
  { unfold loop_fdset. unfold bind at 1. rewrite slots_fdset_run.
    unfold bind at 1, get_reqs. rewrite requests_fdset.
    unfold for_friends, bind, get_friends.
    rewrite (fdset_fold E connection curtime (friendhead w) [] _ w eq_refl).
    cbn [app]. subst s fds fs'. now rewrite !fd_appends_app. }
  destruct (fd_appends_max fds ([], -1)) as (Hle & Hin & _);
    [intros fd []|now left|cbn; lia|].
  assert (Hfst : fst s = fds) by (subst s; now rewrite fd_appends_fst).
  exists (snd s). rewrite Hrun. fold s in Hle, Hin. rewrite Hfst in Hle, Hin.
  split; [|split; assumption].
  f_equal. rewrite <- Hfst. now destruct s.
Qed.

(** ** Connection status and the request queue *)

Section ConnFilterFacts.

Variable E : Env.

Lemma connstatus_requests_filter (out : Z) (fr : friend) (todo : list request) :
  forall kept w,
    reqhead w = (kept ++ todo)%list ->
    exists w',
      connstatus_requests out (Some fr) kept todo w = Done tt w' /\
      reqhead w'
      = (kept ++ filter (fun r => negb (memcmp_id_eq (fr_id fr) (rq_id r))) todo)%list /\
      friendhead w' = friendhead w /\ gslots w' = gslots w /\ idfd w' = idfd w /\
      (exists es, trace w' = (trace w ++ es)%list /\
         forall r, In r todo -> memcmp_id_eq (fr_id fr) (rq_id r) = true ->
                   In (EvUnlinkat out (rq_idstr r)) es /\ In (EvClose (rq_fd r)) es).
Proof.
  induction todo as [|req rest IH]; intros kept w Hq.
  - exists w. cbn. repeat (split; [now auto|]).
    exists []. rewrite app_nil_r. split; [reflexivity|]. intros r [].
  - cbn [connstatus_requests filter].
    destruct (memcmp_id_eq (fr_id fr) (rq_id req)) eqn:Hm; cbn [negb].
    + run_monad.
      match goal with
      | |- context [connstatus_requests out (Some fr) kept rest ?v] =>
          destruct (IH kept v) as (w' & Hrun & Hr & Hf & Hg & Hi & es & Ht & Hin);
            [reflexivity|]
      end.
      exists w'. split; [exact Hrun|]. split; [exact Hr|].
      cbn in Hf, Hg, Hi, Ht.
      split; [exact Hf|]. split; [exact Hg|]. split; [exact Hi|].
      exists ([EvUnlinkat out (rq_idstr req); EvClose (rq_fd req)] ++ es)%list.
      split; [rewrite Ht, <- !app_assoc; reflexivity|].
      intros r [<-|Hr'] Hk.
      * cbn. auto.
      * destruct (Hin r Hr' Hk). split; apply in_or_app; now right.
    + destruct (IH (kept ++ [req])%list w)
        as (w' & Hrun & Hr & Hf & Hg & Hi & es & Ht & Hin);
        [now rewrite <- app_assoc|].
      exists w'. split; [exact Hrun|].
      split; [rewrite Hr, <- app_assoc; reflexivity|].
      repeat (split; [assumption|]).
      exists es. split; [assumption|].
      intros r [<-|Hr'] Hk; [congruence|now apply Hin].
Qed.

Lemma cbconnstatus_found (frnum : Z) (status : TOX_CONNECTION) (w : world)
      (i : nat) (fr : friend) :
  0 <= to_int (tox_friend_get_name_size E frnum) <= TOX_MAX_NAME_LENGTH E ->
  find_friend frnum (friendhead w) = Some (i, fr) ->
  exists es,
    cbconnstatus E frnum status w
    = connstatus_requests (slot_fd w REQUEST OUT) (Some fr) [] (reqhead w)
                          (add_trace w es) /\
    In (EvDprintf (ffd fr FONLINE) (fmt_d (connection_num status) ++ NL)) es.
Proof.
  intros [Hlo Hhi] Hfind. unfold cbconnstatus.
  destruct (Z.ltb_spec (to_int (tox_friend_get_name_size E frnum)) 0) as [Hneg|_]; [lia|].
  assert (Hname : exists name, forall v,
    (if to_int (tox_friend_get_name_size E frnum) =? 0 then ret "Anonymous"
     else if to_int (tox_friend_get_name_size E frnum) <=? TOX_MAX_NAME_LENGTH E
          then ret (uninit_name E (to_int (tox_friend_get_name_size E frnum)))
          else fault) v = Done name v).
  { destruct (to_int (tox_friend_get_name_size E frnum) =? 0).
    - now exists "Anonymous".
    - apply Z.leb_le in Hhi. rewrite Hhi. eexists. reflexivity. }
  destruct Hname as [name Hname].
  unfold bind at 1. rewrite Hname.
  destruct status; run_monad; cbn [friendhead add_trace];
    rewrite Hfind; cbn [option_map snd];
    world_simpl; eexists; (split; [reflexivity|]);
    cbn; auto 10.
Qed.

End ConnFilterFacts.

(** X14 -- a connection-status callback for a friend of the queue, when
    the name size can be read: the friend's [online] file is rewritten
    with the number of the status, the requests left in the queue are
    exactly those whose key differs from the friend's, in their order, and
    the FIFO of each request removed is unlinked and closed; friends and
    slots are untouched.  When the name size cannot be read, the callback
    prints two warnings and does nothing else: the first shows the friend
    number, the second the 32 bits of the negative result read as an
    unsigned number (4294967295 for -1), the [int] being printed with
    [%ld]. *)
Theorem connstatus_clears_requests (E : Env) (frnum : Z) (status : TOX_CONNECTION)
        (w : world) :
  (forall i fr,
     0 <= to_int (tox_friend_get_name_size E frnum) <= TOX_MAX_NAME_LENGTH E ->
     find_friend frnum (friendhead w) = Some (i, fr) ->
     exists w' es,
       cbconnstatus E frnum status w = Done tt w' /\
       reqhead w'
       = filter (fun r => negb (memcmp_id_eq (fr_id fr) (rq_id r))) (reqhead w) /\
       friendhead w' = friendhead w /\ gslots w' = gslots w /\
       trace w' = (trace w ++ es)%list /\
       In (EvDprintf (ffd fr FONLINE) (fmt_d (connection_num status) ++ NL)) es /\
       forall r, In r (reqhead w) -> memcmp_id_eq (fr_id fr) (rq_id r) = true ->
                 In (EvUnlinkat (slot_fd w REQUEST OUT) (rq_idstr r)) es /\
                 In (EvClose (rq_fd r)) es) /\
  (to_int (tox_friend_get_name_size E frnum) < 0 ->
   cbconnstatus E frnum status w
   = Done tt (add_trace w
        [ EvWarn ("Failed to get name for friend number "
                  ++ fmt_d (to_uint32 frnum) ++ NL);
          EvWarn ("Failed to get name for friend number "
                  ++ fmt_d (to_int (tox_friend_get_name_size E frnum) + 2 ^ 32) ++ NL) ])).
Proof.
  split.
  - intros i fr Hsz Hfind.
    destruct (cbconnstatus_found E frnum status w i fr Hsz Hfind) as (es0 & Hrun & Hin0).
    destruct (connstatus_requests_filter (slot_fd w REQUEST OUT) fr (reqhead w) []
                (add_trace w es0) eq_refl)
      as (w' & Hreq & Hr & Hf & Hg & _ & es1 & Ht & Hin1).
    exists w', (es0 ++ es1)%list.
    split; [now rewrite Hrun|]. split; [exact Hr|].
    split; [exact Hf|]. split; [exact Hg|].
    split; [rewrite Ht; cbn; now rewrite app_assoc|].
    split; [apply in_or_app; now left|].
    intros r Hr' Hk. destruct (Hin1 r Hr' Hk).
    split; apply in_or_app; now right.
  - intros Hneg. unfold cbconnstatus.
    assert (Hr : to_uint32 (to_int (tox_friend_get_name_size E frnum))
                 = to_int (tox_friend_get_name_size E frnum) + 2 ^ 32).
    { revert Hneg. unfold to_uint32, to_int.
      pose proof (Z.mod_pos_bound (tox_friend_get_name_size E frnum) (2 ^ 32) eq_refl)
        as Hm.
      destruct (Z.ltb_spec (tox_friend_get_name_size E frnum mod 2 ^ 32) (2 ^ 31));
        intros Hneg; [lia|].
      replace (tox_friend_get_name_size E frnum mod 2 ^ 32 - 2 ^ 32 + 2 ^ 32)
        with (tox_friend_get_name_size E frnum mod 2 ^ 32) by lia.
      rewrite <- Zminus_mod_idemp_r. rewrite Z.mod_same by lia.
      rewrite Z.sub_0_r. now rewrite Z.mod_mod by lia. }
    apply Z.ltb_lt in Hneg. rewrite Hneg, Hr.
    run_monad. now rewrite add_trace_app.
Qed.

Lemma connstatus_clears_requests_witness :
  exists w',
    cbconnstatus env0 1 TOX_CONNECTION_UDP world_both = Done tt w' /\
    reqhead w' = [] /\ friendhead w' = friendhead world_both.
Proof.
  destruct (proj1 (connstatus_clears_requests env0 1 TOX_CONNECTION_UDP world_both)
              O (sample_friend tx0))
    as (w' & es & Hrun & Hr & Hf & _); [cbn; lia|reflexivity|].
  exists w'. split; [assumption|]. split; [exact Hr|exact Hf].
Defined.

(** ** Loading the friends *)

Section LoadFacts.

Variable E : Env.

Lemma friendload_loop_spec (frnums : list Z) :
  forall w w',
    friendload_loop E frnums w = Done tt w' ->
    exists new,
      friendhead w' = (friendhead w ++ new)%list /\
      map fr_num new = map to_int frnums /\
      Forall (fun f => fr_id f = tox_friend_get_public_key E (fr_num f) /\
                       fr_idstr f = Hex.id2str (fr_id f) /\
                       transfers_idle f) new /\
      reqhead w' = reqhead w.
Proof.
  induction frnums as [|n rest IH]; intros w w' H; cbn [friendload_loop] in H.
  - injection H as <-. exists []. rewrite app_nil_r. auto.
  - apply bind_done in H as (o & w1 & Hcreate & Hrest).
    destruct (friendcreate_fresh E _ w o w1 Hcreate) as (f & -> & _ & _ & Hrx & _).
    destruct (friendcreate_shape E _ w _ w1 Hcreate)
      as (f0 & es & [= <-] & Hnum & Hid & Hstr & Htx & Hfs & Hrq & _).
    apply IH in Hrest as (new & Hfs' & Hnums & Hall & Hrq').
    exists (f :: new). rewrite Hfs', Hfs, <- app_assoc.
    split; [reflexivity|]. split; [cbn; now rewrite Hnum, Hnums|].
    split; [|congruence].
    constructor; [|assumption].
    rewrite Hnum. split; [assumption|]. split; [assumption|].
    split; [now rewrite Htx|assumption].
Qed.

Lemma friendload_loop_done (frnums : list Z) :
  forall w,
    forallb (fun n => friendcreate_ok E (to_int n)) frnums = true ->
    exists w', friendload_loop E frnums w = Done tt w'.
Proof.
  induction frnums as [|n rest IH]; intros w Hok; cbn [friendload_loop].
  - now exists w.
  - cbn in Hok. apply andb_prop in Hok as [Hn Hrest].
    destruct (friendcreate_done E _ w Hn) as (o & w1 & Hrun).
    unfold bind. rewrite Hrun. now apply IH.
Qed.

End LoadFacts.

(** X15 -- [friendload] creates one friend for every friend number of the
    transport (converted to [int32_t]), in the order of the list and after
    the friends already in the queue: each has the public key the
    transport reports for its number, the name [id2str] gives that key,
    and no transfer under way; the requests are untouched.  It returns whenever the allocation and
    every [friendcreate] go well. *)
Theorem friendload_order (E : Env) (frnums : list Z) (w : world) :
  Z.of_nat (List.length frnums) < 2 ^ 32 ->
  (forall w',
     friendload E frnums w = Done tt w' ->
     exists new,
       friendhead w' = (friendhead w ++ new)%list /\
       map fr_num new = map to_int frnums /\
       Forall (fun f => fr_id f = tox_friend_get_public_key E (fr_num f) /\
                        fr_idstr f = Hex.id2str (fr_id f) /\
                        transfers_idle f) new /\
       reqhead w' = reqhead w) /\
  (sys_malloc E (Z.of_nat (List.length frnums) * 4) = true ->
   forallb (fun n => friendcreate_ok E (to_int n)) frnums = true ->
   exists w', friendload E frnums w = Done tt w').
Proof.
  intros Hlen.
  assert (Hsz : Z.of_nat (List.length frnums) mod 2 ^ 32 = Z.of_nat (List.length frnums)).
  { apply Z.mod_small. lia. }
  unfold friendload. rewrite Hsz, Nat2Z.id, firstn_all.
  split.
  - intros w'. destruct (sys_malloc E _); cbn [negb]; [|discriminate].
    apply friendload_loop_spec.
  - intros Hm Hok. rewrite Hm. cbn [negb]. now apply friendload_loop_done.
Qed.

Lemma friendload_order_witness :
  exists w',
    friendload env0 [1; 2] world_request = Done tt w' /\
    map fr_num (friendhead w') = [1; 2].
Proof.
  destruct (friendload_order env0 [1; 2] world_request) as [Hpost Hdone];
    [cbn; lia|].
  destruct Hdone as [w' Hrun]; [reflexivity|reflexivity|].
  exists w'. split; [assumption|].
  destruct (Hpost w' Hrun) as (new & Hfs & Hnums & _).
  rewrite Hfs. cbn. exact Hnums.
Defined.

(** ** The state slot *)

(** X16 -- the words the [state] slot accepts: "away" and "busy" set the
    status of the transport to 1 and 2, are echoed to [out], and the state
    is saved and the change logged; "none", like any other word, is
    answered with "invalid" on [err] and sets nothing
    ([TOX_USER_STATUS_INVALID] is defined as 0, the index of "none"). *)
Theorem state_word_accepted (E : Env) (b : Z) (bs : list Z) (rs : list readres)
        (w : world) (i : nat) :
  2 <= PIPE_BUF E ->
  datasave_ok E = true ->
  let data := read_data (PIPE_BUF E - 1) (b :: bs) in
  let word := cstr (chomp data) in
  ((i = 1%nat /\ word = "away") \/ (i = 2%nat /\ word = "busy") ->
   exists w' es,
     setuserstate E (RdBytes (b :: bs) :: rs) w = Done tt w' /\
     trace w'
     = (trace w
        ++ [ EvRead (slot_fd w STATE IN) (PIPE_BUF E - 1);
             EvTox (ToxSelfSetStatus (Z.of_nat i));
             EvFtruncate (slot_fd w STATE OUT);
             EvLseek (slot_fd w STATE OUT);
             EvDprintf (slot_fd w STATE OUT) (word ++ NL) ]
        ++ es ++ [ EvLog (": State > " ++ word ++ NL) ])%list /\
     In EvOpenSave es /\
     friendhead w' = friendhead w /\ reqhead w' = reqhead w) /\
  (word = "none" ->
   exists w',
     setuserstate E (RdBytes (b :: bs) :: rs) w = Done tt w' /\
     trace w'
     = (trace w
        ++ [ EvRead (slot_fd w STATE IN) (PIPE_BUF E - 1);
             EvFtruncate (slot_fd w STATE ERR);
             EvLseek (slot_fd w STATE ERR);
             EvDprintf (slot_fd w STATE ERR) ("invalid" ++ NL);
             EvWarn ("Invalid state: none" ++ NL) ])%list).
Proof.
  intros Hsz Hds data word. split.
  - intros Hword.
    assert (Hi : ustate_search word 0 (List.length ustate) = i).
    { destruct Hword as [[-> ->]|[-> ->]]; reflexivity. }
    assert (Hlt : i = 1%nat \/ i = 2%nat) by (destruct Hword as [[? _]|[? _]]; auto).
    unfold setuserstate.
    unfold bind at 1. unfold get_slot at 1.
    unfold bind at 1.
    destruct (fiforead_bytes E (sl_dirfd (slot_of w STATE)) (slot_fd w STATE IN)
                (gfiles IN) (PIPE_BUF E - 1) b bs rs w) as [Hrun Hn]; [lia|].
    unfold slot_of, slot_fd, slot_of in Hrun. rewrite Hrun.
    unfold bind at 1. unfold set_slot_fd at 1.
    fold data. unfold data at 1. rewrite Hn.
    fold (chomp data). fold word. rewrite Hi.
    assert (Hb1 : Nat.ltb i (List.length ustate) = true)
      by (destruct Hlt as [-> | ->]; reflexivity).
    assert (Hb2 : Nat.eqb i (List.length ustate) = false)
      by (destruct Hlt as [-> | ->]; reflexivity).
    rewrite Hb1, Hb2. cbn [when].
    run_monad.
    match goal with
    | |- context [datasave E ?v] =>
        destruct (datasave_done E v Hds) as (es & Hsave & Hin & _); rewrite Hsave
    end.
    eexists. exists es. split; [reflexivity|].
    world_simpl. unfold slot_fd, slot_of.
    split; [reflexivity|]. split; [assumption|]. split; reflexivity.
  - intros Hnone.
    destruct (setuserstate_invalid E b bs rs w Hsz) as (w' & Hrun & Ht).
    + fold data. fold word. rewrite Hnone. discriminate.
    + fold data. fold word. rewrite Hnone. discriminate.
    + exists w'. split; [assumption|]. rewrite Ht.
      fold data. fold word. now rewrite Hnone.
Qed.

Lemma state_word_accepted_witness :
  exists w' es,
    setuserstate env0 [RdBytes (bytes_of "busy" ++ [10])] world_request = Done tt w' /\
    trace w'
    = ([ EvRead 26 4095; EvTox (ToxSelfSetStatus 2); EvFtruncate 27; EvLseek 27;
         EvDprintf 27 ("busy" ++ NL) ]
       ++ es ++ [ EvLog (": State > busy" ++ NL) ])%list.
Proof.
  destruct (proj1 (state_word_accepted env0 98 (bytes_of "usy" ++ [10]) []
                     world_request 2 ltac:(cbn; lia) eq_refl))
    as (w' & es & Hrun & Ht & _).
  - right. split; reflexivity.
  - exists w', es. split; [exact Hrun|exact Ht].
Defined.

(** ** The request slot *)

Lemma chop_newline_app (msg : string) : chop_newline (msg ++ NL) = msg.
Proof.
  induction msg as [|c r IH]; [reflexivity|].
  change ((String c r ++ NL)%string) with (String c (r ++ NL)).
  destruct r as [|c' r']; cbn [append] in *.
  - cbn. destruct (Ascii.eqb c (ascii_of_nat 10)); reflexivity.
  - cbn [chop_newline] in *. now rewrite IH.
Qed.

Lemma split_space_word (buf rest : string) :
  all_chars (fun c => negb (Hex.isspace c)) buf = true ->
  split_space (buf ++ String " " rest) = (buf, String " " rest).
Proof.
  induction buf as [|c r IH]; intros Hall; [reflexivity|].
  cbn [all_chars] in Hall. apply andb_prop in Hall as [Hc Hr].
  cbn [append split_space]. apply negb_true_iff in Hc. rewrite Hc.
  now rewrite (IH Hr).
Qed.

Lemma upper_hex_no_space (s : string) :
  upper_hex s = true -> all_chars (fun c => negb (Hex.isspace c)) s = true.
Proof.
  induction s as [|c r IH]; [reflexivity|].
  cbn [upper_hex all_chars]. intros H. apply andb_prop in H as [Hc Hr].
  rewrite (IH Hr), andb_true_r. unfold Hex.isspace.
  apply negb_true_iff, orb_false_iff.
  rewrite !orb_true_iff, !andb_true_iff, !Z.leb_le in Hc.
  split; [apply Z.eqb_neq|apply andb_false_iff; rewrite !Z.leb_gt]; lia.
Qed.

Lemma unmatched_no_space (s : string) :
  all_chars unmatched s = true -> all_chars (fun c => negb (Hex.isspace c)) s = true.
Proof.
  induction s as [|c r IH]; [reflexivity|].
  cbn [all_chars]. intros H. apply andb_prop in H as [Hc Hr].
  rewrite (IH Hr), andb_true_r. unfold unmatched in Hc.
  rewrite !andb_true_iff in Hc. tauto.
Qed.

Section RequestSlotFacts.

Variable E : Env.

(** [sendfriendreq] on a read that holds an address of 76 characters, a
    space, a message and a newline; [id] is what [str2id] makes of the
    address. *)
Lemma sendfriendreq_parsed (b : Z) (bs : list Z) (rs : list readres) (w : world)
      (buf msg : string) (id : list Z) :
  2 <= PIPE_BUF E ->
  cstr (read_data (PIPE_BUF E - 1) (b :: bs)) = (buf ++ String " " (msg ++ NL))%string ->
  all_chars (fun c => negb (Hex.isspace c)) buf = true ->
  String.length buf = (TOX_FRIEND_ADDRESS_SIZE * 2)%nat ->
  Hex.str2id buf (uninit_bytes E TOX_FRIEND_ADDRESS_SIZE) = Some id ->
  add_outcome E w (sendfriendreq E (RdBytes (b :: bs) :: rs) w) id msg.
Proof.
  intros Hsz Hdata Hnosp Hlen Hdec. unfold add_outcome.
  set (r := tox_friend_add E id msg).
  set (err := slot_fd w REQUEST ERR).
  set (head := [ EvRead (slot_fd w REQUEST IN) (PIPE_BUF E - 1);
                 EvTox (ToxFriendAdd id msg); EvFtruncate err; EvLseek err ]).
  assert (Hstart : forall k : M unit,
    sendfriendreq E (RdBytes (b :: bs) :: rs) w
    = (emit (EvTox (ToxFriendAdd id msg)) ;;
       emit (EvFtruncate err) ;; emit (EvLseek err) ;;
       if r <? 0 then
         emit (EvDprintf err (nth (Z.to_nat (- r)) reqerr "(null)" ++ NL))
       else
         friendcreate E r ;; datasave E ;; logmsg ("Request > Sent" ++ NL))
      (mkworld (friendhead w) (reqhead w)
         (replace_nth (slot_pos REQUEST)
            (mkslot (sl_name (slot_of w REQUEST)) (sl_outisfolder (slot_of w REQUEST))
               (sl_dirfd (slot_of w REQUEST))
               (fd_set (sl_fd (slot_of w REQUEST)) (gfile_pos IN)
                       (slot_fd w REQUEST IN)))
            (gslots w))
         (idfd w) (trace w ++ [EvRead (slot_fd w REQUEST IN) (PIPE_BUF E - 1)]))).
  { intros _. unfold sendfriendreq.
    unfold bind at 1. unfold get_slot at 1.
    unfold bind at 1.
    destruct (fiforead_bytes E (sl_dirfd (slot_of w REQUEST)) (slot_fd w REQUEST IN)
                (gfiles IN) (PIPE_BUF E - 1) b bs rs w) as [Hrun Hn]; [lia|].
    unfold slot_of, slot_fd, slot_of in Hrun. rewrite Hrun.
    unfold bind at 1. unfold set_slot_fd at 1.
    rewrite Hn, Hdata, (split_space_word _ _ Hnosp), Hlen, Nat.eqb_refl.
    cbn [negb]. rewrite Hdec.
    replace (match (msg ++ NL)%string with
             | EmptyString => "ratox is awesome!"
             | String _ _ => chop_newline (msg ++ NL)
             end) with msg
      by (rewrite chop_newline_app; destruct msg; reflexivity).
    reflexivity. }
  rewrite (Hstart (ret tt)). clear Hstart.
  split.
  - intros Hneg. apply Z.ltb_lt in Hneg. rewrite Hneg.
    run_monad. world_simpl. eexists. split; [reflexivity|].
    split; reflexivity.
  - intros Hpos Hfc Hds. apply Z.ltb_ge in Hpos. rewrite Hpos.
    unfold bind at 1. rewrite emit_run.
    unfold bind at 1. rewrite emit_run.
    unfold bind at 1. rewrite emit_run.
    rewrite !add_trace_app.
    match goal with
    | |- context [bind (friendcreate E r) _ ?v] =>
        destruct (friendcreate_done E r v Hfc) as (o & w1 & Hc);
        unfold bind at 1; rewrite Hc;
        destruct (friendcreate_shape E r v o w1 Hc)
          as (f & es1 & -> & Hnum & _ & _ & _ & Hfs & _ & Ht1)
    end.
    destruct (datasave_done E w1 Hds) as (es2 & Hsave & Hin & _).
    unfold bind at 1. rewrite Hsave. unfold logmsg. rewrite emit_run.
    exists (add_trace (add_trace w1 es2) [EvLog ("Request > Sent" ++ NL)]), f,
           (EvOpendir (fr_idstr f) :: es1 ++ es2)%list.
    split; [reflexivity|].
    cbn [add_trace friendhead trace] in *.
    split; [exact Hfs|]. split; [exact Hnum|].
    split; [right; apply in_or_app; now right|].
    rewrite Ht1. subst head. cbn [app]. rewrite <- ?app_assoc. cbn [app].
    rewrite <- ?app_assoc. reflexivity.
Qed.

End RequestSlotFacts.

Lemma str2id_address (addr buf : list Z) :
  Forall Hex.is_byte addr ->
  List.length buf = List.length addr ->
  Hex.str2id (Hex.id2str_from addr 0 (List.length addr)) buf = Some addr.
Proof.
  intros Hb Hlen. unfold Hex.str2id.
  rewrite HexFacts.id2str_from_length.
  replace (Nat.div (2 * List.length addr) 2) with (List.length addr)
    by (rewrite Nat.mul_comm, Nat.div_mul; lia).
  destruct (HexFacts.str2id_loop_decodes (fun c => c)
              (fun h l rest Hh Hl => HexFacts.sscanf_upper h l rest Hh Hl)
              addr Hb (List.length addr) 0 buf Hlen)
    as (buf' & Hrun & Hl & Hnth); [lia|intros j Hj; lia|].
  rewrite HexFacts.smap_id in Hrun. rewrite Hrun. f_equal.
  apply (nth_ext _ _ 0 0); [assumption|].
  intros j Hj. apply Hnth. lia.
Qed.





(** ** What a FIFO read returns *)


(** X19 -- whatever the reads meet, a call of [fiforead] that returns has
    only made system calls, and returns one of three things: -1 with the
    descriptor as it was (the read would block); 0 with the descriptor of
    the FIFO made anew (a reset that went well); or the number of bytes
    now in the buffer, at least 1 and at most [sz], with the descriptor as
    it was.  So a caller that passes the size of its buffer less one can
    store a NUL after the bytes read. *)
Theorem fiforead_result (E : Env) (dirfd fd : Z) (f : file) (sz : Z)
        (rs : list readres) (w : world) (n : Z) (data : list Z) (fd' : Z)
        (w' : world) :
  fiforead E dirfd fd f sz rs w = Done (n, data, fd') w' ->
  (exists es, w' = add_trace w es) /\
  ((n = -1 /\ data = [] /\ fd' = fd) \/
   (n = 0 /\ data = [] /\ fd' = open_fd E dirfd f /\ fiforeset_ok E dirfd f = true) \/
   (0 < n <= sz /\ n = Z.of_nat (List.length data) /\ fd' = fd)).
Proof.
  intros Hrun. split; [exact (traces_fiforead E dirfd fd f sz rs _ _ _ Hrun)|].
  revert w Hrun. induction rs as [|r rs IH]; intros w Hrun; [discriminate|].
  cbn [fiforead] in Hrun.
  apply bind_done in Hrun as ([] & w1 & _ & Hrun).
  destruct r as [bs|e].
  - destruct (Z.eqb_spec (Z.of_nat (List.length (firstn (Z.to_nat sz) bs))) 0) as [Hz|Hnz].
    + apply bind_done in Hrun as (fd1 & w2 & Hreset & Hret).
      injection Hret as <- <- <- _.
      apply fiforeset_done_inv in Hreset as [Hok ->]. right. left. auto.
    + injection Hrun as <- <- <- _. right. right.
      rewrite length_firstn in *.
      split; [|auto]. lia.
  - destruct (errno_eqb e EINTR); [now apply IH with (w := w1)|].
    destruct (errno_eqb e EWOULDBLOCK); [|discriminate].
    injection Hrun as <- <- <- _. left. auto.
Qed.

Lemma fiforead_result_witness :
  exists w',
    fiforead env0 10 20 (gfiles IN) 2 [RdErr EINTR; RdBytes [104; 105; 10]] world_request
    = Done (2, [104; 105], 20) w' /\
    0 < 2 <= 2.
Proof.
  eexists. split; [vm_compute; reflexivity|].
  destruct (fiforead_result env0 10 20 (gfiles IN) 2
              [RdErr EINTR; RdBytes [104; 105; 10]] world_request 2 [104; 105] 20 _
              ltac:(vm_compute; reflexivity))
    as [_ [(H & _)|[(H & _)|(H & _)]]]; [discriminate H|discriminate H|exact H].
Defined.

(** ** A request from a friend *)

Lemma bytes_eqb_refl (a : list Z) : bytes_eqb a a = true.
Proof. induction a as [|x a IH]; cbn; [reflexivity|]. now rewrite Z.eqb_refl. Qed.

Section QueueFacts.

Variable E : Env.

Lemma cbfriendrequest_queued (id data : list Z) (w : world) :
  let key := firstn TOX_CLIENT_ID_SIZE id in
  let fifo := mkfile NONE (Hex.id2str key) [O_RDONLY; O_NONBLOCK] in
  sys_calloc E 1 (sizeof_request E) = true ->
  data = [] \/ sys_malloc E (Z.of_nat (List.length data) + 1) = true ->
  fiforeset_ok E (slot_fd w REQUEST OUT) fifo = true ->
  exists w1 msg,
    cbfriendrequest E id data w = Done tt w1 /\
    reqhead w1
    = (reqhead w
       ++ [mkrequest key (Hex.id2str key) msg
                     (open_fd E (slot_fd w REQUEST OUT) fifo)])%list /\
    friendhead w1 = friendhead w /\ gslots w1 = gslots w /\ idfd w1 = idfd w.
Proof.
  intros key fifo Hc Hm Hok. unfold cbfriendrequest.
  rewrite alloc_bind, Hc.
  assert (Hmsg : ((Z.of_nat (List.length data) >? 0)
                  && negb (sys_malloc E (Z.of_nat (List.length data) + 1)))%bool = false).
  { destruct Hm as [-> | ->]; [reflexivity|apply andb_false_r]. }
  rewrite Hmsg. unfold bind at 1, ret at 1.
  unfold bind at 1, get_slot at 1.
  unfold bind at 1. fold key. fold fifo.
  unfold slot_fd, slot_of in Hok. rewrite (fiforeset_run E _ _ _ _ Hok).
  run_monad. eexists. eexists. split; [reflexivity|].
  cbn [add_trace reqhead friendhead gslots idfd]. auto.
Qed.

End QueueFacts.

(** X20 -- a request and a friend with the same key: the request callback
    queues the request behind the others, with the FIFO it made for it;
    the next connection-status callback for that friend takes it out
    again, together with any other request of that key, and leaves the
    requests of other keys and the friends as they were.  The request
    callback returns when the record and, for a message that is not empty,
    the copy of the message can be allocated and the reset of the FIFO goes
    well. *)
Theorem request_dropped_for_friend (E : Env) (id data : list Z) (frnum : Z)
        (status : TOX_CONNECTION) (w : world) (i : nat) (fr : friend) :
  let key := firstn TOX_CLIENT_ID_SIZE id in
  let fifo := mkfile NONE (Hex.id2str key) [O_RDONLY; O_NONBLOCK] in
  sys_calloc E 1 (sizeof_request E) = true ->
  data = [] \/ sys_malloc E (Z.of_nat (List.length data) + 1) = true ->
  fiforeset_ok E (slot_fd w REQUEST OUT) fifo = true ->
  0 <= to_int (tox_friend_get_name_size E frnum) <= TOX_MAX_NAME_LENGTH E ->
  find_friend frnum (friendhead w) = Some (i, fr) ->
  firstn TOX_CLIENT_ID_SIZE (fr_id fr) = key ->
  exists w1 w2 msg,
    cbfriendrequest E id data w = Done tt w1 /\
    reqhead w1
    = (reqhead w
       ++ [mkrequest key (Hex.id2str key) msg
                     (open_fd E (slot_fd w REQUEST OUT) fifo)])%list /\
    cbconnstatus E frnum status w1 = Done tt w2 /\
    reqhead w2
    = filter (fun r => negb (memcmp_id_eq (fr_id fr) (rq_id r))) (reqhead w) /\
    friendhead w2 = friendhead w.
Proof.
  intros key fifo Hcalloc Hmalloc Hok Hsz Hfind Hkey.
  destruct (cbfriendrequest_queued E id data w Hcalloc Hmalloc Hok)
    as (w1 & msg & Hreq & Hq1 & Hf1 & Hg1 & _).
  fold key in Hq1. fold fifo in Hq1.
  assert (Hfind1 : find_friend frnum (friendhead w1) = Some (i, fr)) by congruence.
  destruct (cbconnstatus_found E frnum status w1 i fr Hsz Hfind1) as (es0 & Hrun & _).
  destruct (connstatus_requests_filter (slot_fd w1 REQUEST OUT) fr (reqhead w1) []
              (add_trace w1 es0) eq_refl)
    as (w2 & Hloop & Hr & Hf & _).
  exists w1, w2, msg.
  split; [exact Hreq|]. split; [exact Hq1|].
  split; [now rewrite Hrun|].
  split; [|cbn in Hf; congruence].
  rewrite Hr, Hq1. cbn [app]. rewrite filter_app. cbn [filter rq_id].
  assert (Hsame : memcmp_id_eq (fr_id fr) key = true).
  { unfold memcmp_id_eq. rewrite Hkey. unfold key.
    rewrite firstn_firstn, Nat.min_id. apply bytes_eqb_refl. }
  rewrite Hsame. cbn [negb]. apply app_nil_r.
Qed.

Lemma request_dropped_for_friend_witness :
  exists w1 w2,
    cbfriendrequest env0 sample_key (bytes_of "hi") (world_friend tx0) = Done tt w1 /\
    List.length (reqhead w1) = 1%nat /\
    cbconnstatus env0 1 TOX_CONNECTION_TCP w1 = Done tt w2 /\
    reqhead w2 = [].
Proof.
  destruct (request_dropped_for_friend env0 sample_key (bytes_of "hi") 1
              TOX_CONNECTION_TCP (world_friend tx0) O (sample_friend tx0))
    as (w1 & w2 & msg & H1 & H2 & H3 & H4 & _);
    [reflexivity|right; reflexivity|reflexivity|cbn; lia|reflexivity|reflexivity|].
  exists w1, w2. split; [exact H1|]. split; [now rewrite H2|].
  split; [exact H3|exact H4].
Defined.

(** ** A send transfer from start to end *)

Section UploadFacts.

Variable E : Env.

(** A round of [sendfriendfile] that finds the end of the data. *)
Lemma sendfriendfile_eof (start : timespec) (ce : chunk_env) (g : friend) (v : world) :
  tx_pendingbuf (fr_tx g) = false ->
  0 < interval E ->
  ce_reads ce = [RdBytes []] ->
  fiforeset_ok E (fr_dirfd g) (ffiles FFILE_IN) = true ->
  exists es,
    sendfriendfile E start [ce] g v
    = Done (set_tx (set_fr_fd g FFILE_IN (open_fd E (fr_dirfd g) (ffiles FFILE_IN)))
                   (set_state (fr_tx g) TRANSFER_NONE))
           (add_trace v
              (EvRead (ffd g FFILE_IN) (tx_chunksz (fr_tx g))
               :: reset_events (fr_dirfd g) (ffd g FFILE_IN) (ffiles FFILE_IN)
               ++ EvTox (ToxFileControl (fr_num g) (tx_fnum (fr_tx g))
                                        TOX_FILE_CONTROL_CANCEL)
               :: es)).
Proof.
  intros Hp Hint Hreads Hreset.
  assert (Hin : in_time E (mktime 0 0) = true).
  { unfold in_time. cbn [tv_sec tv_nsec Z.eqb andb].
    change (round_double 0) with 0. apply Z.ltb_lt. lia. }
  unfold sendfriendfile. cbn [sendfriendfile_loop]. rewrite Hin.
  unfold bind at 1. unfold chunk_round. rewrite Hp.
  unfold bind at 1, ret at 1. cbn [negb].
  rewrite Hreads. cbn [fiforead firstn].
  replace (firstn (Z.to_nat (tx_chunksz (fr_tx g))) (@nil Z)) with (@nil Z)
    by (now rewrite firstn_nil).
  cbn [List.length Z.of_nat Z.eqb].
  unfold bind at 1. unfold bind at 1. rewrite emit_run.
  unfold bind at 1. rewrite (fiforeset_run E _ _ _ _ Hreset).
  unfold ret at 1. cbn [Z.eqb].
  unfold bind at 1. rewrite emit_run.
  cbn [set_fr_fd fr_num fr_tx].
  destruct (tox_file_control E (fr_num g) (tx_fnum (fr_tx g)) TOX_FILE_CONTROL_CANCEL <? 0);
    cbn [when]; run_monad; rewrite ?add_trace_app;
    eexists; reflexivity.
Qed.

End UploadFacts.

(** X21 -- the course of an upload.  Data on [file_in] of an idle friend
    announces a transfer and leaves the data unread; while the peer has
    not answered, [file_in] is left alone; the peer's RESUME for transfer
    0 puts the transfer in progress with a chunk buffer of 1371 bytes; and
    once the writer has closed [file_in], the next read finds the end of
    the data, the FIFO is made anew, the completion is signalled to the
    peer with a CANCEL, and the friend is idle again, changed on its send
    side only. *)
Theorem upload_course (E : Env) (sent : Z) (start : timespec) (ce : chunk_env)
        (f : friend) (w : world) :
  tx_state (fr_tx f) = TRANSFER_NONE ->
  0 <= sent ->
  sys_malloc E (tox_file_data_size 0) = true ->
  0 < interval E ->
  ce_reads ce = [RdBytes []] ->
  fiforeset_ok E (fr_dirfd f) (ffiles FFILE_IN) = true ->
  exists f1 w1 f2 w2 f3 w3,
    file_in_round E sent start [] f w = Done f1 w1 /\
    tx_state (fr_tx f1) = TRANSFER_INITIATED /\
    (forall script, file_in_round E sent start script f1 w1 = Done f1 w1) /\
    filecontrol_friend E 0 TOX_FILE_CONTROL_RESUME f1 w1 = Done f2 w2 /\
    tx_state (fr_tx f2) = TRANSFER_INPROGRESS /\
    tx_chunksz (fr_tx f2) = 1371 /\
    file_in_round E sent start [ce] f2 w2 = Done f3 w3 /\
    tx_state (fr_tx f3) = TRANSFER_NONE /\
    send_side f f3 /\
    (exists es,
       trace w3
       = (trace w
          ++ [ EvTox (ToxFileSend (fr_num f) (tx_buf (fr_tx f)) (tx_n (fr_tx f)));
               EvLog (": " ++ fr_name f ++ " : Tx > Initiated" ++ NL);
               EvLog (": " ++ fr_name f ++ " : Tx > In Progress" ++ NL);
               EvRead (ffd f FFILE_IN) 1371 ]
          ++ reset_events (fr_dirfd f) (ffd f FFILE_IN) (ffiles FFILE_IN)
          ++ EvTox (ToxFileControl (fr_num f) 0 TOX_FILE_CONTROL_CANCEL) :: es)%list).
Proof.
  intros Hst Hsent Hmalloc Hint Hreads Hreset.
  apply Z.ltb_ge in Hsent.
  set (f1 := set_tx f (set_state (fr_tx f) TRANSFER_INITIATED)).
  set (w1 := add_trace w
               [ EvTox (ToxFileSend (fr_num f) (tx_buf (fr_tx f)) (tx_n (fr_tx f)));
                 EvLog (": " ++ fr_name f ++ " : Tx > Initiated" ++ NL) ]).
  set (f2 := set_tx f1 (mktransfer (0 mod 256) (Some (tox_file_data_size 0))
                          (tox_file_data_size 0) 0 false TRANSFER_INPROGRESS
                          (tx_lastblock (fr_tx f1)) (tx_cooldown (fr_tx f1)))).
  set (w2 := add_trace w1 [EvLog (": " ++ fr_name f ++ " : Tx > In Progress" ++ NL)]).
  assert (H1 : file_in_round E sent start [] f w = Done f1 w1).
  { unfold file_in_round. rewrite Hst. run_monad. rewrite Hsent.
    subst w1. now rewrite add_trace_app. }
  assert (H2 : filecontrol_friend E 0 TOX_FILE_CONTROL_RESUME f1 w1 = Done f2 w2).
  { unfold filecontrol_friend. subst f1. cbn [Z.eqb andb set_tx fr_tx set_state tx_state
                                               tstate_eqb].
    rewrite Hmalloc. cbn [negb]. run_monad. reflexivity. }
  destruct (sendfriendfile_eof E start ce f2 w2 eq_refl Hint Hreads Hreset)
    as (es & H3).
  do 6 eexists.
  split; [exact H1|]. split; [reflexivity|].
  split; [intros script; reflexivity|].
  split; [exact H2|]. split; [reflexivity|]. split; [reflexivity|].
  split; [exact H3|]. split; [reflexivity|].
  split; [subst f2 f1; side_solve|].
  exists es. subst w2 w1. cbn [add_trace trace].
  rewrite <- !app_assoc. reflexivity.
Qed.

Lemma upload_course_witness :
  exists f1 w1 f2 w2 f3 w3,
    file_in_round env0 0 (mktime 7 0) [] (sample_friend tx0) (world_friend tx0)
    = Done f1 w1 /\
    filecontrol_friend env0 0 TOX_FILE_CONTROL_RESUME f1 w1 = Done f2 w2 /\
    file_in_round env0 0 (mktime 7 0)
      [mkchunk 0 (mktime 0 0) [RdBytes []] 0 (mktime 7 0)] f2 w2
    = Done f3 w3 /\
    tx_state (fr_tx f3) = TRANSFER_NONE.
Proof.
  destruct (upload_course env0 0 (mktime 7 0)
              (mkchunk 0 (mktime 0 0) [RdBytes []] 0 (mktime 7 0))
              (sample_friend tx0) (world_friend tx0))
    as (f1 & w1 & f2 & w2 & f3 & w3 & H1 & _ & _ & H4 & _ & _ & H7 & H8 & _);
    try reflexivity; try (cbn; lia).
  exists f1, w1, f2, w2, f3, w3. auto.
Defined.

(** ** When the transport connects *)

Lemma cancel_round_done (E : Env) (u : unit) (f : friend) (w : world) :
  fiforeset_ok E (fr_dirfd f) (ffiles FFILE_IN) = true ->
  exists f' u' w', cancel_round E u f w = Done (f', u') w'.
Proof.
  intros Hok. unfold cancel_round.
  destruct (canceltxtransfer_done E f w Hok) as (f1 & w1 & Htx).
  destruct (cancelrxtransfer_done E f1 w1) as (f2 & w2 & Hrx).
  unfold bind. rewrite Htx, Hrx. do 3 eexists. reflexivity.
Qed.

Lemma Forall2_right {A} (R : A -> A -> Prop) (P : A -> Prop) (l l' : list A) :
  (forall a b, R a b -> P b) -> Forall2 R l l' -> Forall P l'.
Proof. intros H HF. induction HF; constructor; eauto. Qed.

(** X22 -- when [loop] finds the transport connected after it was not, it
    cancels both transfers of every friend: afterwards every friend is
    idle and otherwise the friend it was, and the requests and slots are
    untouched.  The sweep returns whenever the resets of [file_in] go
    well. *)
Theorem connected_resets_transfers (E : Env) (w : world) :
  (forall w',
     loop_connected E w = Done tt w' ->
     Forall transfers_idle (friendhead w') /\
     Forall2 same_friend (friendhead w) (friendhead w') /\
     reqhead w' = reqhead w /\ gslots w' = gslots w /\ idfd w' = idfd w) /\
  (forallb (fun f => fiforeset_ok E (fr_dirfd f) (ffiles FFILE_IN)) (friendhead w)
   = true ->
   exists w', loop_connected E w = Done tt w').
Proof.
  split.
  - intros w' Hrun. unfold loop_connected in Hrun.
    destruct (for_friends_spec (cancel_round E)
                (fun _ => True) (fun f f' => step_kept f f' /\ transfers_idle f')
                (fun _ _ => True) (traces_cancel_round E))
      with (s := tt) (w := w) (s' := tt) (w' := w')
      as (HF & _ & _ & _ & Hr & Hg & Hi); auto.
    { intros s f v f' s' v' _ Hb. split; [|auto].
      eapply cancel_round_spec. eassumption. }
    split; [eapply Forall2_right; [|exact HF]; now intros a b [_ H]|].
    split; [eapply Forall2_weaken; [|exact HF]; now intros a b [[H _] _]|auto].
  - intros Hok. unfold loop_connected, for_friends. run_monad.
    destruct (friends_fold_done (cancel_round E)
                (fun f => fiforeset_ok E (fr_dirfd f) (ffiles FFILE_IN) = true)) with
      (todo := friendhead w) (i := O) (s := tt) (w := w) as ([] & w' & Hrun).
    + intros s f v Hf. now apply cancel_round_done.
    + apply Forall_forall. now apply forallb_forall.
    + now exists w'.
Qed.

Lemma connected_resets_transfers_witness :
  exists w',
    loop_connected env0 (world_friend tx_blocked) = Done tt w' /\
    Forall transfers_idle (friendhead w').
Proof.
  destruct (connected_resets_transfers env0 (world_friend tx_blocked))
    as [Hpost Hdone].
  destruct Hdone as [w' Hrun]; [reflexivity|].
  exists w'. split; [assumption|]. now apply Hpost.
Defined.

(** ** Saving the state *)

(** X23 -- [datasave] returns exactly when the save file opens, the buffer
    is allocated and the write takes all [sz] bytes ([sz] is the size of
    the transport's data, plus the encryption overhead when the file is
    encrypted); it has then written, synced and closed the file, in this
    order.  In every other case the process ends in [eprintf], with a
    message that names the save file when it is the opening or the writing
    that failed, and nothing has been synced. *)
Theorem datasave_outcome (E : Env) (w : world) :
  let sz := if encryptsavefile E then tox_encrypted_size E else tox_size E in
  (datasave_ok E = true ->
   exists fd,
     sys_open_save E = Ok fd /\
     datasave E w
     = Done tt
         (add_trace w
            (EvOpenSave
             :: (if encryptsavefile E && negb (tox_pass_encrypt_ok E) then []
                 else [EvTox ToxGetSavedata])
             ++ [EvWriteSave fd sz; EvFsync fd; EvClose fd]))) /\
  (datasave_ok E = false ->
   exists msg es,
     datasave E w = Fatal msg (add_trace w es) /\
     (forall fd, ~ In (EvFsync fd) es) /\
     (msg = ("open " ++ savefile E ++ ":")%string \/ msg = "malloc:" \/
      msg = ("write " ++ savefile E ++ ":")%string)).
Proof.
  intros sz. unfold datasave_ok, datasave. fold sz. run_monad.
  destruct (sys_open_save E) as [fd|e].
  - split.
    + intros Hok. apply andb_prop in Hok as [Hm Hw]. rewrite Hm, Hw. cbn [negb].
      exists fd. split; [reflexivity|].
      destruct (encryptsavefile E); [destruct (tox_pass_encrypt_ok E)|];
        cbn [andb negb when]; rewrite ?add_trace_app; reflexivity.
    + intros Hbad. apply andb_false_iff in Hbad.
      destruct (sys_malloc E sz) eqn:Hm; cbn [negb].
      * destruct Hbad as [Hbad|Hw]; [discriminate|]. rewrite Hw. cbn [negb].
        destruct (encryptsavefile E); [destruct (tox_pass_encrypt_ok E)|];
          cbn [when]; rewrite ?add_trace_app;
          do 2 eexists; (split; [reflexivity|]);
          (split; [|right; right; reflexivity]); intros fd0 Hin; cbn in Hin;
          repeat (destruct Hin as [Hin|Hin]; [discriminate|]); exact Hin.
      * exists "malloc:", [EvOpenSave]. split; [reflexivity|].
        split; [|auto]. intros fd0 [Hin|[]]. discriminate.
  - split; [discriminate|]. intros _.
    exists ("open " ++ savefile E ++ ":")%string, [EvOpenSave]. split; [reflexivity|].
    split; [|auto]. intros fd0 [Hin|[]]. discriminate.
Qed.

Lemma datasave_outcome_witness :
  datasave env0 world_request
  = Done tt (add_trace world_request
               [EvOpenSave; EvTox ToxGetSavedata; EvWriteSave 6 1024; EvFsync 6;
                EvClose 6]).
Proof.
  destruct (proj1 (datasave_outcome env0 world_request) eq_refl) as (fd & Hfd & Hrun).
  injection Hfd as <-. exact Hrun.
Defined.
